(** * OpenProject MCP server: the tool layer of [server.py]

    A shallow embedding of the tools defined in
    [src/openproject_mcp_server/server.py] and of the Python fragments they
    rely on: dynamically typed values, the exceptions raised by dictionary
    access, [json.dumps], and the lazily created global client.

    Conventions.
    - A Python [str] is a [string] holding its UTF-8 encoding; operations
      that count characters ([len], slicing, iteration) work on code points.
    - A Python [dict] with string keys is an association list in insertion
      order, which is the order [json.dumps] and iteration observe.
    - A coroutine that talks to the OpenProject client is an action on a
      [World]: the process environment, the global [client] and the log of
      calls made on the client, together with the answers of the remote
      side.  Logging is not part of the model. *)

From Stdlib Require Import ZArith List String Ascii Bool Lia DecimalString.
From stdpp Require Import base gmap list strings.

#[local] Set Warnings "-register-all".

(* ====================================================================== *)
(** ** Text helpers *)
(* ====================================================================== *)

Module Text.

Definition nl : string := String "010"%char EmptyString.
Definition dquote : string := String "034"%char EmptyString.
Definition squote : string := "'".
Definition backslash : string := String "092"%char EmptyString.

Definition code (c : ascii) : N := N_of_ascii c.

(** Bytes [10xxxxxx] continue a UTF-8 sequence. *)
Definition is_continuation (c : ascii) : bool :=
  N.eqb (N.land (code c) 192) 128.

Definition starts_with_continuation (s : string) : bool :=
  match s with
  | EmptyString => false
  | String c _ => is_continuation c
  end.

(** The characters (code points) of a string, each as its UTF-8 bytes. *)
Fixpoint chars (s : string) : list string :=
  match s with
  | EmptyString => []
  | String c s' =>
      match chars s' with
      | h :: t =>
          if starts_with_continuation s' then String c h :: t
          else String c EmptyString :: h :: t
      | [] => [String c EmptyString]
      end
  end.

Definition str_len (s : string) : nat := length (chars s).

(** [s[:n]] *)
Definition str_take (n : nat) (s : string) : string :=
  String.concat EmptyString (take n (chars s)).

Fixpoint contains_char (c : ascii) (s : string) : bool :=
  match s with
  | EmptyString => false
  | String c' s' => Ascii.eqb c c' || contains_char c s'
  end.

Definition lower_ascii (c : ascii) : ascii :=
  let n := code c in
  if N.leb 65 n && N.leb n 90 then ascii_of_N (n + 32) else c.

(** [str.lower] on the ASCII letters, which is all that a comparison
    with an ASCII literal without [k] or [i] can observe. *)
Fixpoint lower (s : string) : string :=
  match s with
  | EmptyString => EmptyString
  | String c s' => String (lower_ascii c) (lower s')
  end.

(** [s.replace(old, new)] for a non-empty [old]: leftmost,
    non-overlapping occurrences. *)
Fixpoint replace_fuel (fuel : nat) (old new s : string) : string :=
  match fuel with
  | O => s
  | S fuel' =>
      match s with
      | EmptyString => EmptyString
      | String c s' =>
          if String.prefix old s
          then new +:+ replace_fuel fuel' old new
                         (String.substring (String.length old)
                            (String.length s - String.length old) s)
          else String c (replace_fuel fuel' old new s')
      end
  end.

Definition replace (old new s : string) : string :=
  replace_fuel (S (String.length s)) old new s.

Definition hex_digit (n : N) : string :=
  String (ascii_of_N (if N.ltb n 10 then 48 + n else 87 + n)) EmptyString.

Definition hex2 (n : N) : string :=
  hex_digit (N.land (N.shiftr n 4) 15) +:+ hex_digit (N.land n 15).

Definition hex4 (n : N) : string :=
  hex2 (N.land (N.shiftr n 8) 255) +:+ hex2 (N.land n 255).

(** The code point encoded by one UTF-8 sequence. *)
Definition lead_bits (len : nat) (c : ascii) : N :=
  match len with
  | 1%nat => code c
  | 2%nat => N.land (code c) 31
  | 3%nat => N.land (code c) 15
  | _ => N.land (code c) 7
  end.

Fixpoint cont_bits (acc : N) (s : string) : N :=
  match s with
  | EmptyString => acc
  | String c s' => cont_bits (N.lor (N.shiftl acc 6) (N.land (code c) 63)) s'
  end.

Definition code_point (ch : string) : N :=
  match ch with
  | EmptyString => 0
  | String c rest => cont_bits (lead_bits (String.length ch) c) rest
  end.

Definition decimal (n : Z) : string := NilZero.string_of_int (Z.to_int n).

End Text.

(* ====================================================================== *)
(** ** Python values, exceptions and the builtins used by the tools *)
(* ====================================================================== *)

Module Py.
Import Text.

(** A [float] is carried as its [repr]: the tools pass floats through and
    print them, they never compute with them. *)
Inductive value : Type :=
| VNone
| VBool (b : bool)
| VInt (n : Z)
| VFloat (repr : string)
| VStr (s : string)
| VList (items : list value)
| VDict (entries : list (string * value)).

(** [ClientError] stands for whatever the client raises (transport
    failure, remote rejection); only its [str] is observed. *)
Inductive exn : Type :=
| ValueError (msg : string)
| KeyError (key : string)
| AttributeError (msg : string)
| TypeError (msg : string)
| ClientError (msg : string).

Inductive result (A : Type) : Type :=
| Ok (a : A)
| Raise (e : exn).
Arguments Ok {A} a.
Arguments Raise {A} e.

#[global] Instance result_ret : MRet result := fun A a => Ok a.
#[global] Instance result_bind : MBind result :=
  fun A B f m => match m with Ok a => f a | Raise e => Raise e end.

Definition type_name (v : value) : string :=
  match v with
  | VNone => "NoneType"
  | VBool _ => "bool"
  | VInt _ => "int"
  | VFloat _ => "float"
  | VStr _ => "str"
  | VList _ => "list"
  | VDict _ => "dict"
  end.

(** [bool(v)] *)
Definition truthy (v : value) : bool :=
  match v with
  | VNone => false
  | VBool b => b
  | VInt n => negb (Z.eqb n 0)
  | VFloat r => negb (String.eqb r "0.0" || String.eqb r "-0.0")
  | VStr s => negb (String.eqb s EmptyString)
  | VList items => match items with [] => false | _ => true end
  | VDict entries => match entries with [] => false | _ => true end
  end.

(** [v is None] *)
Definition is_none (v : value) : bool :=
  match v with VNone => true | _ => false end.

(** [v == "literal"] *)
Definition eq_str (v : value) (lit : string) : bool :=
  match v with VStr s => String.eqb s lit | _ => false end.

(** *** Dictionaries *)

Fixpoint dict_lookup (k : string) (d : list (string * value)) : option value :=
  match d with
  | [] => None
  | (k', v) :: d' => if String.eqb k k' then Some v else dict_lookup k d'
  end.

(** [d[k] = v]: replaces in place, or appends a new key. *)
Fixpoint dict_set (d : list (string * value)) (k : string) (v : value)
  : list (string * value) :=
  match d with
  | [] => [(k, v)]
  | (k', v') :: d' =>
      if String.eqb k k' then (k', v) :: d' else (k', v') :: dict_set d' k v
  end.

Definition keys (d : list (string * value)) : list string := map fst d.

Definition no_attribute (v : value) (attr : string) : exn :=
  AttributeError ("'" +:+ type_name v +:+ "' object has no attribute '"
                  +:+ attr +:+ "'").

(** [v.get(k, default)] *)
Definition get (v : value) (k : string) (default : value) : result value :=
  match v with
  | VDict d => Ok (match dict_lookup k d with Some x => x | None => default end)
  | _ => Raise (no_attribute v "get")
  end.

(** [repr] of a [str], character by character.  Outside ASCII, the
    characters of the Latin-1 block that Python does not print (U+0080 to
    U+00A0 and U+00AD) are escaped; from U+0100 on every character is taken
    as printable. *)
Definition repr_char (quote : string) (ch : string) : string :=
  let n := code_point ch in
  if N.eqb n 92 then backslash +:+ backslash
  else if String.eqb ch quote then backslash +:+ quote
  else if N.eqb n 10 then backslash +:+ "n"
  else if N.eqb n 13 then backslash +:+ "r"
  else if N.eqb n 9 then backslash +:+ "t"
  else if N.ltb n 32 || N.eqb n 127 || (N.leb 128 n && N.leb n 160)
          || N.eqb n 173
       then backslash +:+ "x" +:+ hex2 n
  else ch.

Definition repr_str (s : string) : string :=
  let quote :=
    if contains_char "'"%char s && negb (contains_char "034"%char s)
    then dquote else squote in
  quote +:+ String.concat EmptyString (map (repr_char quote) (chars s))
  +:+ quote.

Fixpoint repr (v : value) : string :=
  match v with
  | VNone => "None"
  | VBool b => if b then "True" else "False"
  | VInt n => decimal n
  | VFloat r => r
  | VStr s => repr_str s
  | VList items => "[" +:+ String.concat ", " (map repr items) +:+ "]"
  | VDict entries =>
      "{" +:+ String.concat ", "
                (map (fun kv => let '(k, x) := kv in
                                repr_str k +:+ ": " +:+ repr x) entries)
      +:+ "}"
  end.

(** [str(v)], which is also what an f-string field [{v}] renders. *)
Definition str (v : value) : string :=
  match v with VStr s => s | _ => repr v end.

Definition str_exn (e : exn) : string :=
  match e with
  | ValueError msg => msg
  | KeyError key => repr_str key
  | AttributeError msg => msg
  | TypeError msg => msg
  | ClientError msg => msg
  end.

(** [v[k]] with a string key *)
Definition getitem (v : value) (k : string) : result value :=
  match v with
  | VDict d => match dict_lookup k d with
               | Some x => Ok x
               | None => Raise (KeyError k)
               end
  | VList _ => Raise (TypeError "list indices must be integers or slices, not str")
  | VStr _ => Raise (TypeError "string indices must be integers, not 'str'")
  | _ => Raise (TypeError ("'" +:+ type_name v +:+ "' object is not subscriptable"))
  end.

(** [len(v)] *)
Definition len (v : value) : result Z :=
  match v with
  | VStr s => Ok (Z.of_nat (str_len s))
  | VList items => Ok (Z.of_nat (length items))
  | VDict entries => Ok (Z.of_nat (length entries))
  | _ => Raise (TypeError ("object of type '" +:+ type_name v +:+ "' has no len()"))
  end.

(** The items a [for] loop over [v] visits. *)
Definition iter (v : value) : result (list value) :=
  match v with
  | VStr s => Ok (map VStr (chars s))
  | VList items => Ok items
  | VDict entries => Ok (map VStr (keys entries))
  | _ => Raise (TypeError ("'" +:+ type_name v +:+ "' object is not iterable"))
  end.

(** [v[:n]] *)
Definition slice_to (n : nat) (v : value) : result value :=
  match v with
  | VStr s => Ok (VStr (str_take n s))
  | VList items => Ok (VList (take n items))
  | VDict _ => Raise (TypeError "unhashable type: 'slice'")
  | _ => Raise (TypeError ("'" +:+ type_name v +:+ "' object is not subscriptable"))
  end.

(** [v.replace(old, new)] *)
Definition str_replace (v : value) (old new : string) : result value :=
  match v with
  | VStr s => Ok (VStr (replace old new s))
  | _ => Raise (no_attribute v "replace")
  end.

(** A loop whose body may raise: the accumulator is threaded through the
    items in order and the first exception ends the loop. *)
Fixpoint for_each {A B : Type} (body : B -> A -> result B) (items : list A)
    (acc : B) : result B :=
  match items with
  | [] => Ok acc
  | x :: rest =>
      match body acc x with
      | Ok acc' => for_each body rest acc'
      | Raise e => Raise e
      end
  end.

End Py.

(* ====================================================================== *)
(** ** [json.dumps] with its default separators and [ensure_ascii] *)
(* ====================================================================== *)

Module Json.
Import Text Py.

Definition escape_char (ch : string) : string :=
  let n := code_point ch in
  if N.eqb n 34 then backslash +:+ dquote
  else if N.eqb n 92 then backslash +:+ backslash
  else if N.eqb n 10 then backslash +:+ "n"
  else if N.eqb n 13 then backslash +:+ "r"
  else if N.eqb n 9 then backslash +:+ "t"
  else if N.eqb n 8 then backslash +:+ "b"
  else if N.eqb n 12 then backslash +:+ "f"
  else if N.leb 32 n && N.leb n 126 then ch
  else if N.ltb n 65536 then backslash +:+ "u" +:+ hex4 n
  else
    let m := (n - 65536)%N in
    backslash +:+ "u" +:+ hex4 (N.lor 55296 (N.land (N.shiftr m 10) 1023))
    +:+ backslash +:+ "u" +:+ hex4 (N.lor 56320 (N.land m 1023)).

Definition quote (s : string) : string :=
  dquote +:+ String.concat EmptyString (map escape_char (chars s)) +:+ dquote.

(** [float.__repr__], except for the three values that are not finite. *)
Definition float_text (r : string) : string :=
  if String.eqb r "inf" then "Infinity"
  else if String.eqb r "-inf" then "-Infinity"
  else if String.eqb r "nan" then "NaN"
  else r.

Fixpoint dumps (v : value) : string :=
  match v with
  | VNone => "null"
  | VBool b => if b then "true" else "false"
  | VInt n => decimal n
  | VFloat r => float_text r
  | VStr s => quote s
  | VList items => "[" +:+ String.concat ", " (map dumps items) +:+ "]"
  | VDict entries =>
      "{" +:+ String.concat ", "
                (map (fun kv => let '(k, x) := kv in
                                quote k +:+ ": " +:+ dumps x) entries)
      +:+ "}"
  end.

End Json.

(* ====================================================================== *)
(** ** The client, the process state and the coroutine monad *)
(* ====================================================================== *)

(** The methods of [OpenProjectClient] that the tools below call, with the
    arguments they are called with. *)
Module Client.
Import Py.

Inductive call : Type :=
| test_connection
| get_projects (filters : value)
| create_project (data : value)
| get_work_packages (project_id filters offset page_size : value)
| get_work_package (work_package_id : value)
| create_work_package (data : value)
| update_work_package (work_package_id data : value)
| get_users (filters : value)
| update_project (project_id data : value)
| create_membership (data : value)
| get_time_entry_activities
| get_time_entries (filters : value)
| create_time_entry (data : value)
| list_work_package_children (parent_id include_descendants : value)
| create_work_package_relation (data : value)
| list_work_package_relations (filters : value).

End Client.

Import Text Py.

(** What [OpenProjectClient(base_url, api_key, proxy)] is built from. *)
Record OpenProjectClient : Type := {
  base_url : option string;
  api_key : option string;
  proxy : option string
}.

(** [environ] is [os.environ]; [client] is the module-level global;
    [calls] logs every method awaited on the client, oldest first;
    [remote] is what such a call returns or raises, given the calls made
    before it. *)
Record World : Type := {
  environ : list (string * string);
  client : option OpenProjectClient;
  calls : list Client.call;
  remote : list Client.call -> Client.call -> result value
}.

Record M (A : Type) : Type := Action { run : World -> result A * World }.
Arguments Action {A} run.
Arguments run {A} m w.

#[global] Instance M_ret : MRet M := fun A a => Action (fun w => (Ok a, w)).
#[global] Instance M_bind : MBind M :=
  fun A B f m =>
    Action (fun w =>
              match run m w with
              | (Ok a, w') => run (f a) w'
              | (Raise e, w') => (Raise e, w')
              end).

Definition lift {A : Type} (r : result A) : M A := Action (fun w => (r, w)).

Definition raise {A : Type} (e : exn) : M A := lift (Raise e).

(** [try: body  except Exception as e: handler(e)] *)
Definition try_except {A : Type} (body : M A) (handler : exn -> M A) : M A :=
  Action (fun w =>
            match run body w with
            | (Ok a, w') => (Ok a, w')
            | (Raise e, w') => run (handler e) w'
            end).

Fixpoint env_lookup (k : string) (env : list (string * string)) : option string :=
  match env with
  | [] => None
  | (k', v) :: env' => if String.eqb k k' then Some v else env_lookup k env'
  end.

(** [os.getenv(name)] *)
Definition getenv (name : string) : M (option string) :=
  Action (fun w => (Ok (env_lookup name (environ w)), w)).

(** [os.getenv(name, default)] *)
Definition getenv_or (name default : string) : M string :=
  Action (fun w => (Ok (match env_lookup name (environ w) with
                        | Some v => v
                        | None => default
                        end), w)).

Definition read_client : M (option OpenProjectClient) :=
  Action (fun w => (Ok (client w), w)).

Definition write_client (c : OpenProjectClient) : M unit :=
  Action (fun w => (Ok tt, {| environ := environ w; client := Some c;
                              calls := calls w; remote := remote w |})).

(** [await c.method(...)] *)
Definition await (c : OpenProjectClient) (rq : Client.call) : M value :=
  Action (fun w => (remote w (calls w) rq,
                    {| environ := environ w; client := client w;
                       calls := calls w ++ [rq]; remote := remote w |})).

(** [not v] for an optional string *)
Definition absent (v : option string) : bool :=
  match v with
  | None => true
  | Some s => String.eqb s EmptyString
  end.

Definition get_client : M OpenProjectClient :=
  g ← read_client;
  match g with
  | Some c => mret c
  | None =>
      base_url ← getenv "OPENPROJECT_URL";
      api_key ← getenv "OPENPROJECT_API_KEY";
      proxy ← getenv "OPENPROJECT_PROXY";
      if absent base_url || absent api_key
      then raise (ValueError "OPENPROJECT_URL and OPENPROJECT_API_KEY must be set")
      else
        let c := {| base_url := base_url; api_key := api_key; proxy := proxy |} in
        _ ← write_client c;
        flag ← getenv_or "TEST_CONNECTION_ON_STARTUP" "false";
        _ ← (if String.eqb (lower flag) "true"
             then try_except (_ ← await c Client.test_connection; mret tt)
                             (fun _ => mret tt)
             else mret tt);
        mret c
  end.

(** Every tool body sits in [try: ... except Exception as e: return
    f"❌ Error: {str(e)}"]. *)
Definition tool (body : M string) : M string :=
  try_except body (fun e => mret ("❌ Error: " +:+ str_exn e)).

(* ====================================================================== *)
(** ** Tools: projects *)
(* ====================================================================== *)

(** The body of [for project in projects] in [list_projects]. *)
Definition list_projects_line (text : string) (project : value) : result string :=
  active ← Py.get project "active" (VBool false);
  let status := if truthy active then "🟢" else "🔴" in
  name ← getitem project "name";
  id ← getitem project "id";
  let text := text +:+ status +:+ " **" +:+ str name +:+ "** (ID: " +:+ str id
                   +:+ ")" +:+ nl in
  description ← Py.get project "description" (VDict []);
  raw ← Py.get description "raw" VNone;
  if truthy raw then
    description ← getitem project "description";
    raw ← getitem description "raw";
    desc ← slice_to 100 raw;
    description ← getitem project "description";
    raw ← getitem description "raw";
    n ← len raw;
    mret (text +:+ "   " +:+ str desc +:+ (if Z.ltb 100 n then "..." else EmptyString)
               +:+ nl)
  else mret text.

Definition list_projects (active_only : value) : M string :=
  tool (
    c ← get_client;
    let filters := VNone in
    let filters :=
      if truthy active_only
      then VStr (Json.dumps
                   (VList [VDict [("active",
                                   VDict [("operator", VStr "=");
                                          ("values", VList [VStr "t"])])]]))
      else filters in
    result ← await c (Client.get_projects filters);
    lift (
      embedded ← Py.get result "_embedded" (VDict []);
      projects ← Py.get embedded "elements" (VList []);
      if negb (truthy projects) then mret "No projects found."
      else
        n ← len projects;
        let text := "📋 Projects (" +:+ decimal n +:+ " found):" +:+ nl +:+ nl in
        items ← iter projects;
        for_each list_projects_line items text)).

Definition create_project
    (name identifier description public status parent_id : value) : M string :=
  tool (
    c ← get_client;
    let data := [("name", name); ("identifier", identifier); ("public", public)] in
    let data := if truthy description
                then dict_set data "description" description else data in
    let data := if truthy status then dict_set data "status" status else data in
    let data := if truthy parent_id
                then dict_set data "parent_id" parent_id else data in
    project ← await c (Client.create_project (VDict data));
    lift (
      name ← getitem project "name";
      id ← getitem project "id";
      mret ("✅ Project created: **" +:+ str name +:+ "** (ID: " +:+ str id +:+ ")"))).

Definition update_project
    (project_id name identifier description public status parent_id : value)
    : M string :=
  tool (
    c ← get_client;
    let data := [] in
    let data := if negb (is_none name) then dict_set data "name" name else data in
    let data := if negb (is_none identifier)
                then dict_set data "identifier" identifier else data in
    let data := if negb (is_none description)
                then dict_set data "description" description else data in
    let data := if negb (is_none public)
                then dict_set data "public" public else data in
    let data := if negb (is_none status)
                then dict_set data "status" status else data in
    let data := if negb (is_none parent_id)
                then dict_set data "parent_id" parent_id else data in
    project ← await c (Client.update_project project_id (VDict data));
    lift (
      name ← getitem project "name";
      id ← getitem project "id";
      mret ("✅ Project updated: **" +:+ str name +:+ "** (ID: " +:+ str id +:+ ")"))).

(* ====================================================================== *)
(** ** Tools: work packages *)
(* ====================================================================== *)

(** [wp.get("_embedded", {}).get(relation, {}).get("name", default)] *)
Definition embedded_name (wp : value) (relation : string) (default : string)
    : result value :=
  embedded ← Py.get wp "_embedded" (VDict []);
  related ← Py.get embedded relation (VDict []);
  Py.get related "name" (VStr default).

(** [wp.get("_embedded", {}).get(relation)] *)
Definition embedded_get (wp : value) (relation : string) : result value :=
  embedded ← Py.get wp "_embedded" (VDict []);
  Py.get embedded relation VNone.

(** [wp["_embedded"][relation].get("name", default)] *)
Definition embedded_item_name (wp : value) (relation : string) (default : string)
    : result value :=
  embedded ← getitem wp "_embedded";
  related ← getitem embedded relation;
  Py.get related "name" (VStr default).

(** The body of [for wp in work_packages] in [list_work_packages]. *)
Definition list_work_packages_line (text : string) (wp : value) : result string :=
  status_name ← embedded_name wp "status" "Unknown";
  id ← getitem wp "id";
  subject ← getitem wp "subject";
  let text := text +:+ "#" +:+ str id +:+ " - **" +:+ str subject +:+ "**" +:+ nl in
  let text := text +:+ "   Status: " +:+ str status_name +:+ nl in
  wp_type ← embedded_name wp "type" "N/A";
  let text := text +:+ "   Type: " +:+ str wp_type +:+ nl in
  has_assignee ← embedded_get wp "assignee";
  text ← (if truthy has_assignee then
            assignee ← embedded_item_name wp "assignee" "N/A";
            mret (text +:+ "   Assignee: " +:+ str assignee +:+ nl)
          else mret text);
  mret (text +:+ nl).

Definition list_work_packages (project_id status offset page_size : value)
    : M string :=
  tool (
    c ← get_client;
    let filters := [] in
    let filters :=
      if eq_str status "open"
      then filters ++ [VDict [("status", VDict [("operator", VStr "o");
                                                ("values", VList [])])]]
      else if eq_str status "closed"
      then filters ++ [VDict [("status", VDict [("operator", VStr "c");
                                                ("values", VList [])])]]
      else filters in
    let filters_str :=
      if truthy (VList filters) then VStr (Json.dumps (VList filters))
      else VNone in
    result ← await c (Client.get_work_packages project_id filters_str
                                                 offset page_size);
    lift (
      embedded ← Py.get result "_embedded" (VDict []);
      work_packages ← Py.get embedded "elements" (VList []);
      if negb (truthy work_packages) then mret "No work packages found."
      else
        n ← len work_packages;
        total ← Py.get result "total" (VInt n);
        n ← len work_packages;
        let text := "📝 Work Packages (" +:+ decimal n +:+ " of " +:+ str total
                    +:+ "):" +:+ nl +:+ nl in
        items ← iter work_packages;
        for_each list_work_packages_line items text)).

(** The text [get_work_package] renders for the work package [wp]. *)
Definition get_work_package_text (wp : value) : result string :=
  id ← getitem wp "id";
  subject ← getitem wp "subject";
  let text := "📝 #" +:+ str id +:+ " - **" +:+ str subject +:+ "**" +:+ nl +:+ nl in
  status ← embedded_name wp "status" "Unknown";
  let text := text +:+ "- **Status**: " +:+ str status +:+ nl in
  wp_type ← embedded_name wp "type" "N/A";
  let text := text +:+ "- **Type**: " +:+ str wp_type +:+ nl in
  has_priority ← embedded_get wp "priority";
  text ← (if truthy has_priority then
            priority ← embedded_item_name wp "priority" "N/A";
            mret (text +:+ "- **Priority**: " +:+ str priority +:+ nl)
          else mret text);
  has_assignee ← embedded_get wp "assignee";
  text ← (if truthy has_assignee then
            assignee ← embedded_item_name wp "assignee" "Unassigned";
            mret (text +:+ "- **Assignee**: " +:+ str assignee +:+ nl)
          else mret text);
  has_project ← embedded_get wp "project";
  text ← (if truthy has_project then
            project ← embedded_item_name wp "project" "N/A";
            mret (text +:+ "- **Project**: " +:+ str project +:+ nl)
          else mret text);
  description ← Py.get wp "description" (VDict []);
  raw ← Py.get description "raw" VNone;
  if truthy raw then
    description ← getitem wp "description";
    raw ← getitem description "raw";
    mret (text +:+ nl +:+ "**Description**:" +:+ nl +:+ str raw +:+ nl)
  else mret text.

Definition get_work_package (work_package_id : value) : M string :=
  tool (
    c ← get_client;
    wp ← await c (Client.get_work_package work_package_id);
    lift (
      get_work_package_text wp)).

Definition create_work_package
    (project_id subject type_id description priority_id assignee_id : value)
    : M string :=
  tool (
    c ← get_client;
    let data := [("project", project_id); ("subject", subject); ("type", type_id)] in
    let data := if truthy description
                then dict_set data "description" description else data in
    let data := if truthy priority_id
                then dict_set data "priority_id" priority_id else data in
    let data := if truthy assignee_id
                then dict_set data "assignee_id" assignee_id else data in
    wp ← await c (Client.create_work_package (VDict data));
    lift (
      id ← getitem wp "id";
      subject ← getitem wp "subject";
      mret ("✅ Work package created: #" +:+ str id +:+ " - **" +:+ str subject
            +:+ "**"))).

Definition update_work_package
    (work_package_id subject description type_id status_id priority_id
       assignee_id percentage_done : value) : M string :=
  tool (
    c ← get_client;
    let data := [] in
    let data := if negb (is_none subject)
                then dict_set data "subject" subject else data in
    let data := if negb (is_none description)
                then dict_set data "description" description else data in
    let data := if negb (is_none type_id)
                then dict_set data "type_id" type_id else data in
    let data := if negb (is_none status_id)
                then dict_set data "status_id" status_id else data in
    let data := if negb (is_none priority_id)
                then dict_set data "priority_id" priority_id else data in
    let data := if negb (is_none assignee_id)
                then dict_set data "assignee_id" assignee_id else data in
    let data := if negb (is_none percentage_done)
                then dict_set data "percentage_done" percentage_done else data in
    wp ← await c (Client.update_work_package work_package_id (VDict data));
    lift (
      id ← getitem wp "id";
      subject ← getitem wp "subject";
      mret ("✅ Work package updated: #" +:+ str id +:+ " - **" +:+ str subject
            +:+ "**"))).

(* ====================================================================== *)
(** ** Tools: users and memberships *)
(* ====================================================================== *)

(** The body of [for user in users] in [list_users]. *)
Definition list_users_line (text : string) (user : value) : result string :=
  user_status ← Py.get user "status" VNone;
  let status := if eq_str user_status "active" then "🟢" else "🔴" in
  name ← Py.get user "name" (VStr "N/A");
  id ← getitem user "id";
  let text := text +:+ status +:+ " **" +:+ str name +:+ "** (ID: " +:+ str id
                   +:+ ")" +:+ nl in
  email ← Py.get user "email" VNone;
  if truthy email then
    email ← getitem user "email";
    mret (text +:+ "   📧 " +:+ str email +:+ nl)
  else mret text.

Definition list_users (active_only : value) : M string :=
  tool (
    c ← get_client;
    let filters := VNone in
    let filters :=
      if truthy active_only
      then VStr (Json.dumps
                   (VList [VDict [("status",
                                   VDict [("operator", VStr "=");
                                          ("values", VList [VStr "active"])])]]))
      else filters in
    result ← await c (Client.get_users filters);
    lift (
      embedded ← Py.get result "_embedded" (VDict []);
      users ← Py.get embedded "elements" (VList []);
      if negb (truthy users) then mret "No users found."
      else
        n ← len users;
        let text := "👥 Users (" +:+ decimal n +:+ " found):" +:+ nl +:+ nl in
        items ← iter users;
        for_each list_users_line items text)).

Definition create_membership
    (project_id user_id group_id role_ids role_id : value) : M string :=
  tool (
    c ← get_client;
    let data := [("project_id", project_id)] in
    let rest (data : list (string * value)) : M string :=
      let data := if truthy role_ids then dict_set data "role_ids" role_ids
                  else if truthy role_id then dict_set data "role_id" role_id
                  else data in
      _ ← await c (Client.create_membership (VDict data));
      lift (
        mret "✅ Membership created successfully") in
    if truthy user_id then rest (dict_set data "user_id" user_id)
    else if truthy group_id then rest (dict_set data "group_id" group_id)
    else mret "❌ Error: Either user_id or group_id must be provided").

(* ====================================================================== *)
(** ** Tools: time entries *)
(* ====================================================================== *)

(** The body of [for activity in result["_embedded"]["elements"]]. *)
Definition list_time_entry_activities_line (text : string) (activity : value)
    : result string :=
  name ← getitem activity "name";
  id ← getitem activity "id";
  let text := text +:+ "- **" +:+ str name +:+ "** (ID: " +:+ str id +:+ ")" +:+ nl in
  default ← Py.get activity "default" VNone;
  if truthy default then mret (text +:+ "  ⭐ Default activity" +:+ nl)
  else mret text.

Definition list_time_entry_activities : M string :=
  tool (
    c ← get_client;
    result ← await c Client.get_time_entry_activities;
    lift (
      embedded ← Py.get result "_embedded" (VDict []);
      elements ← Py.get embedded "elements" VNone;
      if negb (truthy elements) then mret "No time entry activities found"
      else
        total ← getitem result "total";
        let text := "⏱️ **Time Entry Activities** (Total: " +:+ str total +:+ ")"
                    +:+ nl +:+ nl in
        embedded ← getitem result "_embedded";
        elements ← getitem embedded "elements";
        items ← iter elements;
        for_each list_time_entry_activities_line items text)).

(** The body of [for te in entries] in [list_time_entries]. *)
Definition list_time_entries_line (text : string) (te : value) : result string :=
  hours ← Py.get te "hours" (VStr "PT0H");
  hours ← str_replace hours "PT" EmptyString;
  hours ← str_replace hours "H" EmptyString;
  spent_on ← Py.get te "spentOn" (VStr "N/A");
  let text := text +:+ "- **" +:+ str hours +:+ "h** on " +:+ str spent_on +:+ nl in
  comment ← Py.get te "comment" (VDict []);
  raw ← Py.get comment "raw" VNone;
  if truthy raw then
    comment ← getitem te "comment";
    raw ← getitem comment "raw";
    short ← slice_to 50 raw;
    mret (text +:+ "  " +:+ str short +:+ "..." +:+ nl)
  else mret text.

Definition list_time_entries (work_package_id user_id : value) : M string :=
  tool (
    c ← get_client;
    let filters := [] in
    let filters :=
      if truthy work_package_id
      then filters ++ [VDict [("work_package_id",
                               VDict [("operator", VStr "=");
                                      ("values", VList [VStr (str work_package_id)])])]]
      else filters in
    let filters :=
      if truthy user_id
      then filters ++ [VDict [("user_id",
                               VDict [("operator", VStr "=");
                                      ("values", VList [VStr (str user_id)])])]]
      else filters in
    let filters_str :=
      if truthy (VList filters) then VStr (Json.dumps (VList filters))
      else VNone in
    result ← await c (Client.get_time_entries filters_str);
    lift (
      embedded ← Py.get result "_embedded" (VDict []);
      entries ← Py.get embedded "elements" (VList []);
      if negb (truthy entries) then mret "No time entries found."
      else
        n ← len entries;
        let text := "⏱️  Time Entries (" +:+ decimal n +:+ " found):" +:+ nl +:+ nl in
        items ← iter entries;
        for_each list_time_entries_line items text)).

Definition create_time_entry
    (work_package_id hours spent_on comment activity_id : value) : M string :=
  tool (
    c ← get_client;
    let data := [("work_package_id", work_package_id); ("hours", hours);
                 ("spent_on", spent_on)] in
    let data := if truthy comment then dict_set data "comment" comment else data in
    let data := if truthy activity_id
                then dict_set data "activity_id" activity_id else data in
    _ ← await c (Client.create_time_entry (VDict data));
    lift (
      mret ("✅ Time entry created: " +:+ str hours +:+ "h on " +:+ str spent_on))).

(* ====================================================================== *)
(** ** Tools: hierarchy and relations *)
(* ====================================================================== *)

(** The body of [for wp in children] in [list_work_package_children]. *)
Definition list_work_package_children_line (text : string) (wp : value)
    : result string :=
  id ← getitem wp "id";
  subject ← getitem wp "subject";
  mret (text +:+ "#" +:+ str id +:+ " - **" +:+ str subject +:+ "**" +:+ nl).

Definition list_work_package_children (parent_id include_descendants : value)
    : M string :=
  tool (
    c ← get_client;
    result ← await c (Client.list_work_package_children parent_id
                                                          include_descendants);
    lift (
      embedded ← Py.get result "_embedded" (VDict []);
      children ← Py.get embedded "elements" (VList []);
      if negb (truthy children)
      then mret ("No children found for work package #" +:+ str parent_id +:+ ".")
      else
        n ← len children;
        let text := "👶 Children of #" +:+ str parent_id +:+ " (" +:+ decimal n
                    +:+ " found):" +:+ nl +:+ nl in
        items ← iter children;
        for_each list_work_package_children_line items text)).

Definition create_work_package_relation
    (from_id to_id relation_type lag description : value) : M string :=
  tool (
    c ← get_client;
    let data := [("from_id", from_id); ("to_id", to_id);
                 ("relation_type", relation_type)] in
    let data := if negb (is_none lag) then dict_set data "lag" lag else data in
    let data := if truthy description
                then dict_set data "description" description else data in
    _ ← await c (Client.create_work_package_relation (VDict data));
    lift (
      mret ("✅ Relation created: #" +:+ str from_id +:+ " " +:+ str relation_type
            +:+ " #" +:+ str to_id))).

(** The body of [for r in relations] in [list_work_package_relations]. *)
Definition list_work_package_relations_line (text : string) (r : value)
    : result string :=
  embedded ← Py.get r "_embedded" (VDict []);
  from_wp ← Py.get embedded "from" (VDict []);
  embedded ← Py.get r "_embedded" (VDict []);
  to_wp ← Py.get embedded "to" (VDict []);
  from_id ← Py.get from_wp "id" (VStr "N/A");
  type ← Py.get r "type" (VStr "N/A");
  to_id ← Py.get to_wp "id" (VStr "N/A");
  mret (text +:+ "#" +:+ str from_id +:+ " " +:+ str type +:+ " #" +:+ str to_id
             +:+ nl).

Definition list_work_package_relations (work_package_id relation_type : value)
    : M string :=
  tool (
    c ← get_client;
    let filters := [] in
    let filters :=
      if truthy work_package_id
      then filters ++ [VDict [("involved",
                               VDict [("operator", VStr "=");
                                      ("values", VList [VStr (str work_package_id)])])]]
      else filters in
    let filters :=
      if truthy relation_type
      then filters ++ [VDict [("type",
                               VDict [("operator", VStr "=");
                                      ("values", VList [relation_type])])]]
      else filters in
    let filters_str :=
      if truthy (VList filters) then VStr (Json.dumps (VList filters))
      else VNone in
    result ← await c (Client.list_work_package_relations filters_str);
    lift (
      embedded ← Py.get result "_embedded" (VDict []);
      relations ← Py.get embedded "elements" (VList []);
      if negb (truthy relations) then mret "No relations found."
      else
        n ← len relations;
        let text := "🔗 Work Package Relations (" +:+ decimal n +:+ " found):"
                    +:+ nl +:+ nl in
        items ← iter relations;
        for_each list_work_package_relations_line items text)).

(* ====================================================================== *)
(** ** Observing a run *)
(* ====================================================================== *)

(** What [t] returns or raises when run in [w]. *)
Definition output {A : Type} (t : M A) (w : World) : result A := fst (run t w).

(** The calls [t] makes on the client when run in [w], in order. *)
Definition issued {A : Type} (t : M A) (w : World) : list Client.call :=
  drop (length (calls w)) (calls (snd (run t w))).

(** [get_client] hands out a client in [w]. *)
Definition acquired (w : World) : bool :=
  match output get_client w with
  | Ok _ => true
  | Raise _ => false
  end.

(** Run in [w], the tool [t] makes the call [rq] once it holds the client,
    and no other call of its own: what it issues is what [get_client]
    issues, followed by [rq] when [get_client] succeeds. *)
Definition performs (t : M string) (rq : Client.call) (w : World) : Prop :=
  issued t w = issued get_client w ++ (if acquired w then [rq] else []).

(** Run in [w], the tool [t] answers with an error text and has made no
    call at all. *)
Definition rejects_locally (t : M string) (w : World) : Prop :=
  issued t w = [] /\ exists msg, output t w = Ok ("❌ Error: " +:+ msg).

(** The entries of [fields] whose value is not [None], in order. *)
Definition supplied (fields : list (string * value)) : list (string * value) :=
  filter (fun kv => is_none kv.2 = false) fields.

(** The entries of [fields] whose value is truthy, in order. *)
Definition provided (fields : list (string * value)) : list (string * value) :=
  filter (fun kv => truthy kv.2 = true) fields.

(** The JSON array [[{"status": {"operator": op, "values": []}}]]. *)
Definition status_filter (op : string) : value :=
  VList [VDict [("status", VDict [("operator", VStr op); ("values", VList [])])]].

(** [s] between double quotes. *)
Definition quoted (s : string) : string := dquote +:+ s +:+ dquote.

(** [s] without its blanks. *)
Fixpoint compact (s : string) : string :=
  match s with
  | EmptyString => EmptyString
  | String c s' => if Ascii.eqb c " "%char then compact s' else String c (compact s')
  end.

(** The key [relation] is missing from [wp["_embedded"]], or [_embedded]
    is missing from [wp], or the embedded resource has no [name]; the
    levels that are there are objects. *)
Definition lacks_name (wp : value) (relation : string) : bool :=
  match wp with
  | VDict d =>
      match dict_lookup "_embedded" d with
      | None => true
      | Some (VDict e) =>
          match dict_lookup relation e with
          | None => true
          | Some (VDict r) =>
              match dict_lookup "name" r with
              | None => true
              | Some _ => false
              end
          | Some _ => false
          end
      | Some _ => false
      end
  | _ => false
  end.

(** [wp["_embedded"]] is missing or is an object without the key
    [relation]. *)
Definition lacks_embedded (wp : value) (relation : string) : bool :=
  match wp with
  | VDict d =>
      match dict_lookup "_embedded" d with
      | None => true
      | Some (VDict e) =>
          match dict_lookup relation e with
          | None => true
          | Some _ => false
          end
      | Some _ => false
      end
  | _ => false
  end.

(** A world whose client exists already and whose remote side answers
    every call with [answer]. *)
Definition connected (answer : value) : World :=
  {| environ := [];
     client := Some {| base_url := Some "https://op.example.org";
                       api_key := Some "secret";
                       proxy := None |};
     calls := [];
     remote := fun _ _ => Ok answer |}.

(** A world before the first use of the client, with the environment
    [env]. *)
Definition fresh (env : list (string * string)) (answer : value) : World :=
  {| environ := env; client := None; calls := [];
     remote := fun _ _ => Ok answer |}.

(** *** Runs and answers used as examples *)

Definition configured_env : list (string * string) :=
  [("OPENPROJECT_URL", "https://op.example.org");
   ("OPENPROJECT_API_KEY", "secret")].

(** A relation from work package 5 to itself. *)
Definition self_relation : M string :=
  create_work_package_relation (VInt 5) (VInt 5) (VStr "relates") VNone VNone.

(** A membership request that names neither a user nor a group. *)
Definition membership_without_principal : M string :=
  create_membership (VInt 1) VNone VNone VNone VNone.

(** A membership request that names both a user and a group. *)
Definition membership_with_both : M string :=
  create_membership (VInt 1) (VInt 7) (VInt 9) VNone (VInt 3).

(** A collection of one activity whose envelope has no [total]. *)
Definition activities_without_total : value :=
  VDict [("_embedded",
          VDict [("elements",
                  VList [VDict [("id", VInt 1); ("name", VStr "Development")]])])].

(** A collection of one work package whose envelope has no [total]. *)
Definition work_packages_without_total : value :=
  VDict [("_embedded",
          VDict [("elements",
                  VList [VDict [("id", VInt 1); ("subject", VStr "Fix login")]])])].

(** A work package with nothing embedded. *)
Definition bare_work_package : value :=
  VDict [("id", VInt 7); ("subject", VStr "Fix login")].

(** A work package whose embedded assignee has no [name]. *)
Definition work_package_with_nameless_assignee : value :=
  VDict [("id", VInt 7); ("subject", VStr "Fix login");
         ("_embedded", VDict [("assignee", VDict [("id", VInt 5)])])].

(* ====================================================================== *)
(** ** Hierarchy traversal *)
(* ====================================================================== *)

Module Hierarchy.

(** Modelled from the spec: the work items held by the remote service.
    [OpenProjectClient] is defined in the package's [__init__] module,
    which is not among the sources; a work item has an id, a subject and
    at most one parent, referred to by id. *)
Record WorkItem : Type := {
  wi_id : Z;
  wi_subject : string;
  wi_parent : option Z
}.

Definition ids (items : list WorkItem) : list Z := map wi_id items.

(** Modelled from the spec: the single filtered list call for the work
    items whose parent equals [parent_id], in the order of the
    collection. *)
Definition direct_children (store : list WorkItem) (parent_id : Z)
    : list WorkItem :=
  filter (fun w => wi_parent w = Some parent_id) store.

Section Traversal.

(** One fetch of the direct children of an id; it may fail, and then
    the whole traversal fails. *)
Variable fetch : Z -> result (list WorkItem).

(** Modelled from the spec: the children just fetched are visited in
    order; one whose id was seen before is skipped, the others are
    marked as seen and collected. *)
Fixpoint visit (kids : list WorkItem) (seen : gset Z) (fresh : list WorkItem)
    : gset Z * list WorkItem :=
  match kids with
  | [] => (seen, fresh)
  | k :: rest =>
      if decide (wi_id k ∈ seen) then visit rest seen fresh
      else visit rest ({[wi_id k]} ∪ seen) (fresh ++ [k])
  end.

(** Modelled from the spec: the worklist of pending ids and the set of
    seen ids.  Each round takes the first pending id, fetches its
    direct children, and appends the new ones to the result and to the
    worklist.  [None] means that [fuel] rounds were not enough. *)
Fixpoint expand (fuel : nat) (pending : list Z) (seen : gset Z)
    (found : list WorkItem) : option (result (list WorkItem)) :=
  match fuel with
  | O => None
  | S fuel' =>
      match pending with
      | [] => Some (Ok found)
      | p :: rest =>
          match fetch p with
          | Raise e => Some (Raise e)
          | Ok kids =>
              let '(seen', fresh) := visit kids seen [] in
              expand fuel' (rest ++ ids fresh) seen' (found ++ fresh)
          end
      end
  end.

End Traversal.

(** Modelled from the spec: the fetch used against the collection
    [store], which is the filtered list call and always succeeds. *)
Definition fetch_children (store : list WorkItem) (parent_id : Z)
    : result (list WorkItem) :=
  Ok (direct_children store parent_id).

(** Modelled from the spec: [children(parent_id, include_descendants)]
    over the collection [store].  Without descendants it is the single
    filtered list call; with descendants it is the worklist expansion
    from [parent_id], which is marked as seen from the start.  No round
    is spent twice on one id, so [2 + length store] rounds are enough
    (see [expand_total]). *)
Definition children (store : list WorkItem) (parent_id : Z)
    (include_descendants : bool) : option (result (list WorkItem)) :=
  if include_descendants
  then expand (fetch_children store) (2 + length store)
              [parent_id] {[parent_id]} []
  else Some (fetch_children store parent_id).

(** Modelled from the spec: the envelope in which the client hands a
    list of work items to the tool, with the elements under
    [_embedded.elements] and their number as [total]. *)
Definition envelope (items : list WorkItem) : value :=
  VDict [("total", VInt (Z.of_nat (length items)));
         ("_embedded",
          VDict [("elements",
                  VList (map (fun w => VDict [("id", VInt (wi_id w));
                                              ("subject", VStr (wi_subject w))])
                             items))])].

(** [w] is a child, grandchild, ... of the work item with id [p]. *)
Inductive descendant (store : list WorkItem) (p : Z) : WorkItem -> Prop :=
| descendant_child w :
    w ∈ store -> wi_parent w = Some p -> descendant store p w
| descendant_step q w :
    descendant store p q -> w ∈ store -> wi_parent w = Some (wi_id q) ->
    descendant store p w.

(** Every work item has one record, hence at most one parent. *)
Definition forest (store : list WorkItem) : Prop := NoDup (ids store).

(** No work item is its own descendant. *)
Definition acyclic (store : list WorkItem) : Prop :=
  forall w, ~ descendant store (wi_id w) w.

(** What holds of the worklist, the seen set and the result between two
    rounds of the expansion from [root]. *)
Record traversal_inv (store : list WorkItem) (root : Z) (pending : list Z)
    (seen : gset Z) (found : list WorkItem) : Prop := {
  inv_seen : seen = {[root]} ∪ list_to_set (ids found);
  inv_nodup : NoDup (ids found);
  inv_root : root ∉ ids found;
  inv_sound : forall w, w ∈ found -> descendant store root w;
  inv_pending : forall x, x ∈ pending -> x ∈ seen;
  inv_closed : forall x, x ∈ seen ->
               x ∈ pending \/
               forall w, w ∈ store -> wi_parent w = Some x -> wi_id w ∈ seen
}.

(** Every parent id is smaller than the ids of its children, which
    rules out cycles. *)
Definition parents_first (store : list WorkItem) : bool :=
  forallb (fun w => match wi_parent w with
                    | Some p => Z.ltb p (wi_id w)
                    | None => true
                    end) store.

(** The tree of the spec's example: root -> {A, B}, A -> {C}. *)
Definition example_tree : list WorkItem :=
  [ {| wi_id := 1; wi_subject := "root"; wi_parent := None |};
    {| wi_id := 2; wi_subject := "A"; wi_parent := Some 1%Z |};
    {| wi_id := 3; wi_subject := "B"; wi_parent := Some 1%Z |};
    {| wi_id := 4; wi_subject := "C"; wi_parent := Some 2%Z |} ].

End Hierarchy.

(* ====================================================================== *)
(** ** The remaining tools *)
(* ====================================================================== *)

(** The methods of [OpenProjectClient] called by the tools of this part. *)
Module Api.
Import Py.

Inductive call : Type :=
| get_project (project_id : value)
| delete_work_package (work_package_id : value)
| get_types (project_id : value)
| get_user (user_id : value)
| get_statuses
| get_priorities
| delete_project (project_id : value)
| get_memberships (project_id user_id : value)
| update_membership (membership_id data : value)
| delete_membership (membership_id : value)
| get_membership (membership_id : value)
| get_roles
| get_role (role_id : value)
| update_time_entry (time_entry_id data : value)
| delete_time_entry (time_entry_id : value)
| get_versions (project_id : value)
| create_version (project_id data : value)
| set_work_package_parent (work_package_id parent_id : value)
| remove_work_package_parent (work_package_id : value)
| update_work_package_relation (relation_id data : value)
| delete_work_package_relation (relation_id : value)
| get_work_package_relation (relation_id : value)
| check_permissions.

End Api.

(** [sep.join(items)]: every item has to be a [str]. *)
Fixpoint str_items (i : nat) (items : list value) : result (list string) :=
  match items with
  | [] => Ok []
  | VStr s :: rest =>
      match str_items (S i) rest with
      | Ok strs => Ok (s :: strs)
      | Raise e => Raise e
      end
  | v :: _ =>
      Raise (TypeError ("sequence item " +:+ decimal (Z.of_nat i)
                        +:+ ": expected str instance, " +:+ type_name v
                        +:+ " found"))
  end.

Definition join (sep : string) (items : list value) : result string :=
  strs ← str_items 0 items;
  mret (String.concat sep strs).

(** [[r.get('name', 'N/A') for r in roles]] *)
Definition role_names (roles : value) : result (list value) :=
  items ← iter roles;
  for_each (fun names r => name ← Py.get r "name" (VStr "N/A");
                           mret (names ++ [name]))
           items [].

(** The tool [test_connection]; its handler has a text of its own. *)
Definition test_connection : M string :=
  try_except (
    c ← get_client;
    result ← await c Client.test_connection;
    lift (
      instance ← Py.get result "instanceName" VNone;
      if truthy instance then
        instance ← getitem result "instanceName";
        version ← Py.get result "coreVersion" (VStr "Unknown");
        mret ("✅ Connected to: " +:+ str instance +:+ nl
              +:+ "Core Version: " +:+ str version)
      else mret "✅ Connection successful!"))
    (fun e => mret ("❌ Connection failed: " +:+ str_exn e)).

(** The body of the loops of [list_types], [list_statuses],
    [list_priorities] and [list_roles], which is the same in the four:
    [text += f"- **{t['name']}** (ID: {t['id']})\n"]. *)
Definition name_id_line (text : string) (t : value) : result string :=
  name ← getitem t "name";
  id ← getitem t "id";
  mret (text +:+ "- **" +:+ str name +:+ "** (ID: " +:+ str id +:+ ")" +:+ nl).

(** The body of [for m in memberships] in [list_memberships]. *)
Definition list_memberships_line (text : string) (m : value) : result string :=
  embedded ← Py.get m "_embedded" (VDict []);
  principal ← Py.get embedded "principal" (VDict []);
  embedded ← Py.get m "_embedded" (VDict []);
  project ← Py.get embedded "project" (VDict []);
  embedded ← Py.get m "_embedded" (VDict []);
  roles ← Py.get embedded "roles" (VList []);
  principal_name ← Py.get principal "name" (VStr "N/A");
  project_name ← Py.get project "name" (VStr "N/A");
  let text := text +:+ "- **" +:+ str principal_name +:+ "** in **"
                   +:+ str project_name +:+ "**" +:+ nl in
  names ← role_names roles;
  joined ← join ", " names;
  mret (text +:+ "  Roles: " +:+ joined +:+ nl).

(** The body of [for v in versions] in [list_versions]. *)
Definition list_versions_line (text : string) (v : value) : result string :=
  name ← getitem v "name";
  id ← getitem v "id";
  let text := text +:+ "- **" +:+ str name +:+ "** (ID: " +:+ str id +:+ ")"
                   +:+ nl in
  start_date ← Py.get v "startDate" VNone;
  dated ← (if truthy start_date then mret true
           else end_date ← Py.get v "endDate" VNone; mret (truthy end_date));
  if dated : bool then
    start_date ← Py.get v "startDate" (VStr EmptyString);
    end_date ← Py.get v "endDate" (VStr EmptyString);
    mret (text +:+ "  " +:+ str start_date +:+ " → " +:+ str end_date +:+ nl)
  else mret text.

Section RemainingTools.

(** What the client returns or raises for a call on one of the methods of
    [Api.call], at the time a tool runs. *)
Variable answers : Api.call -> result value.

(** [await c.method(...)] for the methods of [Api.call]. *)
Definition ask (c : OpenProjectClient) (rq : Api.call) : M value :=
  lift (answers rq).

Definition get_project (project_id : value) : M string :=
  tool (
    c ← get_client;
    project ← ask c (Api.get_project project_id);
    lift (
      name ← getitem project "name";
      let text := "📋 **" +:+ str name +:+ "**" +:+ nl +:+ nl in
      id ← getitem project "id";
      let text := text +:+ "- **ID**: " +:+ str id +:+ nl in
      identifier ← Py.get project "identifier" (VStr "N/A");
      let text := text +:+ "- **Identifier**: " +:+ str identifier +:+ nl in
      active ← Py.get project "active" (VBool false);
      let text := text +:+ "- **Status**: "
                       +:+ (if truthy active then "🟢 Active" else "🔴 Archived")
                       +:+ nl in
      public ← Py.get project "public" (VBool false);
      let text := text +:+ "- **Public**: "
                       +:+ (if truthy public then "Yes" else "No") +:+ nl in
      description ← Py.get project "description" (VDict []);
      raw ← Py.get description "raw" VNone;
      if truthy raw then
        description ← getitem project "description";
        raw ← getitem description "raw";
        mret (text +:+ nl +:+ "**Description**:" +:+ nl +:+ str raw +:+ nl)
      else mret text)).

Definition delete_work_package (work_package_id : value) : M string :=
  tool (
    c ← get_client;
    _ ← ask c (Api.delete_work_package work_package_id);
    lift (
      mret ("✅ Work package #" +:+ str work_package_id
            +:+ " deleted successfully"))).

Definition list_types (project_id : value) : M string :=
  tool (
    c ← get_client;
    result ← ask c (Api.get_types project_id);
    lift (
      embedded ← Py.get result "_embedded" (VDict []);
      types ← Py.get embedded "elements" (VList []);
      if negb (truthy types) then mret "No types found."
      else
        n ← len types;
        let text := "🏷️  Work Package Types (" +:+ decimal n +:+ "):"
                    +:+ nl +:+ nl in
        items ← iter types;
        for_each name_id_line items text)).

Definition get_user (user_id : value) : M string :=
  tool (
    c ← get_client;
    user ← ask c (Api.get_user user_id);
    lift (
      name ← Py.get user "name" (VStr "N/A");
      let text := "👤 **" +:+ str name +:+ "**" +:+ nl +:+ nl in
      id ← getitem user "id";
      let text := text +:+ "- **ID**: " +:+ str id +:+ nl in
      status ← Py.get user "status" (VStr "N/A");
      let text := text +:+ "- **Status**: " +:+ str status +:+ nl in
      email ← Py.get user "email" VNone;
      text ← (if truthy email then
                email ← getitem user "email";
                mret (text +:+ "- **Email**: " +:+ str email +:+ nl)
              else mret text);
      login ← Py.get user "login" VNone;
      if truthy login then
        login ← getitem user "login";
        mret (text +:+ "- **Login**: " +:+ str login +:+ nl)
      else mret text)).

Definition list_statuses : M string :=
  tool (
    c ← get_client;
    result ← ask c Api.get_statuses;
    lift (
      embedded ← Py.get result "_embedded" (VDict []);
      statuses ← Py.get embedded "elements" (VList []);
      if negb (truthy statuses) then mret "No statuses found."
      else
        n ← len statuses;
        let text := "📊 Work Package Statuses (" +:+ decimal n +:+ "):"
                    +:+ nl +:+ nl in
        items ← iter statuses;
        for_each name_id_line items text)).

Definition list_priorities : M string :=
  tool (
    c ← get_client;
    result ← ask c Api.get_priorities;
    lift (
      embedded ← Py.get result "_embedded" (VDict []);
      priorities ← Py.get embedded "elements" (VList []);
      if negb (truthy priorities) then mret "No priorities found."
      else
        n ← len priorities;
        let text := "⭐ Work Package Priorities (" +:+ decimal n +:+ "):"
                    +:+ nl +:+ nl in
        items ← iter priorities;
        for_each name_id_line items text)).

Definition delete_project (project_id : value) : M string :=
  tool (
    c ← get_client;
    _ ← ask c (Api.delete_project project_id);
    lift (
      mret ("✅ Project #" +:+ str project_id +:+ " deleted successfully"))).

Definition list_memberships (project_id user_id : value) : M string :=
  tool (
    c ← get_client;
    result ← ask c (Api.get_memberships project_id user_id);
    lift (
      embedded ← Py.get result "_embedded" (VDict []);
      memberships ← Py.get embedded "elements" (VList []);
      if negb (truthy memberships) then mret "No memberships found."
      else
        n ← len memberships;
        let text := "👥 Memberships (" +:+ decimal n +:+ " found):"
                    +:+ nl +:+ nl in
        items ← iter memberships;
        for_each list_memberships_line items text)).

Definition update_membership (membership_id role_ids role_id : value)
    : M string :=
  tool (
    c ← get_client;
    let data := [] in
    let data := if truthy role_ids then dict_set data "role_ids" role_ids
                else if truthy role_id then dict_set data "role_id" role_id
                else data in
    _ ← ask c (Api.update_membership membership_id (VDict data));
    lift (
      mret ("✅ Membership #" +:+ str membership_id
            +:+ " updated successfully"))).

Definition delete_membership (membership_id : value) : M string :=
  tool (
    c ← get_client;
    _ ← ask c (Api.delete_membership membership_id);
    lift (
      mret ("✅ Membership #" +:+ str membership_id
            +:+ " deleted successfully"))).

Definition get_membership (membership_id : value) : M string :=
  tool (
    c ← get_client;
    m ← ask c (Api.get_membership membership_id);
    lift (
      embedded ← Py.get m "_embedded" (VDict []);
      principal ← Py.get embedded "principal" (VDict []);
      embedded ← Py.get m "_embedded" (VDict []);
      project ← Py.get embedded "project" (VDict []);
      embedded ← Py.get m "_embedded" (VDict []);
      roles ← Py.get embedded "roles" (VList []);
      principal_name ← Py.get principal "name" (VStr "N/A");
      project_name ← Py.get project "name" (VStr "N/A");
      let text := "👤 **" +:+ str principal_name +:+ "** in **"
                  +:+ str project_name +:+ "**" +:+ nl +:+ nl in
      id ← getitem m "id";
      let text := text +:+ "- **Membership ID**: " +:+ str id +:+ nl in
      names ← role_names roles;
      joined ← join ", " names;
      mret (text +:+ "- **Roles**: " +:+ joined +:+ nl))).

Definition list_roles : M string :=
  tool (
    c ← get_client;
    result ← ask c Api.get_roles;
    lift (
      embedded ← Py.get result "_embedded" (VDict []);
      roles ← Py.get embedded "elements" (VList []);
      if negb (truthy roles) then mret "No roles found."
      else
        n ← len roles;
        let text := "🎭 Roles (" +:+ decimal n +:+ " found):" +:+ nl +:+ nl in
        items ← iter roles;
        for_each name_id_line items text)).

Definition get_role (role_id : value) : M string :=
  tool (
    c ← get_client;
    role ← ask c (Api.get_role role_id);
    lift (
      name ← getitem role "name";
      let text := "🎭 **" +:+ str name +:+ "**" +:+ nl +:+ nl in
      id ← getitem role "id";
      mret (text +:+ "- **ID**: " +:+ str id +:+ nl))).

Definition update_time_entry
    (time_entry_id hours spent_on comment activity_id : value) : M string :=
  tool (
    c ← get_client;
    let data := [] in
    let data := if negb (is_none hours) then dict_set data "hours" hours
                else data in
    let data := if negb (is_none spent_on)
                then dict_set data "spent_on" spent_on else data in
    let data := if negb (is_none comment)
                then dict_set data "comment" comment else data in
    let data := if negb (is_none activity_id)
                then dict_set data "activity_id" activity_id else data in
    _ ← ask c (Api.update_time_entry time_entry_id (VDict data));
    lift (
      mret ("✅ Time entry #" +:+ str time_entry_id
            +:+ " updated successfully"))).

Definition delete_time_entry (time_entry_id : value) : M string :=
  tool (
    c ← get_client;
    _ ← ask c (Api.delete_time_entry time_entry_id);
    lift (
      mret ("✅ Time entry #" +:+ str time_entry_id
            +:+ " deleted successfully"))).

Definition list_versions (project_id : value) : M string :=
  tool (
    c ← get_client;
    result ← ask c (Api.get_versions project_id);
    lift (
      embedded ← Py.get result "_embedded" (VDict []);
      versions ← Py.get embedded "elements" (VList []);
      if negb (truthy versions) then mret "No versions found."
      else
        n ← len versions;
        let text := "📦 Versions (" +:+ decimal n +:+ " found):" +:+ nl +:+ nl in
        items ← iter versions;
        for_each list_versions_line items text)).

Definition create_version
    (project_id name description start_date end_date status : value)
    : M string :=
  tool (
    c ← get_client;
    let data := [("name", name)] in
    let data := if truthy description
                then dict_set data "description" description else data in
    let data := if truthy start_date
                then dict_set data "start_date" start_date else data in
    let data := if truthy end_date
                then dict_set data "end_date" end_date else data in
    let data := if truthy status then dict_set data "status" status else data in
    _ ← ask c (Api.create_version project_id (VDict data));
    lift (
      mret ("✅ Version created: **" +:+ str name +:+ "**"))).

Definition set_work_package_parent (work_package_id parent_id : value)
    : M string :=
  tool (
    c ← get_client;
    _ ← ask c (Api.set_work_package_parent work_package_id parent_id);
    lift (
      mret ("✅ Work package #" +:+ str work_package_id
            +:+ " is now a child of #" +:+ str parent_id))).

Definition remove_work_package_parent (work_package_id : value) : M string :=
  tool (
    c ← get_client;
    _ ← ask c (Api.remove_work_package_parent work_package_id);
    lift (
      mret ("✅ Work package #" +:+ str work_package_id
            +:+ " is now top-level"))).

Definition update_work_package_relation
    (relation_id relation_type lag description : value) : M string :=
  tool (
    c ← get_client;
    let data := [] in
    let data := if negb (is_none relation_type)
                then dict_set data "relation_type" relation_type else data in
    let data := if negb (is_none lag) then dict_set data "lag" lag else data in
    let data := if negb (is_none description)
                then dict_set data "description" description else data in
    _ ← ask c (Api.update_work_package_relation relation_id (VDict data));
    lift (
      mret ("✅ Relation #" +:+ str relation_id +:+ " updated successfully"))).

Definition delete_work_package_relation (relation_id : value) : M string :=
  tool (
    c ← get_client;
    _ ← ask c (Api.delete_work_package_relation relation_id);
    lift (
      mret ("✅ Relation #" +:+ str relation_id +:+ " deleted successfully"))).

Definition get_work_package_relation (relation_id : value) : M string :=
  tool (
    c ← get_client;
    r ← ask c (Api.get_work_package_relation relation_id);
    lift (
      embedded ← Py.get r "_embedded" (VDict []);
      from_wp ← Py.get embedded "from" (VDict []);
      embedded ← Py.get r "_embedded" (VDict []);
      to_wp ← Py.get embedded "to" (VDict []);
      id ← getitem r "id";
      let text := "🔗 Relation #" +:+ str id +:+ nl +:+ nl in
      type ← Py.get r "type" (VStr "N/A");
      let text := text +:+ "- **Type**: " +:+ str type +:+ nl in
      from_id ← Py.get from_wp "id" (VStr "N/A");
      from_subject ← Py.get from_wp "subject" (VStr "N/A");
      let text := text +:+ "- **From**: #" +:+ str from_id +:+ " - "
                       +:+ str from_subject +:+ nl in
      to_id ← Py.get to_wp "id" (VStr "N/A");
      to_subject ← Py.get to_wp "subject" (VStr "N/A");
      let text := text +:+ "- **To**: #" +:+ str to_id +:+ " - "
                       +:+ str to_subject +:+ nl in
      lag ← Py.get r "lag" VNone;
      if truthy lag then
        lag ← getitem r "lag";
        mret (text +:+ "- **Lag**: " +:+ str lag +:+ " days" +:+ nl)
      else mret text)).

Definition check_permissions : M string :=
  tool (
    c ← get_client;
    user ← ask c Api.check_permissions;
    lift (
      name ← Py.get user "name" (VStr "N/A");
      let text := "👤 Current User: **" +:+ str name +:+ "**" +:+ nl +:+ nl in
      id ← getitem user "id";
      let text := text +:+ "- **ID**: " +:+ str id +:+ nl in
      login ← Py.get user "login" (VStr "N/A");
      let text := text +:+ "- **Login**: " +:+ str login +:+ nl in
      email ← Py.get user "email" (VStr "N/A");
      let text := text +:+ "- **Email**: " +:+ str email +:+ nl in
      admin ← Py.get user "admin" (VBool false);
      mret (text +:+ "- **Admin**: " +:+ str admin +:+ nl))).

End RemainingTools.

(* ====================================================================== *)
(** ** Start-up *)
(* ====================================================================== *)

(** What [main] ends up running: [mcp.run_http_async(host, port)] or
    [mcp.run_stdio_async()]. *)
Inductive transport : Type :=
| run_http_async (host : string) (port : Z)
| run_stdio_async.

Section Main.

(** Python's [int] on a [str]; it raises [ValueError] on what is not a
    number. *)
Variable int : string -> result Z.

Definition main : M transport :=
  flag ← getenv_or "USE_HTTP_TRANSPORT" "true";
  let use_http := String.eqb (lower flag) "true" in
  if use_http then
    host ← getenv_or "HTTP_HOST" "0.0.0.0";
    port_text ← getenv_or "HTTP_PORT" "8008";
    port ← lift (int port_text);
    mret (run_http_async host port)
  else mret run_stdio_async.

End Main.

(* ====================================================================== *)
(** ** Notions used to state further properties *)
(* ====================================================================== *)

(** What a tool answers for the outcome [r] of its body. *)
Definition reply (r : result string) : string :=
  match r with
  | Ok text => text
  | Raise e => "❌ Error: " +:+ str_exn e
  end.

(** [result.get("_embedded", {}).get("elements", [])] finds nothing:
    [result] is an object in which [_embedded] is missing, or is an object
    in which [elements] is missing or falsy. *)
Definition no_elements (result : value) : bool :=
  match result with
  | VDict d =>
      match dict_lookup "_embedded" d with
      | None => true
      | Some (VDict e) =>
          match dict_lookup "elements" e with
          | None => true
          | Some v => negb (truthy v)
          end
      | Some _ => false
      end
  | _ => false
  end.

(** An envelope whose [_embedded.elements] is the list [items]. *)
Definition collection (items : list value) : value :=
  VDict [("_embedded", VDict [("elements", VList items)])].

(** The predicate [{field: {"operator": "=", "values": [v]}}]. *)
Definition equals (field : string) (v : value) : value :=
  VDict [(field, VDict [("operator", VStr "="); ("values", VList [v])])].

(** [json.dumps(filters) if filters else None] *)
Definition filters_argument (filters : list value) : value :=
  match filters with
  | [] => VNone
  | _ => VStr (Json.dumps (VList filters))
  end.

(** The bytes of [s] are printable ASCII other than the double quote and
    the backslash. *)
Fixpoint plain (s : string) : bool :=
  match s with
  | EmptyString => true
  | String c s' =>
      N.leb 32 (code c) && N.leb (code c) 126
      && negb (N.eqb (code c) 34) && negb (N.eqb (code c) 92) && plain s'
  end.


(** What a tool of the shape "take the client, make one call, render the
    answer" returns in [w], when the call is answered by [answer] and
    [render] turns the answer into the text. *)
Definition served (w : World) (answer : result value)
    (render : value -> result string) : string :=
  reply (_ ← output get_client w; r ← answer; render r).

(** A world before the first use of the client whose remote side cannot
    be reached. *)
Definition offline (env : list (string * string)) : World :=
  {| environ := env; client := None; calls := [];
     remote := fun _ _ => Raise (ClientError "connection refused") |}.

(** The value of [TEST_CONNECTION_ON_STARTUP], "false" when unset. *)
Definition startup_flag (w : World) : string :=
  match env_lookup "TEST_CONNECTION_ON_STARTUP" (environ w) with
  | Some v => v
  | None => "false"
  end.


(* ====================================================================== *)
(** ** Answers of the service and the texts expected for them *)
(* ====================================================================== *)

(** The definitions of this part are not taken from [server.py].  They
    say which answers are considered, by the keys these hold and not by
    their exact shape, and what text is expected for such an answer; the
    properties below compare the tools with them. *)

(** The value under [k] in the object [d], or [None]. *)
Definition field (d : list (string * value)) (k : string) : value :=
  match dict_lookup k d with
  | Some v => v
  | None => VNone
  end.

(** The value under [k] in the object [d], or the text [default]. *)
Definition field_or (d : list (string * value)) (k default : string) : value :=
  match dict_lookup k d with
  | Some v => v
  | None => VStr default
  end.

(** The object under [k] in [d], the empty object when there is none. *)
Definition object_at (d : list (string * value)) (k : string)
    : list (string * value) :=
  match dict_lookup k d with
  | Some (VDict o) => o
  | _ => []
  end.

(** The key [k] is missing from [d] or holds an object. *)
Definition object_or_missing (d : list (string * value)) (k : string) : bool :=
  match dict_lookup k d with
  | None => true
  | Some (VDict _) => true
  | Some _ => false
  end.

(** The object [d] has all the keys [ks]. *)
Definition has_keys (d : list (string * value)) (ks : list string) : bool :=
  forallb (fun k => match dict_lookup k d with
                    | Some _ => true
                    | None => false
                    end) ks.

(** A work package as the service delivers it: it has an [id] and a
    [subject]; [_embedded], what is embedded as [status], [type],
    [priority], [assignee] and [project], and [description] are objects
    where they are there at all.  Further keys are of no account. *)
Definition tidy_work_package (d : list (string * value)) : bool :=
  has_keys d ["id"; "subject"]
  && object_or_missing d "_embedded"
  && forallb (object_or_missing (object_at d "_embedded"))
             ["status"; "type"; "priority"; "assignee"; "project"]
  && object_or_missing d "description".

(** The line of an embedded resource that is printed behind a guard: it is
    there when the resource is a non-empty object, and shows its [name],
    or [default]. *)
Definition guarded_line (e : list (string * value))
    (relation label default : string) : string :=
  if truthy (field e relation)
  then label +:+ str (field_or (object_at e relation) "name" default) +:+ nl
  else EmptyString.

(** What [list_work_packages] is to print for the work package [d]. *)
Definition work_package_entry (d : list (string * value)) : string :=
  "#" +:+ str (field d "id") +:+ " - **" +:+ str (field d "subject") +:+ "**"
  +:+ nl
  +:+ "   Status: "
  +:+ str (field_or (object_at (object_at d "_embedded") "status") "name"
             "Unknown") +:+ nl
  +:+ "   Type: "
  +:+ str (field_or (object_at (object_at d "_embedded") "type") "name" "N/A")
  +:+ nl
  +:+ guarded_line (object_at d "_embedded") "assignee" "   Assignee: " "N/A"
  +:+ nl.

(** What [get_work_package] is to print for the work package [d]. *)
Definition work_package_details (d : list (string * value)) : string :=
  "📝 #" +:+ str (field d "id") +:+ " - **" +:+ str (field d "subject") +:+ "**"
  +:+ nl +:+ nl
  +:+ "- **Status**: "
  +:+ str (field_or (object_at (object_at d "_embedded") "status") "name"
             "Unknown") +:+ nl
  +:+ "- **Type**: "
  +:+ str (field_or (object_at (object_at d "_embedded") "type") "name" "N/A")
  +:+ nl
  +:+ guarded_line (object_at d "_embedded") "priority" "- **Priority**: " "N/A"
  +:+ guarded_line (object_at d "_embedded") "assignee" "- **Assignee**: "
        "Unassigned"
  +:+ guarded_line (object_at d "_embedded") "project" "- **Project**: " "N/A"
  +:+ (if truthy (field (object_at d "description") "raw")
       then nl +:+ "**Description**:" +:+ nl
            +:+ str (field (object_at d "description") "raw") +:+ nl
       else EmptyString).

(** The list under [_embedded.elements] of the answer [result]; the order
    of the keys of the envelope and what else it holds are of no
    account. *)
Definition elements_of (result : value) : option (list value) :=
  match result with
  | VDict env =>
      match dict_lookup "_embedded" env with
      | Some (VDict emb) =>
          match dict_lookup "elements" emb with
          | Some (VList items) => Some items
          | _ => None
          end
      | _ => None
      end
  | _ => None
  end.

(** The [total] of the envelope [result], when it has one. *)
Definition total_of (result : value) : option value :=
  match result with
  | VDict env => dict_lookup "total" env
  | _ => None
  end.

(** The line of a resource with a name and an id. *)
Definition name_id_entry (d : list (string * value)) : string :=
  "- **" +:+ str (field d "name") +:+ "** (ID: " +:+ str (field d "id") +:+ ")"
  +:+ nl.

(** The line of a child work package. *)
Definition child_entry (d : list (string * value)) : string :=
  "#" +:+ str (field d "id") +:+ " - **" +:+ str (field d "subject") +:+ "**"
  +:+ nl.

(** What [list_time_entry_activities] is to print for the activity [d]. *)
Definition activity_entry (d : list (string * value)) : string :=
  name_id_entry d
  +:+ (if truthy (field d "default") then "  ⭐ Default activity" +:+ nl
       else EmptyString).

(** A relation as the service delivers it: it has an [id]; [_embedded]
    and what is embedded as [from] and [to] are objects where they are
    there at all. *)
Definition tidy_relation (d : list (string * value)) : bool :=
  has_keys d ["id"]
  && object_or_missing d "_embedded"
  && forallb (object_or_missing (object_at d "_embedded")) ["from"; "to"].

(** What [get_work_package_relation] is to print for the relation [d]. *)
Definition relation_details (d : list (string * value)) : string :=
  "🔗 Relation #" +:+ str (field d "id") +:+ nl +:+ nl
  +:+ "- **Type**: " +:+ str (field_or d "type" "N/A") +:+ nl
  +:+ "- **From**: #"
  +:+ str (field_or (object_at (object_at d "_embedded") "from") "id" "N/A")
  +:+ " - "
  +:+ str (field_or (object_at (object_at d "_embedded") "from") "subject" "N/A")
  +:+ nl
  +:+ "- **To**: #"
  +:+ str (field_or (object_at (object_at d "_embedded") "to") "id" "N/A")
  +:+ " - "
  +:+ str (field_or (object_at (object_at d "_embedded") "to") "subject" "N/A")
  +:+ nl
  +:+ (if truthy (field d "lag")
       then "- **Lag**: " +:+ str (field d "lag") +:+ " days" +:+ nl
       else EmptyString).

(** A membership as the service delivers it: it has an [id]; [_embedded]
    and what is embedded as [principal] and [project] are objects where
    they are there at all. *)
Definition tidy_membership (d : list (string * value)) : bool :=
  has_keys d ["id"]
  && object_or_missing d "_embedded"
  && forallb (object_or_missing (object_at d "_embedded"))
             ["principal"; "project"].

(** The roles embedded in the membership [d], an empty list when there
    are none. *)
Definition roles_of (d : list (string * value)) : value :=
  match dict_lookup "roles" (object_at d "_embedded") with
  | Some v => v
  | None => VList []
  end.

(** The name of the role [r] is a string, or missing. *)
Definition string_named (r : list (string * value)) : bool :=
  match dict_lookup "name" r with
  | None => true
  | Some (VStr _) => true
  | Some _ => false
  end.

(** The name of the role [r], "N/A" when it has none. *)
Definition role_name (r : list (string * value)) : string :=
  match dict_lookup "name" r with
  | Some (VStr n) => n
  | _ => "N/A"
  end.

(** What [get_membership] is to print for the membership [d] whose roles
    are [rs]. *)
Definition membership_details (d : list (string * value))
    (rs : list (list (string * value))) : string :=
  "👤 **"
  +:+ str (field_or (object_at (object_at d "_embedded") "principal") "name"
             "N/A")
  +:+ "** in **"
  +:+ str (field_or (object_at (object_at d "_embedded") "project") "name" "N/A")
  +:+ "**" +:+ nl +:+ nl
  +:+ "- **Membership ID**: " +:+ str (field d "id") +:+ nl
  +:+ "- **Roles**: " +:+ String.concat ", " (map role_name rs) +:+ nl.

(** [os.getenv(name, default)] in the world [w]. *)
Definition setting (w : World) (name default : string) : string :=
  match env_lookup name (environ w) with
  | Some v => v
  | None => default
  end.

(** A world with the client at hand whose remote side turns every call
    down with the message [msg]. *)
Definition refusing (msg : string) : World :=
  {| environ := [];
     client := Some {| base_url := Some "https://op.example.org";
                       api_key := Some "secret";
                       proxy := None |};
     calls := [];
     remote := fun _ _ => Raise (ClientError msg) |}.

(** A work package in which every embedded resource is there without a
    name. *)
Definition work_package_with_nameless_resources : value :=
  VDict [("id", VInt 7); ("subject", VStr "Fix login");
         ("_embedded",
          VDict [("status", VDict [("id", VInt 1)]);
                 ("type", VDict [("id", VInt 2)]);
                 ("priority", VDict [("id", VInt 3)]);
                 ("assignee", VDict [("id", VInt 4)]);
                 ("project", VDict [("id", VInt 5)])])].

(** A work package whose [_embedded] is the empty object. *)
Definition work_package_with_empty_embedded : value :=
  VDict [("id", VInt 7); ("subject", VStr "Fix login"); ("_embedded", VDict [])].
(* ====================================================================== *)
(** * Properties *)
(* ====================================================================== *)

#[local] Set Warnings "-clear-no-such-hyp".

(** ** Running actions *)

Lemma run_bind {A B : Type} (m : M A) (f : A -> M B) (w : World) :
  run (m ≫= f) w = match run m w with
                   | (Ok a, w') => run (f a) w'
                   | (Raise e, w') => (Raise e, w')
                   end.
Proof. reflexivity. Qed.

Lemma run_tool (body : M string) (w : World) :
  run (tool body) w = match run body w with
                      | (Ok a, w') => (Ok a, w')
                      | (Raise e, w') => (Ok ("❌ Error: " +:+ str_exn e), w')
                      end.
Proof. reflexivity. Qed.

(** A tool never lets an exception escape. *)
Lemma tool_returns (body : M string) (w : World) :
  exists text, output (tool body) w = Ok text.
Proof.
  unfold output. rewrite run_tool.
  destruct (run body w) as [[a|e] w']; by eexists.
Qed.

Lemma get_client_ready (w : World) (c : OpenProjectClient) :
  client w = Some c -> run get_client w = (Ok c, w).
Proof.
  intros Hc. unfold get_client. rewrite run_bind. simpl. by rewrite Hc.
Qed.

(** [get_client] only ever adds to the log of calls. *)
Lemma get_client_calls (w : World) :
  exists extra, calls (snd (run get_client w)) = calls w ++ extra.
Proof.
  unfold get_client. rewrite run_bind. simpl.
  destruct (client w) as [c|]; simpl.
  - exists []. by rewrite app_nil_r.
  - destruct (absent _ || absent _); simpl.
    + exists []. by rewrite app_nil_r.
    + destruct (String.eqb _ "true"); simpl.
      * destruct (remote w (calls w) Client.test_connection); simpl; by eexists.
      * exists []. by rewrite app_nil_r.
Qed.

(** Once the client exists, [get_client] makes no call. *)
Lemma get_client_quiet (w : World) (c : OpenProjectClient) :
  client w = Some c -> issued get_client w = [].
Proof.
  intros Hc. unfold issued. rewrite (get_client_ready w c Hc). simpl.
  by rewrite drop_all.
Qed.

(** The only call [get_client] can make is the connection test. *)
Lemma get_client_issues (w : World) :
  issued get_client w = [] \/ issued get_client w = [Client.test_connection].
Proof.
  unfold issued, get_client. rewrite run_bind. simpl.
  destruct (client w) as [c|]; simpl; [left; by rewrite drop_all|].
  destruct (absent _ || absent _); simpl; [left; by rewrite drop_all|].
  destruct (String.eqb _ "true"); simpl.
  - right. destruct (remote w (calls w) Client.test_connection); simpl;
      by rewrite drop_app_length.
  - left. by rewrite drop_all.
Qed.

Lemma performs_intro (t : M string) (rq : Client.call) (w : World) :
  (forall c w1, run get_client w = (Ok c, w1) ->
                calls (snd (run t w)) = calls w1 ++ [rq]) ->
  (forall e w1, run get_client w = (Raise e, w1) ->
                calls (snd (run t w)) = calls w1) ->
  performs t rq w.
Proof.
  intros Hok Herr. unfold performs, issued, acquired, output.
  destruct (get_client_calls w) as [extra Hextra].
  destruct (run get_client w) as [[c|e] w1] eqn:Hrun; simpl in *.
  - rewrite (Hok c w1 eq_refl), Hextra, <- app_assoc, !drop_app_length. done.
  - rewrite (Herr e w1 eq_refl), Hextra, !drop_app_length, app_nil_r. done.
Qed.

(** The shape shared by the tools: take the client, make one call, render
    its answer. *)
Lemma performs_request (rq : Client.call) (render : value -> result string)
    (w : World) :
  performs (tool (c ← get_client; result ← await c rq; lift (render result)))
           rq w.
Proof.
  apply performs_intro; intros ? w1 Hclient;
    rewrite run_tool, run_bind, Hclient; [|done].
  rewrite run_bind. simpl.
  destruct (remote w1 (calls w1) rq); simpl; [|done].
  by destruct (render a).
Qed.

(** With the client at hand, such a tool makes exactly the call [rq]. *)
Lemma performs_connected (t : M string) (rq : Client.call) (w : World)
    (c : OpenProjectClient) :
  client w = Some c -> performs t rq w -> issued t w = [rq].
Proof.
  intros Hc Hp. unfold performs, acquired, output in Hp.
  by rewrite (get_client_quiet w c Hc), (get_client_ready w c Hc) in Hp.
Qed.

(** What such a tool returns: the rendering of the answer to its call, or
    the text of whatever was raised on the way. *)
Lemma request_output (rq : Client.call) (render : value -> result string)
    (w : World) :
  output (tool (c ← get_client; result ← await c rq; lift (render result))) w
  = Ok (reply (match run get_client w with
               | (Ok _, w1) => result ← remote w1 (calls w1) rq; render result
               | (Raise e, _) => Raise e
               end)).
Proof.
  unfold output. rewrite run_tool, run_bind.
  destruct (run get_client w) as [[c|e] w1]; [|done].
  rewrite run_bind. simpl.
  destruct (remote w1 (calls w1) rq) as [r|e]; simpl; [|done].
  by destruct (render r).
Qed.

(** ** The call each tool makes *)

Lemma list_projects_performs (w : World) (active_only : value) :
  performs (list_projects active_only)
           (Client.get_projects
              (if truthy active_only
               then VStr (Json.dumps
                            (VList [VDict [("active",
                                            VDict [("operator", VStr "=");
                                                   ("values", VList [VStr "t"])])]]))
               else VNone)) w.
Proof. apply performs_request. Qed.

Lemma list_users_performs (w : World) (active_only : value) :
  performs (list_users active_only)
           (Client.get_users
              (if truthy active_only
               then VStr (Json.dumps
                            (VList [VDict [("status",
                                            VDict [("operator", VStr "=");
                                                   ("values", VList [VStr "active"])])]]))
               else VNone)) w.
Proof. apply performs_request. Qed.

Lemma list_work_packages_performs (w : World)
    (project_id status offset page_size : value) :
  performs (list_work_packages project_id status offset page_size)
           (Client.get_work_packages project_id
              (if eq_str status "open" then VStr (Json.dumps (status_filter "o"))
               else if eq_str status "closed"
                    then VStr (Json.dumps (status_filter "c"))
                    else VNone)
              offset page_size) w.
Proof.
  unfold list_work_packages.
  destruct (eq_str status "open"); [apply performs_request|].
  destruct (eq_str status "closed"); apply performs_request.
Qed.

Lemma list_time_entries_performs_unset (w : World) :
  performs (list_time_entries VNone VNone) (Client.get_time_entries VNone) w.
Proof. apply performs_request. Qed.

Lemma list_work_package_relations_performs_unset (w : World) :
  performs (list_work_package_relations VNone VNone)
           (Client.list_work_package_relations VNone) w.
Proof. apply performs_request. Qed.

Lemma update_work_package_performs (w : World)
    (work_package_id subject description type_id status_id priority_id
       assignee_id percentage_done : value) :
  performs (update_work_package work_package_id subject description type_id
              status_id priority_id assignee_id percentage_done)
           (Client.update_work_package work_package_id
              (VDict (supplied [("subject", subject);
                                ("description", description);
                                ("type_id", type_id);
                                ("status_id", status_id);
                                ("priority_id", priority_id);
                                ("assignee_id", assignee_id);
                                ("percentage_done", percentage_done)]))) w.
Proof.
  unfold update_work_package, supplied.
  rewrite !filter_cons, filter_nil. simpl.
  destruct (is_none subject), (is_none description), (is_none type_id),
    (is_none status_id), (is_none priority_id), (is_none assignee_id),
    (is_none percentage_done); apply performs_request.
Qed.

Lemma update_project_performs (w : World)
    (project_id name identifier description public status parent_id : value) :
  performs (update_project project_id name identifier description public
              status parent_id)
           (Client.update_project project_id
              (VDict (supplied [("name", name);
                                ("identifier", identifier);
                                ("description", description);
                                ("public", public);
                                ("status", status);
                                ("parent_id", parent_id)]))) w.
Proof.
  unfold update_project, supplied.
  rewrite !filter_cons, filter_nil. simpl.
  destruct (is_none name), (is_none identifier), (is_none description),
    (is_none public), (is_none status), (is_none parent_id);
    apply performs_request.
Qed.

Lemma create_work_package_performs (w : World)
    (project_id subject type_id description priority_id assignee_id : value) :
  performs (create_work_package project_id subject type_id description
              priority_id assignee_id)
           (Client.create_work_package
              (VDict ([("project", project_id); ("subject", subject);
                       ("type", type_id)]
                      ++ provided [("description", description);
                                   ("priority_id", priority_id);
                                   ("assignee_id", assignee_id)]))) w.
Proof.
  unfold create_work_package, provided.
  rewrite !filter_cons, filter_nil. simpl.
  destruct (truthy description), (truthy priority_id), (truthy assignee_id);
    apply performs_request.
Qed.

Lemma create_project_performs (w : World)
    (name identifier description public status parent_id : value) :
  performs (create_project name identifier description public status parent_id)
           (Client.create_project
              (VDict ([("name", name); ("identifier", identifier);
                       ("public", public)]
                      ++ provided [("description", description);
                                   ("status", status);
                                   ("parent_id", parent_id)]))) w.
Proof.
  unfold create_project, provided.
  rewrite !filter_cons, filter_nil. simpl.
  destruct (truthy description), (truthy status), (truthy parent_id);
    apply performs_request.
Qed.

Lemma create_time_entry_performs (w : World)
    (work_package_id hours spent_on comment activity_id : value) :
  performs (create_time_entry work_package_id hours spent_on comment activity_id)
           (Client.create_time_entry
              (VDict ([("work_package_id", work_package_id); ("hours", hours);
                       ("spent_on", spent_on)]
                      ++ provided [("comment", comment);
                                   ("activity_id", activity_id)]))) w.
Proof.
  unfold create_time_entry, provided.
  rewrite !filter_cons, filter_nil. simpl.
  destruct (truthy comment), (truthy activity_id); apply performs_request.
Qed.

(** ** Filters *)

(** C2. The filter that [list_work_packages] hands to the client is fixed
    by [status]: for "open" it is the serialised JSON array
    [[{"status": {"operator": "o", "values": []}}]], for "closed" the same
    array with operator "c", and for "all" it is [None].  The serialised
    text uses the default separators of [json.dumps]; without its blanks
    it is the compact rendering of the array. *)
Theorem list_work_packages_status_filter (w : World)
    (project_id offset page_size : value) :
  performs (list_work_packages project_id (VStr "open") offset page_size)
           (Client.get_work_packages project_id
              (VStr (Json.dumps (status_filter "o"))) offset page_size) w
  /\ performs (list_work_packages project_id (VStr "closed") offset page_size)
              (Client.get_work_packages project_id
                 (VStr (Json.dumps (status_filter "c"))) offset page_size) w
  /\ performs (list_work_packages project_id (VStr "all") offset page_size)
              (Client.get_work_packages project_id VNone offset page_size) w
  /\ Json.dumps (status_filter "o")
     = "[{" +:+ quoted "status" +:+ ": {" +:+ quoted "operator" +:+ ": "
       +:+ quoted "o" +:+ ", " +:+ quoted "values" +:+ ": []}}]"
  /\ Json.dumps (status_filter "c")
     = "[{" +:+ quoted "status" +:+ ": {" +:+ quoted "operator" +:+ ": "
       +:+ quoted "c" +:+ ", " +:+ quoted "values" +:+ ": []}}]"
  /\ compact (Json.dumps (status_filter "o"))
     = "[{" +:+ quoted "status" +:+ ":{" +:+ quoted "operator" +:+ ":"
       +:+ quoted "o" +:+ "," +:+ quoted "values" +:+ ":[]}}]"
  /\ compact (Json.dumps (status_filter "c"))
     = "[{" +:+ quoted "status" +:+ ":{" +:+ quoted "operator" +:+ ":"
       +:+ quoted "c" +:+ "," +:+ quoted "values" +:+ ":[]}}]".
Proof.
  split; [apply (list_work_packages_performs w project_id (VStr "open"))|].
  split; [apply (list_work_packages_performs w project_id (VStr "closed"))|].
  split; [apply (list_work_packages_performs w project_id (VStr "all"))|].
  repeat split; reflexivity.
Qed.

(** C3. When no predicate applies, every list tool that can filter passes
    [None] as the [filters] argument, never a serialised empty array. *)
Theorem filters_omitted_without_predicate (w : World)
    (project_id offset page_size : value) :
  performs (list_work_packages project_id (VStr "all") offset page_size)
           (Client.get_work_packages project_id VNone offset page_size) w
  /\ performs (list_projects (VBool false)) (Client.get_projects VNone) w
  /\ performs (list_users (VBool false)) (Client.get_users VNone) w
  /\ performs (list_time_entries VNone VNone) (Client.get_time_entries VNone) w
  /\ performs (list_work_package_relations VNone VNone)
              (Client.list_work_package_relations VNone) w.
Proof.
  split; [apply (list_work_packages_performs w project_id (VStr "all"))|].
  split; [apply (list_projects_performs w (VBool false))|].
  split; [apply (list_users_performs w (VBool false))|].
  split; [apply list_time_entries_performs_unset|].
  apply list_work_package_relations_performs_unset.
Qed.

(** ** Payloads *)

Lemma elem_of_supplied (fields : list (string * value)) (k : string) (v : value) :
  (k, v) ∈ supplied fields <-> (k, v) ∈ fields /\ v <> VNone.
Proof.
  unfold supplied. rewrite list_elem_of_filter. simpl.
  split; intros [H1 H2]; split; auto; destruct v; done.
Qed.

Lemma elem_of_provided (fields : list (string * value)) (k : string) (v : value) :
  (k, v) ∈ provided fields <-> (k, v) ∈ fields /\ truthy v = true.
Proof.
  unfold provided. rewrite list_elem_of_filter. simpl. tauto.
Qed.

(** C6. A partial update sends exactly the fields that were given a value
    other than [None], with that value; when none is given the empty
    payload is still sent to the client. *)
Theorem partial_update_payload (w : World)
    (work_package_id subject wp_description type_id status_id priority_id
       assignee_id percentage_done : value)
    (project_id name identifier description public status parent_id : value) :
  performs (update_work_package work_package_id subject wp_description type_id
              status_id priority_id assignee_id percentage_done)
           (Client.update_work_package work_package_id
              (VDict (supplied [("subject", subject);
                                ("description", wp_description);
                                ("type_id", type_id);
                                ("status_id", status_id);
                                ("priority_id", priority_id);
                                ("assignee_id", assignee_id);
                                ("percentage_done", percentage_done)]))) w
  /\ performs (update_project project_id name identifier description public
                 status parent_id)
              (Client.update_project project_id
                 (VDict (supplied [("name", name);
                                   ("identifier", identifier);
                                   ("description", description);
                                   ("public", public);
                                   ("status", status);
                                   ("parent_id", parent_id)]))) w
  /\ performs (update_work_package work_package_id VNone VNone VNone VNone VNone
                 VNone VNone)
              (Client.update_work_package work_package_id (VDict [])) w
  /\ performs (update_project project_id VNone VNone VNone VNone VNone VNone)
              (Client.update_project project_id (VDict [])) w
  /\ (forall fields k v,
         (k, v) ∈ supplied fields <-> (k, v) ∈ fields /\ v <> VNone).
Proof.
  split; [apply update_work_package_performs|].
  split; [apply update_project_performs|].
  split; [apply (update_work_package_performs w work_package_id
                   VNone VNone VNone VNone VNone VNone VNone)|].
  split; [apply (update_project_performs w project_id
                   VNone VNone VNone VNone VNone VNone)|].
  apply elem_of_supplied.
Qed.

(** C10. The create tools keep an optional field only when its value is
    truthy, so a given 0, empty string or [False] is left out; the update
    tools keep every value other than [None], so these are sent.  With
    [priority_id = 0], [create_work_package] sends no priority and
    [update_work_package] sends [priority_id: 0]. *)
Theorem create_update_falsy_asymmetry (w : World)
    (project_id subject type_id description priority_id assignee_id : value)
    (name identifier public status parent_id : value)
    (work_package_id hours spent_on comment activity_id : value)
    (status_id percentage_done : value) :
  performs (create_work_package project_id subject type_id description
              priority_id assignee_id)
           (Client.create_work_package
              (VDict ([("project", project_id); ("subject", subject);
                       ("type", type_id)]
                      ++ provided [("description", description);
                                   ("priority_id", priority_id);
                                   ("assignee_id", assignee_id)]))) w
  /\ performs (create_project name identifier description public status parent_id)
              (Client.create_project
                 (VDict ([("name", name); ("identifier", identifier);
                          ("public", public)]
                         ++ provided [("description", description);
                                      ("status", status);
                                      ("parent_id", parent_id)]))) w
  /\ performs (create_time_entry work_package_id hours spent_on comment
                 activity_id)
              (Client.create_time_entry
                 (VDict ([("work_package_id", work_package_id); ("hours", hours);
                          ("spent_on", spent_on)]
                         ++ provided [("comment", comment);
                                      ("activity_id", activity_id)]))) w
  /\ performs (update_work_package work_package_id subject description type_id
                 status_id priority_id assignee_id percentage_done)
              (Client.update_work_package work_package_id
                 (VDict (supplied [("subject", subject);
                                   ("description", description);
                                   ("type_id", type_id);
                                   ("status_id", status_id);
                                   ("priority_id", priority_id);
                                   ("assignee_id", assignee_id);
                                   ("percentage_done", percentage_done)]))) w
  /\ performs (update_project project_id name identifier description public
                 status parent_id)
              (Client.update_project project_id
                 (VDict (supplied [("name", name);
                                   ("identifier", identifier);
                                   ("description", description);
                                   ("public", public);
                                   ("status", status);
                                   ("parent_id", parent_id)]))) w
  /\ (forall k, provided [(k, VInt 0)] = [] /\ provided [(k, VStr EmptyString)] = []
                /\ provided [(k, VBool false)] = [] /\ provided [(k, VNone)] = [])
  /\ (forall k, supplied [(k, VInt 0)] = [(k, VInt 0)]
                /\ supplied [(k, VStr EmptyString)] = [(k, VStr EmptyString)]
                /\ supplied [(k, VBool false)] = [(k, VBool false)]
                /\ supplied [(k, VNone)] = [])
  /\ performs (create_work_package project_id subject type_id VNone (VInt 0) VNone)
              (Client.create_work_package
                 (VDict [("project", project_id); ("subject", subject);
                         ("type", type_id)])) w
  /\ performs (update_work_package work_package_id VNone VNone VNone VNone
                 (VInt 0) VNone VNone)
              (Client.update_work_package work_package_id
                 (VDict [("priority_id", VInt 0)])) w.
Proof.
  split; [apply create_work_package_performs|].
  split; [apply create_project_performs|].
  split; [apply create_time_entry_performs|].
  split; [apply update_work_package_performs|].
  split; [apply update_project_performs|].
  split; [done|]. split; [done|].
  split; [apply (create_work_package_performs w project_id subject type_id
                   VNone (VInt 0) VNone)|].
  apply (update_work_package_performs w work_package_id
           VNone VNone VNone VNone (VInt 0) VNone VNone).
Qed.

(** ** Relations *)

(** C4, as stated, does not hold: with the client at hand, a relation from
    work package 5 to itself is handed to the client's
    [create_work_package_relation] and the tool reports success. *)
Lemma self_relation_is_sent :
  issued self_relation (connected (VDict []))
  = [Client.create_work_package_relation
       (VDict [("from_id", VInt 5); ("to_id", VInt 5);
               ("relation_type", VStr "relates")])]
  /\ output self_relation (connected (VDict []))
     = Ok "✅ Relation created: #5 relates #5"
  /\ ~ rejects_locally self_relation (connected (VDict [])).
Proof.
  split; [reflexivity|]. split; [reflexivity|].
  intros [Hissued _]. discriminate Hissued.
Qed.

(** C4, amended.  [create_work_package_relation] does not compare
    [from_id] with [to_id]: whatever they are, equal or not, it hands them
    on unchanged with [relation_type], adds [lag] unless it is [None] and
    [description] when it is truthy, and makes the client's
    [create_work_package_relation] call with that payload.  What it
    returns is decided by that call alone: the confirmation when the call
    returns, whatever it returns, and otherwise "❌ Error: " followed by
    the text of the exception the call raised; without a client, the text
    of the exception of [get_client]. *)
Theorem create_work_package_relation_passes_ids (w : World)
    (from_id to_id relation_type lag description : value) :
  let rq := Client.create_work_package_relation
              (VDict ([("from_id", from_id); ("to_id", to_id);
                       ("relation_type", relation_type)]
                      ++ supplied [("lag", lag)]
                      ++ provided [("description", description)])) in
  let t := create_work_package_relation from_id to_id relation_type lag
             description in
  let confirmation := "✅ Relation created: #" +:+ str from_id +:+ " "
              +:+ str relation_type +:+ " #" +:+ str to_id in
  performs t rq w
  /\ output t w
     = Ok (reply (match run get_client w with
                  | (Ok _, w1) => _ ← remote w1 (calls w1) rq; Ok confirmation
                  | (Raise e, _) => Raise e
                  end))
  /\ (forall c e, client w = Some c -> remote w (calls w) rq = Raise e ->
                  output t w = Ok ("❌ Error: " +:+ str_exn e))
  /\ (forall c r, client w = Some c -> remote w (calls w) rq = Ok r ->
                  output t w = Ok confirmation).
Proof.
  cbv zeta.
  assert (create_work_package_relation from_id to_id relation_type lag
            description
          = tool (c ← get_client;
                  _ ← await c (Client.create_work_package_relation
                                 (VDict ([("from_id", from_id); ("to_id", to_id);
                                          ("relation_type", relation_type)]
                                         ++ supplied [("lag", lag)]
                                         ++ provided [("description",
                                                       description)])));
                  lift (mret ("✅ Relation created: #" +:+ str from_id +:+ " "
                              +:+ str relation_type +:+ " #" +:+ str to_id))))
    as ->.
  { unfold create_work_package_relation, supplied, provided.
    rewrite !filter_cons, !filter_nil. simpl.
    by destruct (is_none lag), (truthy description). }
  split; [apply performs_request|].
  split; [apply (request_output _ (fun _ => Ok _))|].
  split; intros c x Hc Hremote;
    (etrans; [apply (request_output _ (fun _ => Ok _))|]);
    by rewrite (get_client_ready w c Hc), Hremote.
Qed.

Lemma create_work_package_relation_passes_ids_witness :
  output self_relation (refusing "from and to must differ")
  = Ok "❌ Error: from and to must differ".
Proof.
  destruct (create_work_package_relation_passes_ids
              (refusing "from and to must differ")
              (VInt 5) (VInt 5) (VStr "relates") VNone VNone)
    as (_ & _ & Hraise & _).
  exact (Hraise _ (ClientError "from and to must differ") eq_refl eq_refl).
Defined.

(** ** Memberships *)

Lemma create_membership_run_neither (w : World)
    (project_id user_id group_id role_ids role_id : value) :
  truthy user_id = false -> truthy group_id = false ->
  run (create_membership project_id user_id group_id role_ids role_id) w
  = match run get_client w with
    | (Ok _, w1) =>
        (Ok "❌ Error: Either user_id or group_id must be provided", w1)
    | (Raise e, w1) => (Ok ("❌ Error: " +:+ str_exn e), w1)
    end.
Proof.
  intros Hu Hg. unfold create_membership. rewrite run_tool, run_bind.
  destruct (run get_client w) as [[c|e] w1]; [|done].
  by rewrite Hu, Hg.
Qed.

(** C5, as stated, does not hold: on the first use of the client, with the
    start-up connection test switched on, the rejected request still makes
    [get_client] call [test_connection]. *)
Lemma membership_without_principal_first_use :
  issued membership_without_principal
         (fresh (configured_env ++ [("TEST_CONNECTION_ON_STARTUP", "true")])
                (VDict []))
  = [Client.test_connection]
  /\ ~ rejects_locally membership_without_principal
         (fresh (configured_env ++ [("TEST_CONNECTION_ON_STARTUP", "true")])
                (VDict [])).
Proof.
  split; [reflexivity|].
  intros [Hissued _]. discriminate Hissued.
Qed.

(** C5, amended.  When neither [user_id] nor [group_id] is truthy,
    [create_membership] makes no call of its own: what is issued is what
    [get_client] issues, which is nothing once the client exists and at
    most the connection test on first use.  Provided [get_client]
    succeeds, the tool answers with its own text "Either user_id or
    group_id must be provided".  When [user_id] is truthy it is the one
    sent, whatever [group_id] is; [group_id] is sent only when [user_id]
    is not truthy. *)
Theorem create_membership_precedence (w : World)
    (project_id user_id group_id role_ids role_id : value) :
  if truthy user_id
  then performs (create_membership project_id user_id group_id role_ids role_id)
                (Client.create_membership
                   (VDict ([("project_id", project_id); ("user_id", user_id)]
                           ++ (if truthy role_ids then [("role_ids", role_ids)]
                               else provided [("role_id", role_id)])))) w
  else if truthy group_id
  then performs (create_membership project_id user_id group_id role_ids role_id)
                (Client.create_membership
                   (VDict ([("project_id", project_id); ("group_id", group_id)]
                           ++ (if truthy role_ids then [("role_ids", role_ids)]
                               else provided [("role_id", role_id)])))) w
  else issued (create_membership project_id user_id group_id role_ids role_id) w
       = issued get_client w
       /\ (issued get_client w = []
           \/ issued get_client w = [Client.test_connection])
       /\ output (create_membership project_id user_id group_id role_ids role_id) w
          = match output get_client w with
            | Ok _ => Ok "❌ Error: Either user_id or group_id must be provided"
            | Raise e => Ok ("❌ Error: " +:+ str_exn e)
            end
       /\ (forall c, client w = Some c ->
                     rejects_locally
                       (create_membership project_id user_id group_id role_ids
                          role_id) w).
Proof.
  destruct (truthy user_id) eqn:Hu; [|destruct (truthy group_id) eqn:Hg].
  - unfold create_membership, provided. rewrite Hu.
    rewrite !filter_cons, !filter_nil. simpl.
    destruct (truthy role_ids), (truthy role_id); apply performs_request.
  - unfold create_membership, provided. rewrite Hu, Hg.
    rewrite !filter_cons, !filter_nil. simpl.
    destruct (truthy role_ids), (truthy role_id); apply performs_request.
  - pose proof (create_membership_run_neither w project_id user_id group_id
                  role_ids role_id Hu Hg) as Hrun.
    unfold issued at 1. unfold output, rejects_locally. rewrite Hrun.
    split; [unfold issued; by destruct (run get_client w) as [[c|e] w1]|].
    split; [apply get_client_issues|].
    split; [by destruct (run get_client w) as [[c|e] w1]|].
    intros c Hc. unfold issued, output. rewrite Hrun.
    rewrite (get_client_ready w c Hc). simpl. rewrite drop_all.
    split; [done|]. by eexists.
Qed.

Lemma create_membership_precedence_witness :
  performs membership_with_both
           (Client.create_membership
              (VDict [("project_id", VInt 1); ("user_id", VInt 7);
                      ("role_id", VInt 3)])) (connected (VDict []))
  /\ rejects_locally membership_without_principal (connected (VDict [])).
Proof.
  split.
  - exact (create_membership_precedence (connected (VDict []))
             (VInt 1) (VInt 7) (VInt 9) VNone (VInt 3)).
  - exact (proj2 (proj2 (proj2 (create_membership_precedence
                                  (connected (VDict []))
                                  (VInt 1) VNone VNone VNone VNone)))
             _ eq_refl).
Defined.

(** ** The client *)

(** C7. On first use, when the base URL or the API key is missing (or
    empty), [get_client] raises the configuration error and leaves the
    world as it was: no client is stored and no call is made.  Otherwise the
    client it stores and hands out carries both the URL and the key. *)
Theorem get_client_first_use (w : World) :
  client w = None ->
  if absent (env_lookup "OPENPROJECT_URL" (environ w))
     || absent (env_lookup "OPENPROJECT_API_KEY" (environ w))
  then run get_client w
       = (Raise (ValueError "OPENPROJECT_URL and OPENPROJECT_API_KEY must be set"),
          w)
  else exists c,
      output get_client w = Ok c
      /\ base_url c = env_lookup "OPENPROJECT_URL" (environ w)
      /\ api_key c = env_lookup "OPENPROJECT_API_KEY" (environ w)
      /\ absent (base_url c) = false
      /\ absent (api_key c) = false
      /\ client (snd (run get_client w)) = Some c.
Proof.
  intros Hnone. unfold output, get_client. rewrite run_bind. simpl.
  rewrite Hnone. simpl.
  destruct (absent _ || absent _) eqn:Habsent; simpl; [done|].
  apply orb_false_elim in Habsent as [Hurl Hkey].
  destruct (String.eqb _ "true"); simpl.
  - destruct (remote w (calls w) Client.test_connection); simpl;
      eexists; repeat split; done.
  - eexists; repeat split; done.
Qed.

Lemma get_client_first_use_witness :
  run get_client (fresh [("OPENPROJECT_URL", "https://op.example.org")] VNone)
  = (Raise (ValueError "OPENPROJECT_URL and OPENPROJECT_API_KEY must be set"),
     fresh [("OPENPROJECT_URL", "https://op.example.org")] VNone).
Proof.
  exact (get_client_first_use
           (fresh [("OPENPROJECT_URL", "https://op.example.org")] VNone) eq_refl).
Defined.

(** ** Envelopes *)

(** C9 fails for [list_time_entry_activities]: on a collection of one
    activity whose envelope has no [total], the tool reads
    [result['total']], which raises [KeyError], and answers with the error
    text; [list_work_packages] on such an envelope falls back on the
    number of elements. *)
Theorem total_missing_from_envelope :
  output list_time_entry_activities (connected activities_without_total)
  = Ok "❌ Error: 'total'"
  /\ output (list_work_packages VNone (VStr "open") VNone VNone)
            (connected work_packages_without_total)
     = Ok (String.concat nl
             ["📝 Work Packages (1 of 1):"; EmptyString;
              "#1 - **Fix login**"; "   Status: Unknown"; "   Type: N/A"; EmptyString; EmptyString]).
Proof. split; reflexivity. Qed.

Lemma append_assoc (a b c : string) : (a +:+ b) +:+ c = a +:+ (b +:+ c).
Proof.
  induction a as [|x a IH]; [reflexivity|].
  change (String x ((a +:+ b) +:+ c) = String x (a +:+ (b +:+ c))).
  by f_equal.
Qed.

(** ** Reading objects *)

Lemma bind_ok {A B : Type} (x : A) (f : A -> result B) : (Ok x ≫= f) = f x.
Proof. reflexivity. Qed.

Lemma append_empty (s : string) : s +:+ EmptyString = s.
Proof.
  induction s as [|a s IH]; [done|].
  change (String a (s +:+ EmptyString) = String a s). by f_equal.
Qed.

Lemma has_keys_cons (d : list (string * value)) (k : string) (ks : list string) :
  has_keys d (k :: ks) = true ->
  dict_lookup k d = Some (field d k) /\ has_keys d ks = true.
Proof.
  unfold has_keys, field. simpl. intros H. apply andb_true_iff in H as [Hk Hks].
  split; [|done]. by destruct (dict_lookup k d).
Qed.

Lemma getitem_field (d : list (string * value)) (k : string) :
  dict_lookup k d = Some (field d k) -> getitem (VDict d) k = Ok (field d k).
Proof. unfold getitem. by intros ->. Qed.

Lemma get_field (d : list (string * value)) (k : string) :
  Py.get (VDict d) k VNone = Ok (field d k).
Proof. reflexivity. Qed.

Lemma get_field_or (d : list (string * value)) (k default : string) :
  Py.get (VDict d) k (VStr default) = Ok (field_or d k default).
Proof. reflexivity. Qed.

Lemma get_object (d : list (string * value)) (k : string) :
  object_or_missing d k = true ->
  Py.get (VDict d) k (VDict []) = Ok (VDict (object_at d k)).
Proof.
  unfold object_or_missing, object_at, Py.get.
  by destruct (dict_lookup k d) as [[]|].
Qed.

(** A truthy value read out of [object_at d k] shows that [k] is there. *)
Lemma getitem_object (d : list (string * value)) (k k' : string) :
  object_or_missing d k = true ->
  truthy (field (object_at d k) k') = true ->
  getitem (VDict d) k = Ok (VDict (object_at d k)).
Proof.
  unfold object_or_missing, object_at, getitem, field.
  destruct (dict_lookup k d) as [[]|]; try done.
Qed.

Lemma getitem_truthy (d : list (string * value)) (k : string) :
  truthy (field d k) = true -> getitem (VDict d) k = Ok (field d k).
Proof.
  unfold field, getitem. by destruct (dict_lookup k d).
Qed.

Lemma truthy_object (d : list (string * value)) (k : string) :
  object_or_missing d k = true -> truthy (field d k) = true ->
  field d k = VDict (object_at d k).
Proof.
  unfold object_or_missing, object_at, field.
  by destruct (dict_lookup k d) as [[]|].
Qed.

Lemma embedded_name_tidy (d : list (string * value))
    (relation default : string) :
  object_or_missing d "_embedded" = true ->
  object_or_missing (object_at d "_embedded") relation = true ->
  embedded_name (VDict d) relation default
  = Ok (field_or (object_at (object_at d "_embedded") relation) "name" default).
Proof.
  intros Hd He. unfold embedded_name.
  rewrite (get_object _ _ Hd), bind_ok, (get_object _ _ He), bind_ok.
  apply get_field_or.
Qed.

Lemma embedded_get_tidy (d : list (string * value)) (relation : string) :
  object_or_missing d "_embedded" = true ->
  embedded_get (VDict d) relation = Ok (field (object_at d "_embedded") relation).
Proof.
  intros Hd. unfold embedded_get. rewrite (get_object _ _ Hd), bind_ok.
  apply get_field.
Qed.

Lemma embedded_item_name_tidy (d : list (string * value))
    (relation default : string) :
  object_or_missing d "_embedded" = true ->
  object_or_missing (object_at d "_embedded") relation = true ->
  truthy (field (object_at d "_embedded") relation) = true ->
  embedded_item_name (VDict d) relation default
  = Ok (field_or (object_at (object_at d "_embedded") relation) "name" default).
Proof.
  intros Hd He Ht. unfold embedded_item_name.
  rewrite (getitem_object _ _ _ Hd Ht), bind_ok.
  rewrite (getitem_truthy _ _ Ht), bind_ok.
  rewrite (truthy_object _ _ He Ht). apply get_field_or.
Qed.

(** The guarded lines of the two renderers. *)
Lemma guarded_line_tidy (d : list (string * value))
    (relation label default text : string) :
  object_or_missing d "_embedded" = true ->
  object_or_missing (object_at d "_embedded") relation = true ->
  (if truthy (field (object_at d "_embedded") relation)
   then name ← embedded_item_name (VDict d) relation default;
        mret (text +:+ label +:+ str name +:+ nl)
   else mret text)
  = Ok (text +:+ guarded_line (object_at d "_embedded") relation label default).
Proof.
  intros Hd He. unfold guarded_line.
  destruct (truthy (field (object_at d "_embedded") relation)) eqn:Ht.
  - by rewrite (embedded_item_name_tidy _ _ _ Hd He Ht), bind_ok.
  - by rewrite append_empty.
Qed.

Lemma tidy_work_package_unfold (d : list (string * value)) :
  tidy_work_package d = true ->
  dict_lookup "id" d = Some (field d "id")
  /\ dict_lookup "subject" d = Some (field d "subject")
  /\ object_or_missing d "_embedded" = true
  /\ object_or_missing (object_at d "_embedded") "status" = true
  /\ object_or_missing (object_at d "_embedded") "type" = true
  /\ object_or_missing (object_at d "_embedded") "priority" = true
  /\ object_or_missing (object_at d "_embedded") "assignee" = true
  /\ object_or_missing (object_at d "_embedded") "project" = true
  /\ object_or_missing d "description" = true.
Proof.
  unfold tidy_work_package. intros H.
  apply andb_true_iff in H as [H Hdesc]. apply andb_true_iff in H as [H Hall].
  apply andb_true_iff in H as [Hkeys Hemb].
  cbn [forallb] in Hall. rewrite !andb_true_iff in Hall.
  destruct Hall as (Hs & Ht & Hp & Ha & Hj & _).
  apply has_keys_cons in Hkeys as [Hid Hkeys].
  apply has_keys_cons in Hkeys as [Hsubject _].
  done.
Qed.

(** The line [list_work_packages] prints for a work package. *)
Lemma list_work_packages_line_tidy (d : list (string * value)) (text : string) :
  tidy_work_package d = true ->
  list_work_packages_line text (VDict d) = Ok (text +:+ work_package_entry d).
Proof.
  intros (Hid & Hsubject & Hemb & Hs & Ht & _ & Ha & _)%tidy_work_package_unfold.
  unfold list_work_packages_line.
  rewrite (embedded_name_tidy _ _ _ Hemb Hs), bind_ok.
  rewrite (getitem_field _ _ Hid), bind_ok.
  rewrite (getitem_field _ _ Hsubject), bind_ok.
  rewrite (embedded_name_tidy _ _ _ Hemb Ht), bind_ok.
  rewrite (embedded_get_tidy _ _ Hemb), bind_ok.
  rewrite (guarded_line_tidy _ _ _ _ _ Hemb Ha), bind_ok.
  unfold work_package_entry. simpl. f_equal. by rewrite !append_assoc.
Qed.

(** The text [get_work_package] prints for a work package. *)
Lemma get_work_package_text_tidy (d : list (string * value)) :
  tidy_work_package d = true ->
  get_work_package_text (VDict d) = Ok (work_package_details d).
Proof.
  intros (Hid & Hsubject & Hemb & Hs & Ht & Hp & Ha & Hj & Hdesc)%tidy_work_package_unfold.
  unfold get_work_package_text.
  rewrite (getitem_field _ _ Hid), bind_ok.
  rewrite (getitem_field _ _ Hsubject), bind_ok.
  rewrite (embedded_name_tidy _ _ _ Hemb Hs), bind_ok.
  rewrite (embedded_name_tidy _ _ _ Hemb Ht), bind_ok.
  rewrite (embedded_get_tidy _ "priority" Hemb), bind_ok.
  rewrite (guarded_line_tidy _ _ _ _ _ Hemb Hp), bind_ok.
  rewrite (embedded_get_tidy _ "assignee" Hemb), bind_ok.
  rewrite (guarded_line_tidy _ _ _ _ _ Hemb Ha), bind_ok.
  rewrite (embedded_get_tidy _ "project" Hemb), bind_ok.
  rewrite (guarded_line_tidy _ _ _ _ _ Hemb Hj), bind_ok.
  rewrite (get_object _ _ Hdesc), bind_ok.
  rewrite get_field, bind_ok.
  unfold work_package_details.
  destruct (truthy (field (object_at d "description") "raw")) eqn:Hraw.
  - rewrite (getitem_object _ _ _ Hdesc Hraw), bind_ok.
    rewrite (getitem_truthy _ _ Hraw), bind_ok.
    simpl. f_equal. by rewrite !append_assoc.
  - simpl. f_equal. by rewrite append_empty, !append_assoc.
Qed.

(** ** Loops over the elements of an answer *)

Lemma for_each_app {A B : Type} (body : B -> A -> result B) (l1 l2 : list A)
    (acc : B) :
  for_each body (l1 ++ l2) acc
  = match for_each body l1 acc with
    | Ok acc' => for_each body l2 acc'
    | Raise e => Raise e
    end.
Proof.
  revert acc. induction l1 as [|x l1 IH]; intros acc; simpl; [done|].
  destruct (body acc x); [apply IH | done].
Qed.

(** A loop whose body appends one line per item. *)
Lemma for_each_lines {A : Type} (body : string -> A -> result string)
    (line : A -> string) (items : list A) :
  (forall text x, x ∈ items -> body text x = Ok (text +:+ line x)) ->
  forall text,
    for_each body items text = Ok (text +:+ String.concat EmptyString (map line items)).
Proof.
  induction items as [|x items IH]; intros Hbody text; simpl.
  - by rewrite append_empty.
  - rewrite Hbody by (by left). rewrite IH by (intros; apply Hbody; by right).
    f_equal. rewrite append_assoc. f_equal.
    destruct items as [|y items]; simpl; [|done].
    by rewrite append_empty.
Qed.

(** The same for a list of objects. *)
Lemma for_each_objects (body : string -> value -> result string)
    (line : list (string * value) -> string)
    (ds : list (list (string * value))) :
  (forall text d, d ∈ ds -> body text (VDict d) = Ok (text +:+ line d)) ->
  forall text,
    for_each body (map VDict ds) text
    = Ok (text +:+ String.concat EmptyString (map line ds)).
Proof.
  intros Hbody text.
  rewrite (for_each_lines body
             (fun v => match v with VDict d => line d | _ => EmptyString end)).
  - by rewrite map_map.
  - intros t x Hx. apply list_elem_of_fmap in Hx as (d & -> & Hd).
    by apply Hbody.
Qed.

Lemma forallb_elem {A : Type} (P : A -> bool) (l : list A) (x : A) :
  forallb P l = true -> x ∈ l -> P x = true.
Proof.
  intros Hall Hx. apply list_elem_of_In in Hx.
  by apply (proj1 (forallb_forall P l) Hall).
Qed.

Lemma elements_read (result : value) (items : list value) :
  elements_of result = Some items ->
  exists env emb,
    result = VDict env
    /\ dict_lookup "_embedded" env = Some (VDict emb)
    /\ dict_lookup "elements" emb = Some (VList items).
Proof.
  unfold elements_of. destruct result as [| | | | | |env]; try done.
  destruct (dict_lookup "_embedded" env) as [[| | | | | |emb]|] eqn:Hemb;
    try done.
  destruct (dict_lookup "elements" emb) as [[| | | | |items'|]|] eqn:Hitems;
    try done.
  intros [= <-]. by exists env, emb.
Qed.

(** What [get_work_package] returns for a work package. *)
Lemma get_work_package_tidy (w : World) (c : OpenProjectClient)
    (work_package_id : value) (d : list (string * value)) :
  client w = Some c ->
  remote w (calls w) (Client.get_work_package work_package_id) = Ok (VDict d) ->
  tidy_work_package d = true ->
  output (get_work_package work_package_id) w = Ok (work_package_details d).
Proof.
  intros Hc Hremote Htidy. unfold get_work_package.
  rewrite request_output, (get_client_ready w c Hc), Hremote, bind_ok.
  by rewrite (get_work_package_text_tidy d Htidy).
Qed.

(** ** Embedded resources *)

Lemma embedded_name_default (wp : value) (relation default : string) :
  lacks_name wp relation = true ->
  embedded_name wp relation default = Ok (VStr default).
Proof.
  destruct wp as [| | | | | |d]; try discriminate.
  unfold lacks_name, embedded_name. simpl.
  destruct (dict_lookup "_embedded" d) as [[| | | | | |e]|]; try discriminate;
    simpl; [|done].
  destruct (dict_lookup relation e) as [[| | | | | |r]|]; try discriminate;
    simpl; [|done].
  by destruct (dict_lookup "name" r).
Qed.

Lemma embedded_get_missing (wp : value) (relation : string) :
  lacks_embedded wp relation = true -> embedded_get wp relation = Ok VNone.
Proof.
  destruct wp as [| | | | | |d]; try discriminate.
  unfold lacks_embedded, embedded_get. simpl.
  destruct (dict_lookup "_embedded" d) as [[| | | | | |e]|]; try discriminate;
    simpl; [|done].
  by destruct (dict_lookup relation e).
Qed.

Lemma embedded_item_name_default (wp : value) (relation default : string) :
  lacks_name wp relation = true -> lacks_embedded wp relation = false ->
  embedded_item_name wp relation default = Ok (VStr default).
Proof.
  destruct wp as [| | | | | |d]; try discriminate.
  unfold lacks_name, lacks_embedded, embedded_item_name. simpl.
  destruct (dict_lookup "_embedded" d) as [[| | | | | |e]|]; try discriminate;
    simpl.
  destruct (dict_lookup relation e) as [[| | | | | |r]|]; try discriminate;
    simpl.
  by destruct (dict_lookup "name" r).
Qed.

Lemma work_package_without_embedded (d : list (string * value))
    (id subject : value) (text : string) :
  dict_lookup "id" d = Some id -> dict_lookup "subject" d = Some subject ->
  dict_lookup "_embedded" d = None -> dict_lookup "description" d = None ->
  list_work_packages_line text (VDict d)
  = Ok (text +:+ "#" +:+ str id +:+ " - **" +:+ str subject +:+ "**" +:+ nl
             +:+ "   Status: Unknown" +:+ nl
             +:+ "   Type: N/A" +:+ nl +:+ nl)
  /\ get_work_package_text (VDict d)
     = Ok ("📝 #" +:+ str id +:+ " - **" +:+ str subject +:+ "**" +:+ nl +:+ nl
           +:+ "- **Status**: Unknown" +:+ nl
           +:+ "- **Type**: N/A" +:+ nl).
Proof.
  intros Hid Hsubject Hemb Hdesc.
  unfold list_work_packages_line, get_work_package_text, embedded_name,
    embedded_get.
  simpl. rewrite Hid, Hsubject, Hemb, Hdesc. simpl.
  split; f_equal; by rewrite ?append_assoc.
Qed.

Lemma work_package_with_nameless_assignee_text (d e r : list (string * value))
    (id subject : value) (text : string) :
  dict_lookup "id" d = Some id -> dict_lookup "subject" d = Some subject ->
  dict_lookup "description" d = None ->
  dict_lookup "_embedded" d = Some (VDict e) ->
  dict_lookup "status" e = None -> dict_lookup "type" e = None ->
  dict_lookup "priority" e = None -> dict_lookup "project" e = None ->
  dict_lookup "assignee" e = Some (VDict r) ->
  truthy (VDict r) = true -> dict_lookup "name" r = None ->
  list_work_packages_line text (VDict d)
  = Ok (text +:+ "#" +:+ str id +:+ " - **" +:+ str subject +:+ "**" +:+ nl
             +:+ "   Status: Unknown" +:+ nl
             +:+ "   Type: N/A" +:+ nl
             +:+ "   Assignee: N/A" +:+ nl +:+ nl)
  /\ get_work_package_text (VDict d)
     = Ok ("📝 #" +:+ str id +:+ " - **" +:+ str subject +:+ "**" +:+ nl +:+ nl
           +:+ "- **Status**: Unknown" +:+ nl
           +:+ "- **Type**: N/A" +:+ nl
           +:+ "- **Assignee**: Unassigned" +:+ nl).
Proof.
  intros Hid Hsubject Hdesc Hemb Hstatus Htype Hprio Hproj Hassignee Hr Hname.
  unfold list_work_packages_line, get_work_package_text, embedded_name,
    embedded_get, embedded_item_name.
  simpl. rewrite Hid, Hsubject, Hemb, Hdesc. simpl.
  rewrite Hstatus, Htype, ?Hprio, ?Hproj, Hassignee. simpl.
  simpl in Hr. rewrite Hr. simpl. rewrite Hname. simpl.
  split; f_equal; by rewrite ?append_assoc.
Qed.

(** The chained [get] is defensive about missing keys only: a key that is
    there with a value that is not an object makes it raise. *)
Lemma embedded_name_null_raises :
  embedded_name (VDict [("id", VInt 7); ("_embedded", VNone)]) "status" "Unknown"
  = Raise (AttributeError "'NoneType' object has no attribute 'get'").
Proof. reflexivity. Qed.

(** C8, as stated, does not hold for the assignee: for a work package whose
    embedded assignee has no [name], [get_work_package] prints
    "Unassigned", not "N/A". *)
Lemma get_work_package_nameless_assignee :
  lacks_name work_package_with_nameless_assignee "assignee" = true
  /\ output (get_work_package (VInt 7))
            (connected work_package_with_nameless_assignee)
     = Ok (String.concat nl
             ["📝 #7 - **Fix login**"; EmptyString;
              "- **Status**: Unknown"; "- **Type**: N/A";
              "- **Assignee**: Unassigned"; EmptyString])
  /\ output (get_work_package (VInt 7))
            (connected work_package_with_nameless_assignee)
     <> Ok (String.concat nl
              ["📝 #7 - **Fix login**"; EmptyString;
               "- **Status**: Unknown"; "- **Type**: N/A";
               "- **Assignee**: N/A"; EmptyString]).
Proof.
  split; [reflexivity|]. split; [reflexivity|]. discriminate.
Qed.

(** C8, amended.  For a work package in which [_embedded], the embedded
    resource or its [name] is missing, the chained [get] used for the status
    and the type, in [list_work_packages] and in [get_work_package], yields
    its default and does not raise: "Unknown" for the status, "N/A" for the
    type.  The assignee, priority and project are read behind a guard: when
    the embedded resource is missing the guard yields [None] and no line is
    printed; when it is there without a [name], the name reads as the
    default of that place, which is "N/A" except for the assignee in
    [get_work_package], where it is "Unassigned".

    So for every work package with an [id] and a [subject] in which
    [_embedded], the five embedded resources and [description] are objects
    where they are there at all, whatever else it holds, neither tool
    raises: [list_work_packages] prints [work_package_entry] for it and
    [get_work_package] prints [work_package_details]. *)
Theorem embedded_defaults :
  (forall wp relation default,
      lacks_name wp relation = true ->
      embedded_name wp relation default = Ok (VStr default))
  /\ (forall wp relation,
         lacks_embedded wp relation = true ->
         embedded_get wp relation = Ok VNone)
  /\ (forall wp relation default,
         lacks_name wp relation = true -> lacks_embedded wp relation = false ->
         embedded_item_name wp relation default = Ok (VStr default))
  /\ (forall d id subject text,
         dict_lookup "id" d = Some id -> dict_lookup "subject" d = Some subject ->
         dict_lookup "_embedded" d = None -> dict_lookup "description" d = None ->
         list_work_packages_line text (VDict d)
         = Ok (text +:+ "#" +:+ str id +:+ " - **" +:+ str subject +:+ "**" +:+ nl
                    +:+ "   Status: Unknown" +:+ nl
                    +:+ "   Type: N/A" +:+ nl +:+ nl)
         /\ get_work_package_text (VDict d)
            = Ok ("📝 #" +:+ str id +:+ " - **" +:+ str subject +:+ "**"
                  +:+ nl +:+ nl
                  +:+ "- **Status**: Unknown" +:+ nl
                  +:+ "- **Type**: N/A" +:+ nl))
  /\ (forall d e r id subject text,
         dict_lookup "id" d = Some id -> dict_lookup "subject" d = Some subject ->
         dict_lookup "description" d = None ->
         dict_lookup "_embedded" d = Some (VDict e) ->
         dict_lookup "status" e = None -> dict_lookup "type" e = None ->
         dict_lookup "priority" e = None -> dict_lookup "project" e = None ->
         dict_lookup "assignee" e = Some (VDict r) ->
         truthy (VDict r) = true -> dict_lookup "name" r = None ->
         list_work_packages_line text (VDict d)
         = Ok (text +:+ "#" +:+ str id +:+ " - **" +:+ str subject +:+ "**" +:+ nl
                    +:+ "   Status: Unknown" +:+ nl
                    +:+ "   Type: N/A" +:+ nl
                    +:+ "   Assignee: N/A" +:+ nl +:+ nl)
         /\ get_work_package_text (VDict d)
            = Ok ("📝 #" +:+ str id +:+ " - **" +:+ str subject +:+ "**"
                  +:+ nl +:+ nl
                  +:+ "- **Status**: Unknown" +:+ nl
                  +:+ "- **Type**: N/A" +:+ nl
                  +:+ "- **Assignee**: Unassigned" +:+ nl))
  /\ (forall d text,
         tidy_work_package d = true ->
         list_work_packages_line text (VDict d)
         = Ok (text +:+ work_package_entry d))
  /\ (forall d,
         tidy_work_package d = true ->
         get_work_package_text (VDict d) = Ok (work_package_details d))
  /\ (forall w c work_package_id d,
         client w = Some c ->
         remote w (calls w) (Client.get_work_package work_package_id)
         = Ok (VDict d) ->
         tidy_work_package d = true ->
         output (get_work_package work_package_id) w
         = Ok (work_package_details d))
  /\ (forall e relation label default,
         object_or_missing e relation = true ->
         guarded_line e relation label default
         = match dict_lookup relation e with
           | Some (VDict (kv :: r)) =>
               label
               +:+ str (match dict_lookup "name" (kv :: r) with
                        | Some name => name
                        | None => VStr default
                        end)
               +:+ nl
           | _ => EmptyString
           end).
Proof.
  split; [exact embedded_name_default|].
  split; [exact embedded_get_missing|].
  split; [exact embedded_item_name_default|].
  split; [exact work_package_without_embedded|].
  split; [exact work_package_with_nameless_assignee_text|].
  split; [intros d text; exact (list_work_packages_line_tidy d text)|].
  split; [exact get_work_package_text_tidy|].
  split; [exact get_work_package_tidy|].
  intros e relation label default.
  unfold object_or_missing, guarded_line, field, object_at.
  destruct (dict_lookup relation e) as [[| | | | | |r]|]; try done.
  by destruct r.
Qed.

Lemma embedded_defaults_witness :
  embedded_name bare_work_package "status" "Unknown" = Ok (VStr "Unknown")
  /\ embedded_name work_package_with_nameless_assignee "type" "N/A"
     = Ok (VStr "N/A")
  /\ embedded_get bare_work_package "assignee" = Ok VNone
  /\ embedded_item_name work_package_with_nameless_assignee "assignee"
       "Unassigned" = Ok (VStr "Unassigned")
  /\ get_work_package_text bare_work_package
     = Ok ("📝 #7 - **Fix login**" +:+ nl +:+ nl
           +:+ "- **Status**: Unknown" +:+ nl +:+ "- **Type**: N/A" +:+ nl)
  /\ list_work_packages_line EmptyString work_package_with_nameless_assignee
     = Ok ("#7 - **Fix login**" +:+ nl +:+ "   Status: Unknown" +:+ nl
           +:+ "   Type: N/A" +:+ nl +:+ "   Assignee: N/A" +:+ nl +:+ nl)
  /\ list_work_packages_line EmptyString work_package_with_nameless_resources
     = Ok ("#7 - **Fix login**" +:+ nl +:+ "   Status: Unknown" +:+ nl
           +:+ "   Type: N/A" +:+ nl +:+ "   Assignee: N/A" +:+ nl +:+ nl)
  /\ get_work_package_text work_package_with_nameless_resources
     = Ok ("📝 #7 - **Fix login**" +:+ nl +:+ nl
           +:+ "- **Status**: Unknown" +:+ nl +:+ "- **Type**: N/A" +:+ nl
           +:+ "- **Priority**: N/A" +:+ nl
           +:+ "- **Assignee**: Unassigned" +:+ nl
           +:+ "- **Project**: N/A" +:+ nl)
  /\ output (get_work_package (VInt 7))
            (connected work_package_with_empty_embedded)
     = Ok ("📝 #7 - **Fix login**" +:+ nl +:+ nl
           +:+ "- **Status**: Unknown" +:+ nl +:+ "- **Type**: N/A" +:+ nl).
Proof.
  destruct embedded_defaults
    as (Hname & Hget & Hitem & Hbare & Hnameless & Hentry & Hdetails & Htool & _).
  split; [exact (Hname bare_work_package "status" "Unknown" eq_refl)|].
  split; [exact (Hname work_package_with_nameless_assignee "type" "N/A" eq_refl)|].
  split; [exact (Hget bare_work_package "assignee" eq_refl)|].
  split; [exact (Hitem work_package_with_nameless_assignee "assignee"
                   "Unassigned" eq_refl eq_refl)|].
  split.
  { exact (proj2 (Hbare [("id", VInt 7); ("subject", VStr "Fix login")]
                    (VInt 7) (VStr "Fix login") EmptyString
                    eq_refl eq_refl eq_refl eq_refl)). }
  split.
  { exact (proj1 (Hnameless
                    [("id", VInt 7); ("subject", VStr "Fix login");
                     ("_embedded", VDict [("assignee", VDict [("id", VInt 5)])])]
                    [("assignee", VDict [("id", VInt 5)])]
                    [("id", VInt 5)] (VInt 7) (VStr "Fix login") EmptyString
                    eq_refl eq_refl eq_refl eq_refl eq_refl eq_refl eq_refl
                    eq_refl eq_refl eq_refl eq_refl)). }
  split.
  { exact (Hentry
             [("id", VInt 7); ("subject", VStr "Fix login");
              ("_embedded",
               VDict [("status", VDict [("id", VInt 1)]);
                      ("type", VDict [("id", VInt 2)]);
                      ("priority", VDict [("id", VInt 3)]);
                      ("assignee", VDict [("id", VInt 4)]);
                      ("project", VDict [("id", VInt 5)])])]
             EmptyString eq_refl). }
  split.
  { exact (Hdetails
             [("id", VInt 7); ("subject", VStr "Fix login");
              ("_embedded",
               VDict [("status", VDict [("id", VInt 1)]);
                      ("type", VDict [("id", VInt 2)]);
                      ("priority", VDict [("id", VInt 3)]);
                      ("assignee", VDict [("id", VInt 4)]);
                      ("project", VDict [("id", VInt 5)])])]
             eq_refl). }
  exact (Htool (connected work_package_with_empty_embedded) _ (VInt 7)
           [("id", VInt 7); ("subject", VStr "Fix login"); ("_embedded", VDict [])]
           eq_refl eq_refl eq_refl).
Defined.

(** ** Hierarchy traversal *)

Section HierarchyFacts.
Import Hierarchy.

Lemma visit_spec kids : forall seen fresh,
  exists new,
    visit kids seen fresh = (seen ∪ list_to_set (ids new), fresh ++ new)
    /\ NoDup (ids new)
    /\ (forall w, w ∈ new -> w ∈ kids /\ wi_id w ∉ seen)
    /\ (forall w, w ∈ kids -> wi_id w ∈ seen ∪ list_to_set (ids new)).
Proof.
  induction kids as [|k rest IH]; intros seen fresh; simpl.
  - exists []. simpl. split; [|split; [constructor|split]].
    + f_equal; [set_solver | by rewrite app_nil_r].
    + intros w Hw. inversion Hw.
    + intros w Hw. inversion Hw.
  - destruct (decide (wi_id k ∈ seen)) as [Hin|Hnin].
    + destruct (IH seen fresh) as (new & Hv & Hnd & Hnew & Hkids).
      exists new. split; [done|]. split; [done|]. split.
      * intros w Hw. destruct (Hnew w Hw). split; [by right | done].
      * intros w Hw. apply elem_of_cons in Hw as [->|Hw]; [set_solver | auto].
    + destruct (IH ({[wi_id k]} ∪ seen) (fresh ++ [k])) as (new & Hv & Hnd & Hnew & Hkids).
      exists (k :: new). rewrite Hv. simpl. split; [|split; [|split]].
      * f_equal; [set_solver | by rewrite <- app_assoc].
      * constructor; [|done]. intros Hk.
        apply list_elem_of_fmap in Hk as (w & Hid & Hw).
        destruct (Hnew w Hw) as [_ Hns]. set_solver.
      * intros w Hw. apply elem_of_cons in Hw as [->|Hw].
        -- split; [by left | done].
        -- destruct (Hnew w Hw) as [? Hns]. split; [by right | set_solver].
      * intros w Hw. apply elem_of_cons in Hw as [->|Hw]; [set_solver|].
        specialize (Hkids w Hw). set_solver.
Qed.

Lemma descendant_in_store store p w : descendant store p w -> w ∈ store.
Proof. by destruct 1. Qed.

Lemma found_bound (store found : list WorkItem) :
  NoDup (ids found) -> (forall w, w ∈ found -> w ∈ store) ->
  length found <= length store.
Proof.
  intros Hnd Hsub. apply submseteq_length, NoDup_submseteq; [|done].
  by apply (NoDup_fmap_1 wi_id).
Qed.

Lemma traversal_inv_start store root :
  traversal_inv store root [root] {[root]} [].
Proof.
  split; simpl.
  - set_solver.
  - constructor.
  - set_solver.
  - intros w Hw. inversion Hw.
  - set_solver.
  - intros x Hx. left. set_solver.
Qed.

Lemma traversal_inv_step store root x rest seen found seen' fresh :
  traversal_inv store root (x :: rest) seen found ->
  visit (direct_children store x) seen [] = (seen', fresh) ->
  traversal_inv store root (rest ++ ids fresh) seen' (found ++ fresh).
Proof.
  intros [Hseen Hnd Hroot Hsound Hpend Hclosed] Hvisit.
  destruct (visit_spec (direct_children store x) seen [])
    as (new & Hv & Hndnew & Hnew & Hkids).
  rewrite Hvisit in Hv. simpl in Hv. injection Hv as -> ->.
  assert (Hx : x ∈ seen) by (apply Hpend; by left).
  split.
  - unfold ids in *. rewrite fmap_app, list_to_set_app_L. set_solver.
  - unfold ids in *. rewrite fmap_app. apply NoDup_app. split; [done|].
    split; [|done]. intros i Hi Hi'.
    apply list_elem_of_fmap in Hi' as (w & -> & Hw).
    destruct (Hnew w Hw) as [_ Hns]. apply Hns.
    rewrite Hseen. set_solver.
  - unfold ids in *. rewrite fmap_app. intros Hin.
    apply elem_of_app in Hin as [Hin|Hin]; [done|].
    apply list_elem_of_fmap in Hin as (w & Hid & Hw).
    destruct (Hnew w Hw) as [_ Hns]. apply Hns. rewrite <- Hid, Hseen.
    set_solver.
  - intros w Hw. apply elem_of_app in Hw as [Hw|Hw]; [auto|].
    destruct (Hnew w Hw) as [Hkid _].
    apply list_elem_of_filter in Hkid as [Hpar Hst].
    rewrite Hseen in Hx. apply elem_of_union in Hx as [Hx|Hx].
    + apply elem_of_singleton in Hx as ->. by apply descendant_child.
    + apply elem_of_list_to_set, list_elem_of_fmap in Hx as (q & -> & Hq).
      apply descendant_step with q; auto.
  - intros y Hy. apply elem_of_app in Hy as [Hy|Hy].
    + apply elem_of_union_l, Hpend. by right.
    + apply elem_of_union_r. by apply elem_of_list_to_set.
  - intros y Hy. apply elem_of_union in Hy as [Hy|Hy].
    + destruct (Hclosed y Hy) as [Hp|Hc].
      * apply elem_of_cons in Hp as [->|Hp].
        -- right. intros w Hw Hpar. apply Hkids.
           apply list_elem_of_filter. by split.
        -- left. apply elem_of_app. by left.
      * right. intros w Hw Hpar. apply elem_of_union_l. by apply Hc.
    + left. apply elem_of_app. right. by apply elem_of_list_to_set in Hy.
Qed.

Lemma expand_total store root fuel : forall pending seen found,
  traversal_inv store root pending seen found ->
  length pending + (length store - length found) < fuel ->
  exists res seen',
    expand (fetch_children store) fuel pending seen found = Some (Ok res)
    /\ traversal_inv store root [] seen' res.
Proof.
  induction fuel as [|fuel IH]; intros pending seen found Hinv Hfuel; [lia|].
  destruct pending as [|x rest]; simpl.
  - by exists found, seen.
  - destruct (visit (direct_children store x) seen []) as [seen' fresh] eqn:Hvisit.
    pose proof (traversal_inv_step _ _ _ _ _ _ _ _ Hinv Hvisit) as Hinv'.
    apply IH; [done|].
    assert (length (found ++ fresh) <= length store) as Hb.
    { apply found_bound; [apply Hinv'|].
      intros w Hw. eapply descendant_in_store, Hinv', Hw. }
    unfold ids. rewrite !length_app, length_fmap in *. simpl in Hfuel. lia.

Qed.

Lemma closed_reaches store root seen res w :
  traversal_inv store root [] seen res ->
  descendant store root w -> wi_id w ∈ seen.
Proof.
  intros Hinv. induction 1 as [w Hw Hpar | q w Hq IH Hw Hpar].
  - destruct (inv_closed _ _ _ _ _ Hinv root) as [Hp|Hc].
    + rewrite (inv_seen _ _ _ _ _ Hinv). set_solver.
    + inversion Hp.
    + by apply Hc.
  - destruct (inv_closed _ _ _ _ _ Hinv (wi_id q) IH) as [Hp|Hc].
    + inversion Hp.
    + by apply Hc.
Qed.

Lemma forest_same_id store (v w : WorkItem) :
  forest store -> v ∈ store -> w ∈ store -> wi_id v = wi_id w -> v = w.
Proof.
  unfold forest, ids. induction store as [|a store IH]; intros Hnd Hv Hw Hid.
  - inversion Hv.
  - apply NoDup_cons in Hnd as [Ha Hnd].
    apply elem_of_cons in Hv as [->|Hv]; apply elem_of_cons in Hw as [->|Hw].
    + done.
    + exfalso. apply Ha. rewrite Hid. by apply list_elem_of_fmap_2.
    + exfalso. apply Ha. rewrite <- Hid. by apply list_elem_of_fmap_2.
    + by apply IH.
Qed.

Lemma root_not_descendant store root w :
  forest store -> acyclic store -> descendant store root w -> wi_id w <> root.
Proof.
  intros Hf Hac Hd Hid. apply (Hac w). by rewrite Hid.
Qed.

Lemma parents_first_acyclic store : parents_first store = true -> acyclic store.
Proof.
  intros Hpf.
  assert (forall p w, descendant store p w -> (p < wi_id w)%Z) as Hlt.
  { assert (forall w p, w ∈ store -> wi_parent w = Some p -> (p < wi_id w)%Z)
      as Hstep.
    { intros w p Hw Hpar. unfold parents_first in Hpf.
      rewrite forallb_forall in Hpf.
      specialize (Hpf w (proj1 (list_elem_of_In _ _) Hw)).
      rewrite Hpar in Hpf. by apply Z.ltb_lt. }
    induction 1 as [w Hw Hpar | q w Hq IH Hw Hpar]; [by apply Hstep|].
    specialize (Hstep w _ Hw Hpar). lia. }
  intros w Hd. specialize (Hlt _ _ Hd). lia.
Qed.

(** The example of the spec: from the root, the direct children are A and
    B, and the descendants are A, B and C, each once. *)
Lemma children_example_tree :
  children example_tree 1 false
  = Some (Ok [ {| wi_id := 2; wi_subject := "A"; wi_parent := Some 1%Z |};
               {| wi_id := 3; wi_subject := "B"; wi_parent := Some 1%Z |} ])
  /\ children example_tree 1 true
     = Some (Ok [ {| wi_id := 2; wi_subject := "A"; wi_parent := Some 1%Z |};
                  {| wi_id := 3; wi_subject := "B"; wi_parent := Some 1%Z |};
                  {| wi_id := 4; wi_subject := "C"; wi_parent := Some 2%Z |} ]).
Proof. split; vm_compute; reflexivity. Qed.

(** The tool prints what the client hands it, one line per work item:
    here the descendants of the root of the example. *)
Lemma list_work_package_children_example :
  output (list_work_package_children (VInt 1) (VBool true))
         (connected (envelope (drop 1 example_tree)))
  = Ok (String.concat nl
          ["👶 Children of #1 (3 found):"; EmptyString;
           "#2 - **A**"; "#3 - **B**"; "#4 - **C**"; EmptyString]).
Proof. reflexivity. Qed.

(** C1. For an acyclic forest, [children] without descendants returns
    exactly the work items whose parent is [parent_id], and with
    descendants exactly the work items reachable from [parent_id] through
    the parent links; in both results every id occurs once, and the
    traversal returns without running out of rounds. *)
Theorem children_correct store parent_id :
  forest store -> acyclic store ->
  (exists kids,
      children store parent_id false = Some (Ok kids)
      /\ NoDup (ids kids)
      /\ forall w, w ∈ kids <-> w ∈ store /\ wi_parent w = Some parent_id)
  /\ (exists all,
      children store parent_id true = Some (Ok all)
      /\ NoDup (ids all)
      /\ forall w, w ∈ all <-> descendant store parent_id w).
Proof.
  intros Hf Hac. split.
  - exists (direct_children store parent_id). split; [done|]. split.
    + unfold direct_children, ids, forest in *.
      clear Hac. induction store as [|a store IH]; [constructor|].
      simpl in Hf. apply NoDup_cons in Hf as [Ha Hnd].
      rewrite filter_cons. case_decide.
      * simpl. constructor; [|auto]. intros Hin. apply Ha.
        apply list_elem_of_fmap in Hin as (w & -> & Hw).
        apply list_elem_of_filter in Hw as [_ Hw]. by apply list_elem_of_fmap_2.
      * auto.
    + intros w. unfold direct_children. rewrite list_elem_of_filter. tauto.
  - destruct (expand_total store parent_id (2 + length store) [parent_id]
                {[parent_id]} []) as (res & seen' & Hres & Hinv).
    + apply traversal_inv_start.
    + simpl. lia.
    + exists res. split; [exact Hres|]. split; [apply Hinv|].
      intros w. split; [apply Hinv|]. intros Hd.
      pose proof (closed_reaches _ _ _ _ _ Hinv Hd) as Hin.
      rewrite (inv_seen _ _ _ _ _ Hinv) in Hin.
      apply elem_of_union in Hin as [Hin|Hin].
      * apply elem_of_singleton in Hin.
        by destruct (root_not_descendant _ _ _ Hf Hac Hd).
      * apply elem_of_list_to_set, list_elem_of_fmap in Hin as (v & Hid & Hv).
        assert (v = w) as <-; [|done].
        apply (forest_same_id store); auto.
        -- eapply descendant_in_store, Hinv, Hv.
        -- by eapply descendant_in_store.
Qed.

Lemma children_correct_witness :
  (exists kids,
      children example_tree 1 false = Some (Ok kids)
      /\ NoDup (ids kids)
      /\ forall w, w ∈ kids <-> w ∈ example_tree /\ wi_parent w = Some 1%Z)
  /\ (exists all,
      children example_tree 1 true = Some (Ok all)
      /\ NoDup (ids all)
      /\ forall w, w ∈ all <-> descendant example_tree 1 w).
Proof.
  apply (children_correct example_tree 1).
  - unfold forest. apply (bool_decide_unpack _). vm_compute. reflexivity.
  - apply parents_first_acyclic. vm_compute. reflexivity.
Defined.

End HierarchyFacts.

(* ====================================================================== *)
(** * Further properties *)
(* ====================================================================== *)

(** ** The client, again *)

Lemma get_client_stores (w : World) (c : OpenProjectClient) :
  output get_client w = Ok c -> client (snd (run get_client w)) = Some c.
Proof.
  unfold output, get_client. rewrite run_bind. simpl.
  destruct (client w) as [c'|] eqn:Hclient; simpl.
  - intros [= ->]. done.
  - destruct (absent _ || absent _); simpl; [done|].
    destruct (String.eqb _ "true"); simpl.
    + destruct (remote w (calls w) Client.test_connection); simpl;
        by intros [= <-].
    + by intros [= <-].
Qed.

(** X1. The client is a singleton: once [get_client] has handed out a
    client, calling it again hands out the same client, makes no call and
    changes nothing. *)
Theorem get_client_idempotent (w : World) (c : OpenProjectClient) :
  output get_client w = Ok c ->
  run get_client (snd (run get_client w)) = (Ok c, snd (run get_client w)).
Proof.
  intros Hout. apply get_client_ready. by apply get_client_stores.
Qed.

Lemma get_client_idempotent_witness :
  run get_client (snd (run get_client (fresh configured_env VNone)))
  = (Ok {| base_url := Some "https://op.example.org";
           api_key := Some "secret"; proxy := None |},
     snd (run get_client (fresh configured_env VNone))).
Proof.
  apply (get_client_idempotent (fresh configured_env VNone)). reflexivity.
Defined.

Lemma get_client_first_use_calls (w : World) :
  client w = None ->
  absent (env_lookup "OPENPROJECT_URL" (environ w)) = false ->
  absent (env_lookup "OPENPROJECT_API_KEY" (environ w)) = false ->
  issued get_client w
  = (if String.eqb (lower (startup_flag w)) "true"
     then [Client.test_connection] else [])
  /\ output get_client w
     = Ok {| base_url := env_lookup "OPENPROJECT_URL" (environ w);
             api_key := env_lookup "OPENPROJECT_API_KEY" (environ w);
             proxy := env_lookup "OPENPROJECT_PROXY" (environ w) |}.
Proof.
  intros Hnone Hurl Hkey.
  unfold issued, output, startup_flag, get_client. rewrite run_bind. simpl.
  rewrite Hnone. simpl. rewrite Hurl, Hkey. simpl.
  destruct (String.eqb _ "true"); simpl.
  - destruct (remote w (calls w) Client.test_connection); simpl;
      by rewrite drop_app_length.
  - by rewrite drop_all.
Qed.

(** X2. On first use with the URL and the key present, [get_client] tests
    the connection exactly when [TEST_CONNECTION_ON_STARTUP], in any
    letter case, is "true", and hands out the client whether the test
    succeeds or raises. *)
Theorem get_client_startup_test (w : World) :
  client w = None ->
  absent (env_lookup "OPENPROJECT_URL" (environ w)) = false ->
  absent (env_lookup "OPENPROJECT_API_KEY" (environ w)) = false ->
  issued get_client w
  = (if String.eqb (lower (startup_flag w)) "true"
     then [Client.test_connection] else [])
  /\ output get_client w
     = Ok {| base_url := env_lookup "OPENPROJECT_URL" (environ w);
             api_key := env_lookup "OPENPROJECT_API_KEY" (environ w);
             proxy := env_lookup "OPENPROJECT_PROXY" (environ w) |}.
Proof. exact (get_client_first_use_calls w). Qed.

Lemma get_client_startup_test_witness :
  issued get_client
         (offline (configured_env ++ [("TEST_CONNECTION_ON_STARTUP", "True")]))
  = [Client.test_connection]
  /\ output get_client
            (offline (configured_env ++ [("TEST_CONNECTION_ON_STARTUP", "True")]))
     = Ok {| base_url := Some "https://op.example.org";
             api_key := Some "secret"; proxy := None |}.
Proof.
  apply (get_client_startup_test
           (offline (configured_env ++ [("TEST_CONNECTION_ON_STARTUP", "True")])));
    reflexivity.
Defined.

(** ** The connection test *)

Lemma run_try_except {A : Type} (body : M A) (handler : exn -> M A) (w : World) :
  run (try_except body handler) w
  = match run body w with
    | (Ok a, w') => (Ok a, w')
    | (Raise e, w') => run (handler e) w'
    end.
Proof. reflexivity. Qed.

(** X3. With the client at hand, [test_connection] reports a failure of
    the call under "Connection failed", and otherwise names the instance
    when the answer has a truthy [instanceName], with "Unknown" for a
    missing [coreVersion]; without such a name it only reports success. *)
Theorem test_connection_output (w : World) (c : OpenProjectClient) :
  client w = Some c ->
  (forall e, remote w (calls w) Client.test_connection = Raise e ->
             output test_connection w
             = Ok ("❌ Connection failed: " +:+ str_exn e))
  /\ (forall d, remote w (calls w) Client.test_connection = Ok (VDict d) ->
                output test_connection w
                = Ok (match dict_lookup "instanceName" d with
                      | Some instance =>
                          if truthy instance
                          then "✅ Connected to: " +:+ str instance +:+ nl
                               +:+ "Core Version: "
                               +:+ str (match dict_lookup "coreVersion" d with
                                        | Some v => v
                                        | None => VStr "Unknown"
                                        end)
                          else "✅ Connection successful!"
                      | None => "✅ Connection successful!"
                      end)).
Proof.
  intros Hc. unfold output, test_connection.
  rewrite run_try_except, run_bind, (get_client_ready w c Hc), run_bind.
  simpl. split.
  - intros e ->. done.
  - intros d ->. simpl.
    destruct (dict_lookup "instanceName" d) as [instance|]; simpl; [|done].
    by destruct (truthy instance).
Qed.

Lemma test_connection_output_witness :
  output test_connection
         (connected (VDict [("instanceName", VStr "Tracker")]))
  = Ok ("✅ Connected to: Tracker" +:+ nl +:+ "Core Version: Unknown").
Proof.
  exact (proj2 (test_connection_output
                  (connected (VDict [("instanceName", VStr "Tracker")]))
                  _ eq_refl)
           [("instanceName", VStr "Tracker")] eq_refl).
Defined.

Lemma test_connection_calls (w : World) :
  issued test_connection w
  = issued get_client w ++ (if acquired w then [Client.test_connection] else []).
Proof.
  unfold issued, acquired, output.
  destruct (get_client_calls w) as [extra Hextra].
  unfold test_connection. rewrite run_try_except, run_bind.
  destruct (run get_client w) as [[c|e] w1] eqn:Hrun; simpl in *.
  - destruct (remote w1 (calls w1) Client.test_connection) as [result|e]; simpl.
    + match goal with |- context [match ?r with Ok _ => _ | Raise _ => _ end] =>
        destruct r end; simpl;
        by rewrite Hextra, <- app_assoc, !drop_app_length.
    + by rewrite Hextra, <- app_assoc, !drop_app_length.
  - by rewrite app_nil_r.
Qed.

(** X4. The first use of the client through [test_connection], with the
    start-up test switched on, tests the connection twice: once in
    [get_client] and once by the tool itself. *)
Theorem test_connection_first_use_twice (w : World) :
  client w = None ->
  absent (env_lookup "OPENPROJECT_URL" (environ w)) = false ->
  absent (env_lookup "OPENPROJECT_API_KEY" (environ w)) = false ->
  lower (startup_flag w) = "true" ->
  issued test_connection w = [Client.test_connection; Client.test_connection].
Proof.
  intros Hnone Hurl Hkey Hflag.
  destruct (get_client_first_use_calls w Hnone Hurl Hkey) as [Hissued Hout].
  rewrite test_connection_calls, Hissued. unfold acquired. rewrite Hout, Hflag.
  reflexivity.
Qed.

Lemma test_connection_first_use_twice_witness :
  issued test_connection
         (fresh (configured_env ++ [("TEST_CONNECTION_ON_STARTUP", "true")])
                (VDict []))
  = [Client.test_connection; Client.test_connection].
Proof.
  apply (test_connection_first_use_twice
           (fresh (configured_env ++ [("TEST_CONNECTION_ON_STARTUP", "true")])
                  (VDict [])));
    reflexivity.
Defined.

(** ** Filters, again *)

(** X5. [list_work_packages] compares [status] with "open" and "closed"
    exactly: any other value, such as "Open", adds no status predicate, so
    that the call carries no filter; [project_id], [offset] and [page_size]
    are handed on as they are. *)
Theorem list_work_packages_status_is_exact (w : World)
    (project_id status offset page_size : value) :
  eq_str status "open" = false -> eq_str status "closed" = false ->
  performs (list_work_packages project_id status offset page_size)
           (Client.get_work_packages project_id VNone offset page_size) w.
Proof.
  intros Hopen Hclosed.
  pose proof (list_work_packages_performs w project_id status offset page_size)
    as Hp.
  by rewrite Hopen, Hclosed in Hp.
Qed.

Lemma list_work_packages_status_is_exact_witness :
  performs (list_work_packages (VInt 3) (VStr "Open") VNone (VInt 500))
           (Client.get_work_packages (VInt 3) VNone VNone (VInt 500))
           (connected (VDict [])).
Proof.
  apply (list_work_packages_status_is_exact (connected (VDict []))
           (VInt 3) (VStr "Open") VNone (VInt 500)); reflexivity.
Defined.

(** X6. The filter of [list_time_entries] has one equality predicate for
    each of [work_package_id] and [user_id] that is truthy, in this order
    and with the value turned into a string; an id that is 0 counts as not
    given, and without predicates the filter is [None]. *)
Theorem list_time_entries_filter (w : World) (work_package_id user_id : value) :
  performs (list_time_entries work_package_id user_id)
           (Client.get_time_entries
              (filters_argument
                 (map (fun kv => equals kv.1 (VStr (str kv.2)))
                      (provided [("work_package_id", work_package_id);
                                 ("user_id", user_id)])))) w
  /\ provided [("work_package_id", VInt 0); ("user_id", VInt 0)] = [].
Proof.
  split; [|reflexivity].
  unfold list_time_entries, provided.
  rewrite !filter_cons, filter_nil. simpl.
  destruct (truthy work_package_id), (truthy user_id); apply performs_request.
Qed.

Lemma list_work_package_relations_request (w : World)
    (work_package_id relation_type : value) :
  performs (list_work_package_relations work_package_id relation_type)
           (Client.list_work_package_relations
              (filters_argument
                 (map (fun kv => equals kv.1 (VStr (str kv.2)))
                      (provided [("involved", work_package_id)])
                  ++ map (fun kv => equals kv.1 kv.2)
                         (provided [("type", relation_type)])))) w.
Proof.
  unfold list_work_package_relations, provided.
  rewrite !filter_cons, !filter_nil. simpl.
  destruct (truthy work_package_id), (truthy relation_type);
    apply performs_request.
Qed.

(** X7. The filter of [list_work_package_relations] has the predicate
    "involved" with the id as a string when [work_package_id] is truthy,
    followed by the predicate "type" with [relation_type] as it is when
    that is truthy; without predicates the filter is [None]. *)
Theorem list_work_package_relations_filter (w : World)
    (work_package_id relation_type : value) :
  performs (list_work_package_relations work_package_id relation_type)
           (Client.list_work_package_relations
              (filters_argument
                 (map (fun kv => equals kv.1 (VStr (str kv.2)))
                      (provided [("involved", work_package_id)])
                  ++ map (fun kv => equals kv.1 kv.2)
                         (provided [("type", relation_type)])))) w.
Proof.
  exact (list_work_package_relations_request w work_package_id relation_type).
Qed.

(** X8. [list_projects] and [list_users] test [active_only] for
    truthiness: every truthy value, not only [True], asks for the active
    ones, with the filter [[{"active": {"operator": "=", "values": ["t"]}}]]
    for projects and [[{"status": {"operator": "=", "values": ["active"]}}]]
    for users; every falsy value asks for all. *)
Theorem active_only_filter (w : World) (active_only : value) :
  performs (list_projects active_only)
           (Client.get_projects
              (if truthy active_only
               then VStr ("[{" +:+ quoted "active" +:+ ": {" +:+ quoted "operator"
                          +:+ ": " +:+ quoted "=" +:+ ", " +:+ quoted "values"
                          +:+ ": [" +:+ quoted "t" +:+ "]}}]")
               else VNone)) w
  /\ performs (list_users active_only)
              (Client.get_users
                 (if truthy active_only
                  then VStr ("[{" +:+ quoted "status" +:+ ": {"
                             +:+ quoted "operator" +:+ ": " +:+ quoted "="
                             +:+ ", " +:+ quoted "values" +:+ ": ["
                             +:+ quoted "active" +:+ "]}}]")
                  else VNone)) w.
Proof.
  split.
  - exact (list_projects_performs w active_only).
  - exact (list_users_performs w active_only).
Qed.

(** ** Listings *)

Ltac nothing_listed result Hno :=
  destruct result as [| | | | | |d]; try discriminate Hno;
  simpl in Hno |- *;
  destruct (dict_lookup "_embedded" d) as [[| | | | | |e]|];
  try discriminate Hno; simpl; [|reflexivity];
  destruct (dict_lookup "elements" e) as [v|]; simpl; [|reflexivity];
  apply negb_true_iff in Hno; rewrite Hno; reflexivity.

(** X9. A list tool that finds no elements in the answer, because
    [_embedded] or [elements] is missing or [elements] is empty, says that
    nothing was found and does not fail. *)
Theorem listing_nothing (w : World) (c : OpenProjectClient) (result : value)
    (active_only project_id status offset page_size work_package_id user_id
       parent_id include_descendants relation_type : value) :
  client w = Some c ->
  (forall rq, remote w (calls w) rq = Ok result) ->
  no_elements result = true ->
  output (list_projects active_only) w = Ok "No projects found."
  /\ output (list_work_packages project_id status offset page_size) w
     = Ok "No work packages found."
  /\ output (list_users active_only) w = Ok "No users found."
  /\ output list_time_entry_activities w = Ok "No time entry activities found"
  /\ output (list_time_entries work_package_id user_id) w
     = Ok "No time entries found."
  /\ output (list_work_package_children parent_id include_descendants) w
     = Ok ("No children found for work package #" +:+ str parent_id +:+ ".")
  /\ output (list_work_package_relations work_package_id relation_type) w
     = Ok "No relations found.".
Proof.
  intros Hc Hremote Hno.
  unfold output, list_projects, list_work_packages, list_users,
    list_time_entry_activities, list_time_entries, list_work_package_children,
    list_work_package_relations.
  repeat split;
    rewrite run_tool, run_bind, (get_client_ready w c Hc);
    cbv zeta; rewrite run_bind; simpl; rewrite Hremote; simpl;
    nothing_listed result Hno.
Qed.

Lemma listing_nothing_witness :
  output (list_projects (VBool true)) (connected (VDict []))
  = Ok "No projects found."
  /\ output (list_work_package_children (VInt 4) (VBool true))
            (connected (collection []))
     = Ok "No children found for work package #4.".
Proof.
  pose proof (listing_nothing (connected (VDict [])) _ (VDict [])
                (VBool true) VNone VNone VNone VNone VNone VNone VNone VNone
                VNone eq_refl (fun _ => eq_refl) eq_refl) as H1.
  pose proof (listing_nothing (connected (collection [])) _ (collection [])
                VNone VNone VNone VNone VNone VNone VNone (VInt 4) (VBool true)
                VNone eq_refl (fun _ => eq_refl) eq_refl) as H2.
  split; [apply H1 | apply H2].
Defined.

(** ** Lines of a listing *)

Lemma get_some (d : list (string * value)) (k : string) (v default : value) :
  dict_lookup k d = Some v -> Py.get (VDict d) k default = Ok v.
Proof. unfold Py.get. by intros ->. Qed.

Lemma getitem_some (d : list (string * value)) (k : string) (v : value) :
  dict_lookup k d = Some v -> getitem (VDict d) k = Ok v.
Proof. unfold getitem. by intros ->. Qed.

Lemma getitem_none (d : list (string * value)) (k : string) :
  dict_lookup k d = None -> getitem (VDict d) k = Raise (KeyError k).
Proof. unfold getitem. by intros ->. Qed.

Lemma truthy_list (items : list value) :
  items <> [] -> truthy (VList items) = true.
Proof. by destruct items. Qed.

Lemma objects_nonempty (ds : list (list (string * value))) :
  ds <> [] -> map VDict ds <> [].
Proof. by destruct ds. Qed.

Lemma len_list (items : list value) :
  len (VList items) = Ok (Z.of_nat (length items)).
Proof. reflexivity. Qed.

Lemma iter_list (items : list value) : iter (VList items) = Ok items.
Proof. reflexivity. Qed.

Lemma if_negb_true {A : Type} (b : bool) (x y : A) :
  b = true -> (if negb b then x else y) = y.
Proof. by intros ->. Qed.

Lemma list_work_package_children_line_keys (d : list (string * value))
    (text : string) :
  has_keys d ["id"; "subject"] = true ->
  list_work_package_children_line text (VDict d) = Ok (text +:+ child_entry d).
Proof.
  intros Hkeys. apply has_keys_cons in Hkeys as [Hid Hkeys].
  apply has_keys_cons in Hkeys as [Hsubject _].
  unfold list_work_package_children_line, child_entry.
  rewrite (getitem_field _ _ Hid), bind_ok.
  by rewrite (getitem_field _ _ Hsubject), bind_ok.
Qed.

(** X10. [list_work_package_children] prints the count of the elements it
    is handed and then one line per element, in the order and as often as
    the client delivers them; what the envelope and the elements hold
    besides [_embedded.elements], [id] and [subject] is of no account. *)
Theorem list_work_package_children_lines (w : World) (c : OpenProjectClient)
    (parent_id include_descendants result : value)
    (ds : list (list (string * value))) :
  client w = Some c ->
  remote w (calls w)
         (Client.list_work_package_children parent_id include_descendants)
  = Ok result ->
  elements_of result = Some (map VDict ds) ->
  ds <> [] ->
  forallb (fun d => has_keys d ["id"; "subject"]) ds = true ->
  output (list_work_package_children parent_id include_descendants) w
  = Ok ("👶 Children of #" +:+ str parent_id +:+ " ("
        +:+ decimal (Z.of_nat (length ds)) +:+ " found):" +:+ nl +:+ nl
        +:+ String.concat EmptyString (map child_entry ds)).
Proof.
  intros Hc Hremote Hitems Hne Hkeys. unfold list_work_package_children.
  rewrite request_output, (get_client_ready w c Hc), Hremote, bind_ok.
  destruct (elements_read _ _ Hitems) as (env & emb & -> & Hemb & Hel).
  rewrite (get_some _ _ _ _ Hemb), bind_ok, (get_some _ _ _ _ Hel), bind_ok.
  rewrite (if_negb_true _ _ _ (truthy_list _ (objects_nonempty _ Hne))).
  rewrite len_list, bind_ok, iter_list, bind_ok, length_map.
  rewrite (for_each_objects list_work_package_children_line child_entry).
  - simpl. f_equal. by rewrite !append_assoc.
  - intros text d Hd. apply list_work_package_children_line_keys.
    exact (forallb_elem _ _ _ Hkeys Hd).
Qed.

Lemma list_work_package_children_lines_witness :
  output (list_work_package_children (VInt 1) (VBool true))
         (connected
            (VDict [("total", VInt 2); ("count", VInt 2);
                    ("_embedded",
                     VDict [("elements",
                             VList [VDict [("subject", VStr "A"); ("id", VInt 2);
                                           ("lockVersion", VInt 0)];
                                    VDict [("subject", VStr "A"); ("id", VInt 2);
                                           ("lockVersion", VInt 0)]])])]))
  = Ok ("👶 Children of #1 (2 found):" +:+ nl +:+ nl
        +:+ "#2 - **A**" +:+ nl +:+ "#2 - **A**" +:+ nl).
Proof.
  exact (list_work_package_children_lines
           (connected
              (VDict [("total", VInt 2); ("count", VInt 2);
                      ("_embedded",
                       VDict [("elements",
                               VList [VDict [("subject", VStr "A"); ("id", VInt 2);
                                             ("lockVersion", VInt 0)];
                                      VDict [("subject", VStr "A"); ("id", VInt 2);
                                             ("lockVersion", VInt 0)]])])]))
           _ (VInt 1) (VBool true) _
           [[("subject", VStr "A"); ("id", VInt 2); ("lockVersion", VInt 0)];
            [("subject", VStr "A"); ("id", VInt 2); ("lockVersion", VInt 0)]]
           eq_refl eq_refl eq_refl ltac:(discriminate) eq_refl).
Defined.

(** X11. One element without an [id] spoils the whole listing: when the
    elements before it have an [id] and a [subject], whatever comes after
    it, [list_work_package_children] answers with the text of the
    [KeyError] and shows none of the children. *)
Theorem list_work_package_children_fails_fast (w : World)
    (c : OpenProjectClient) (parent_id include_descendants result : value)
    (good : list (list (string * value))) (bad : list (string * value))
    (rest : list value) :
  client w = Some c ->
  remote w (calls w)
         (Client.list_work_package_children parent_id include_descendants)
  = Ok result ->
  elements_of result = Some (map VDict good ++ VDict bad :: rest) ->
  forallb (fun d => has_keys d ["id"; "subject"]) good = true ->
  dict_lookup "id" bad = None ->
  output (list_work_package_children parent_id include_descendants) w
  = Ok "❌ Error: 'id'".
Proof.
  intros Hc Hremote Hitems Hkeys Hid. unfold list_work_package_children.
  rewrite request_output, (get_client_ready w c Hc), Hremote, bind_ok.
  destruct (elements_read _ _ Hitems) as (env & emb & -> & Hemb & Hel).
  rewrite (get_some _ _ _ _ Hemb), bind_ok, (get_some _ _ _ _ Hel), bind_ok.
  rewrite if_negb_true by (apply truthy_list; by destruct good).
  rewrite len_list, bind_ok, iter_list, bind_ok, for_each_app.
  rewrite (for_each_objects list_work_package_children_line child_entry).
  - cbn [for_each]. unfold list_work_package_children_line.
    by rewrite (getitem_none _ _ Hid).
  - intros text d Hd. apply list_work_package_children_line_keys.
    exact (forallb_elem _ _ _ Hkeys Hd).
Qed.

Lemma list_work_package_children_fails_fast_witness :
  output (list_work_package_children (VInt 1) (VBool false))
         (connected
            (VDict [("total", VInt 3);
                    ("_embedded",
                     VDict [("elements",
                             VList [VDict [("id", VInt 2); ("subject", VStr "A");
                                           ("lockVersion", VInt 0)];
                                    VDict [("subject", VStr "B")];
                                    VNone])])]))
  = Ok "❌ Error: 'id'".
Proof.
  exact (list_work_package_children_fails_fast
           (connected
              (VDict [("total", VInt 3);
                      ("_embedded",
                       VDict [("elements",
                               VList [VDict [("id", VInt 2); ("subject", VStr "A");
                                             ("lockVersion", VInt 0)];
                                      VDict [("subject", VStr "B")];
                                      VNone])])]))
           _ (VInt 1) (VBool false) _
           [[("id", VInt 2); ("subject", VStr "A"); ("lockVersion", VInt 0)]]
           [("subject", VStr "B")] [VNone]
           eq_refl eq_refl eq_refl eq_refl eq_refl).
Defined.

(** ** Characters and slices *)

Lemma chars_nil (s : string) : chars s = [] -> s = EmptyString.
Proof.
  destruct s as [|c s]; [done|]. simpl.
  destruct (chars s); [done|]. by destruct (starts_with_continuation s).
Qed.

(** The characters of a string, put together again, give the string. *)
Lemma concat_chars (s : string) : String.concat EmptyString (chars s) = s.
Proof.
  induction s as [|c s IH]; [done|]. simpl.
  destruct (chars s) as [|h t] eqn:Hchars.
  - apply chars_nil in Hchars as ->. done.
  - destruct (starts_with_continuation s).
    + rewrite <- IH. by destruct t.
    + rewrite <- IH. done.
Qed.

Lemma starts_with_continuation_app (s1 s2 : string) :
  s1 <> EmptyString ->
  starts_with_continuation (s1 +:+ s2) = starts_with_continuation s1.
Proof. by destruct s1. Qed.

Lemma chars_app (s1 s2 : string) :
  starts_with_continuation s2 = false ->
  chars (s1 +:+ s2) = chars s1 ++ chars s2.
Proof.
  intros Hs2. induction s1 as [|c s1 IH]; [done|].
  change (String c s1 +:+ s2) with (String c (s1 +:+ s2)).
  cbn [chars]. rewrite IH.
  destruct s1 as [|c' s1].
  - change (EmptyString +:+ s2) with s2. rewrite Hs2. simpl.
    by destruct (chars s2).
  - rewrite starts_with_continuation_app by done.
    destruct (chars (String c' s1)) as [|h t] eqn:Hchars.
    + by apply chars_nil in Hchars.
    + simpl. by destruct (is_continuation c').
Qed.

(** What [chars] yields: every item is one character, and every item but
    the first starts a new one. *)
Lemma chars_shape (s : string) :
  Forall (fun ch => chars ch = [ch]) (chars s)
  /\ Forall (fun ch => starts_with_continuation ch = false) (tail (chars s))
  /\ match chars s with
     | h :: _ => starts_with_continuation h = starts_with_continuation s
     | [] => True
     end.
Proof.
  induction s as [|c s (IHone & IHtail & IHhead)]; [by repeat constructor|].
  cbn [chars]. destruct (chars s) as [|h t] eqn:Hchars.
  - repeat split; by repeat constructor.
  - destruct (starts_with_continuation s) eqn:Hcont.
    + apply Forall_cons in IHone as [Hh Ht]. repeat split.
      * constructor; [|done]. cbn [chars]. rewrite Hh, IHhead. done.
      * done.
    + repeat split.
      * by constructor.
      * simpl. constructor; [congruence | done].
Qed.

Lemma chars_concat (l : list string) :
  Forall (fun ch => chars ch = [ch]) l ->
  Forall (fun ch => starts_with_continuation ch = false) (tail l) ->
  chars (String.concat EmptyString l) = l.
Proof.
  induction l as [|x l IH]; intros Hone Htail; [done|].
  apply Forall_cons in Hone as [Hx Hl]. simpl in Htail.
  destruct l as [|y l]; [done|].
  change (String.concat EmptyString (x :: y :: l))
    with (x +:+ (EmptyString +:+ String.concat EmptyString (y :: l))).
  change (EmptyString +:+ ?s) with s.
  apply Forall_cons in Htail as [Hy Htail].
  rewrite chars_app.
  - rewrite Hx, IH; [done | done | exact Htail].
  - destruct y as [|cy y]; [by apply Forall_inv in Hl|].
    destruct l as [|z l]; [exact Hy|].
    change (String.concat EmptyString (String cy y :: z :: l))
      with (String cy y +:+ (EmptyString +:+ String.concat EmptyString (z :: l))).
    rewrite starts_with_continuation_app by done. exact Hy.
Qed.

(** A slice [s[:n]] has [n] characters, or all of them when [s] is
    shorter, in which case it is [s] itself. *)
Lemma str_take_len (n : nat) (s : string) :
  str_len (str_take n s) = Nat.min n (str_len s)
  /\ (str_len s <= n -> str_take n s = s).
Proof.
  unfold str_len, str_take. destruct (chars_shape s) as (Hone & Htail & _).
  split.
  - rewrite chars_concat.
    + apply length_take.
    + by apply Forall_take.
    + destruct n as [|n]; [done|]. destruct (chars s) as [|h t]; [done|].
      simpl in *. by apply Forall_take.
  - intros Hle. rewrite take_ge by done. apply concat_chars.
Qed.

(** X12. [list_projects] shows of a description its first 100 characters,
    followed by "..." exactly when it has more than 100; what is shown has
    100 characters then, and is the whole description otherwise.  The
    description is the text under [raw] of the object under [description],
    whatever else the two objects hold. *)
Theorem list_projects_description_cut (d dd : list (string * value))
    (name id : value) (s text : string) :
  dict_lookup "name" d = Some name -> dict_lookup "id" d = Some id ->
  dict_lookup "description" d = Some (VDict dd) ->
  dict_lookup "raw" dd = Some (VStr s) ->
  s <> EmptyString ->
  list_projects_line text (VDict d)
  = Ok (text
        +:+ (if truthy (match dict_lookup "active" d with
                        | Some v => v
                        | None => VBool false
                        end) then "🟢" else "🔴")
        +:+ " **" +:+ str name +:+ "** (ID: " +:+ str id +:+ ")" +:+ nl
        +:+ "   " +:+ str_take 100 s
        +:+ (if (100 <? str_len s)%nat then "..." else EmptyString) +:+ nl)
  /\ str_len (str_take 100 s) = Nat.min 100 (str_len s)
  /\ (str_len s <= 100 -> str_take 100 s = s).
Proof.
  intros Hname Hid Hdesc Hraw Hs.
  split; [|apply str_take_len].
  unfold list_projects_line.
  change (Py.get (VDict d) "active" (VBool false))
    with (Ok (match dict_lookup "active" d with
              | Some v => v
              | None => VBool false
              end)).
  rewrite bind_ok. cbv zeta.
  rewrite (getitem_some _ _ _ Hname), bind_ok, (getitem_some _ _ _ Hid), bind_ok.
  rewrite (get_some _ _ _ _ Hdesc), bind_ok, (get_some _ _ _ _ Hraw), bind_ok.
  assert (truthy (VStr s) = true) as ->.
  { simpl. by apply negb_true_iff, String.eqb_neq. }
  rewrite (getitem_some _ _ _ Hdesc), bind_ok, (getitem_some _ _ _ Hraw), bind_ok.
  cbn [slice_to]. rewrite !bind_ok, (getitem_some _ _ _ Hraw), bind_ok.
  cbn [len]. rewrite bind_ok.
  simpl. f_equal. rewrite !append_assoc. do 10 f_equal.
  assert ((100 <? Z.of_nat (str_len s))%Z = (100 <? str_len s)%nat) as ->.
  { destruct (Nat.ltb_spec 100 (str_len s)).
    - apply Z.ltb_lt. lia.
    - apply Z.ltb_ge. lia. }
  done.
Qed.

Lemma list_projects_description_cut_witness :
  list_projects_line EmptyString
    (VDict [("id", VInt 1); ("name", VStr "Demo"); ("active", VBool true);
            ("description",
             VDict [("format", VStr "markdown"); ("raw", VStr "héllo");
                    ("html", VStr "<p>héllo</p>")])])
  = Ok ("🟢 **Demo** (ID: 1)" +:+ nl +:+ "   héllo" +:+ nl)
  /\ str_len (str_take 100 "héllo") = 5%nat.
Proof.
  destruct (list_projects_description_cut
              [("id", VInt 1); ("name", VStr "Demo"); ("active", VBool true);
               ("description",
                VDict [("format", VStr "markdown"); ("raw", VStr "héllo");
                       ("html", VStr "<p>héllo</p>")])]
              [("format", VStr "markdown"); ("raw", VStr "héllo");
               ("html", VStr "<p>héllo</p>")]
              (VStr "Demo") (VInt 1) "héllo" EmptyString
              eq_refl eq_refl eq_refl eq_refl ltac:(discriminate))
    as (Hline & Hlen & _).
  split; [exact Hline | exact Hlen].
Defined.

(** ** The remaining tools *)

(** The shape shared by the remaining tools: the answer to the one call
    decides the text, and the world changes as [get_client] changes it. *)
Lemma ask_tool (answers : Api.call -> result value) (rq : Api.call)
    (render : value -> result string) (w : World) :
  run (tool (c ← get_client; r ← ask answers c rq; lift (render r))) w
  = (Ok (served w (answers rq) render), snd (run get_client w)).
Proof.
  unfold served, output. rewrite run_tool, run_bind.
  destruct (run get_client w) as [[c|e] w1]; simpl; [|done].
  destruct (answers rq) as [r|e]; simpl; [|done].
  by destruct (render r).
Qed.

(** X13. [update_membership] sends [role_ids] when it is truthy and
    otherwise [role_id] when that is truthy, never both; when neither is
    truthy it still makes the call, with an empty payload.  The answer of
    the client is not looked at. *)
Theorem update_membership_payload (answers : Api.call -> result value)
    (w : World) (membership_id role_ids role_id : value) :
  run (update_membership answers membership_id role_ids role_id) w
  = (Ok (served w
           (answers (Api.update_membership membership_id
                       (VDict (if truthy role_ids then [("role_ids", role_ids)]
                               else provided [("role_id", role_id)]))))
           (fun _ => Ok ("✅ Membership #" +:+ str membership_id
                         +:+ " updated successfully"))),
     snd (run get_client w)).
Proof.
  unfold update_membership, provided. rewrite filter_cons, filter_nil. simpl.
  destruct (truthy role_ids), (truthy role_id); apply ask_tool.
Qed.

(** X14. [update_time_entry] sends exactly the fields that are not
    [None], so that 0 hours or an empty comment are sent, and with no field
    given it still makes the call, with an empty payload. *)
Theorem update_time_entry_payload (answers : Api.call -> result value)
    (w : World) (time_entry_id hours spent_on comment activity_id : value) :
  run (update_time_entry answers time_entry_id hours spent_on comment
         activity_id) w
  = (Ok (served w
           (answers (Api.update_time_entry time_entry_id
                       (VDict (supplied [("hours", hours);
                                         ("spent_on", spent_on);
                                         ("comment", comment);
                                         ("activity_id", activity_id)]))))
           (fun _ => Ok ("✅ Time entry #" +:+ str time_entry_id
                         +:+ " updated successfully"))),
     snd (run get_client w)).
Proof.
  unfold update_time_entry, supplied. rewrite !filter_cons, filter_nil. simpl.
  destruct (is_none hours), (is_none spent_on), (is_none comment),
    (is_none activity_id); apply ask_tool.
Qed.

(** X15. [create_version] always sends [name] and adds [description],
    [start_date], [end_date] and [status] when they are truthy;
    [project_id] goes to the client beside the payload, not in it. *)
Theorem create_version_payload (answers : Api.call -> result value)
    (w : World)
    (project_id name description start_date end_date status : value) :
  run (create_version answers project_id name description start_date end_date
         status) w
  = (Ok (served w
           (answers (Api.create_version project_id
                       (VDict ([("name", name)]
                               ++ provided [("description", description);
                                            ("start_date", start_date);
                                            ("end_date", end_date);
                                            ("status", status)]))))
           (fun _ => Ok ("✅ Version created: **" +:+ str name +:+ "**"))),
     snd (run get_client w)).
Proof.
  unfold create_version, provided. rewrite !filter_cons, filter_nil. simpl.
  destruct (truthy description), (truthy start_date), (truthy end_date),
    (truthy status); apply ask_tool.
Qed.

(** X16. [update_work_package_relation] sends exactly the fields that are
    not [None]: a lag of 0 and an empty description are sent, whereas
    [create_work_package_relation] leaves an empty description out of
    what it sends. *)
Theorem update_work_package_relation_payload
    (answers : Api.call -> result value) (w : World)
    (relation_id relation_type lag description from_id to_id : value) :
  run (update_work_package_relation answers relation_id relation_type lag
         description) w
  = (Ok (served w
           (answers (Api.update_work_package_relation relation_id
                       (VDict (supplied [("relation_type", relation_type);
                                         ("lag", lag);
                                         ("description", description)]))))
           (fun _ => Ok ("✅ Relation #" +:+ str relation_id
                         +:+ " updated successfully"))),
     snd (run get_client w))
  /\ supplied [("description", VStr EmptyString)]
     = [("description", VStr EmptyString)]
  /\ provided [("description", VStr EmptyString)] = []
  /\ run (update_work_package_relation answers relation_id VNone (VInt 0)
            (VStr EmptyString)) w
     = (Ok (served w
              (answers (Api.update_work_package_relation relation_id
                          (VDict [("lag", VInt 0);
                                  ("description", VStr EmptyString)])))
              (fun _ => Ok ("✅ Relation #" +:+ str relation_id
                            +:+ " updated successfully"))),
        snd (run get_client w))
  /\ performs (create_work_package_relation from_id to_id relation_type
                 (VInt 0) (VStr EmptyString))
              (Client.create_work_package_relation
                 (VDict [("from_id", from_id); ("to_id", to_id);
                         ("relation_type", relation_type);
                         ("lag", VInt 0)])) w.
Proof.
  split; [|split; [done|split; [done|split]]].
  - unfold update_work_package_relation, supplied.
    rewrite !filter_cons, filter_nil. simpl.
    destruct (is_none relation_type), (is_none lag), (is_none description);
      apply ask_tool.
  - apply ask_tool.
  - apply performs_request.
Qed.

(** X17. The tools that delete, and the two that set or remove a parent,
    do not look at what the client returns: whatever the answer, they
    confirm with a text that repeats the ids they were given, and when the
    client raises they hand on its message after "Error:". *)
Theorem confirmations (answers : Api.call -> result value) (w : World)
    (id parent_id : value) :
  output (delete_work_package answers id) w
  = Ok (served w (answers (Api.delete_work_package id))
          (fun _ => Ok ("✅ Work package #" +:+ str id
                        +:+ " deleted successfully")))
  /\ output (delete_project answers id) w
     = Ok (served w (answers (Api.delete_project id))
             (fun _ => Ok ("✅ Project #" +:+ str id
                           +:+ " deleted successfully")))
  /\ output (delete_membership answers id) w
     = Ok (served w (answers (Api.delete_membership id))
             (fun _ => Ok ("✅ Membership #" +:+ str id
                           +:+ " deleted successfully")))
  /\ output (delete_time_entry answers id) w
     = Ok (served w (answers (Api.delete_time_entry id))
             (fun _ => Ok ("✅ Time entry #" +:+ str id
                           +:+ " deleted successfully")))
  /\ output (delete_work_package_relation answers id) w
     = Ok (served w (answers (Api.delete_work_package_relation id))
             (fun _ => Ok ("✅ Relation #" +:+ str id
                           +:+ " deleted successfully")))
  /\ output (set_work_package_parent answers id parent_id) w
     = Ok (served w (answers (Api.set_work_package_parent id parent_id))
             (fun _ => Ok ("✅ Work package #" +:+ str id
                           +:+ " is now a child of #" +:+ str parent_id)))
  /\ output (remove_work_package_parent answers id) w
     = Ok (served w (answers (Api.remove_work_package_parent id))
             (fun _ => Ok ("✅ Work package #" +:+ str id
                           +:+ " is now top-level"))).
Proof.
  unfold output, delete_work_package, delete_project, delete_membership,
    delete_time_entry, delete_work_package_relation, set_work_package_parent,
    remove_work_package_parent.
  repeat split; by rewrite ask_tool.
Qed.



Lemma tidy_relation_unfold (d : list (string * value)) :
  tidy_relation d = true ->
  dict_lookup "id" d = Some (field d "id")
  /\ object_or_missing d "_embedded" = true
  /\ object_or_missing (object_at d "_embedded") "from" = true
  /\ object_or_missing (object_at d "_embedded") "to" = true.
Proof.
  unfold tidy_relation. intros H.
  apply andb_true_iff in H as [H Hall]. apply andb_true_iff in H as [Hkeys Hemb].
  cbn [forallb] in Hall. rewrite !andb_true_iff in Hall.
  destruct Hall as (Hfrom & Hto & _).
  apply has_keys_cons in Hkeys as [Hid _]. done.
Qed.

(** X19. [get_work_package_relation] prints the lag only when it is
    truthy, so a lag of 0 days is not shown; the type and, of the two
    ends, the id and the subject read "N/A" where the answer does not
    have them.  This holds of every relation with an [id] in which
    [_embedded] and the two ends are objects where they are there at
    all. *)
Theorem get_work_package_relation_lag (answers : Api.call -> result value)
    (w : World) (c : OpenProjectClient) (relation_id : value)
    (d : list (string * value)) :
  output get_client w = Ok c ->
  answers (Api.get_work_package_relation relation_id) = Ok (VDict d) ->
  tidy_relation d = true ->
  output (get_work_package_relation answers relation_id) w
  = Ok (relation_details d)
  /\ (dict_lookup "lag" d = Some (VInt 0) \/ dict_lookup "lag" d = None ->
      dict_lookup "type" d = None -> dict_lookup "_embedded" d = None ->
      relation_details d
      = "🔗 Relation #" +:+ str (field d "id") +:+ nl +:+ nl
        +:+ "- **Type**: N/A" +:+ nl
        +:+ "- **From**: #N/A - N/A" +:+ nl
        +:+ "- **To**: #N/A - N/A" +:+ nl).
Proof.
  intros Hacq Hans (Hid & Hemb & Hfrom & Hto)%tidy_relation_unfold. split.
  - unfold output, get_work_package_relation. rewrite ask_tool.
    unfold served. rewrite Hacq, Hans, !bind_ok.
    rewrite (get_object _ _ Hemb), bind_ok, (get_object _ _ Hfrom), bind_ok.
    rewrite bind_ok, (get_object _ _ Hto), bind_ok.
    rewrite (getitem_field _ _ Hid), bind_ok.
    rewrite !get_field_or, !bind_ok, get_field, bind_ok.
    unfold relation_details.
    destruct (truthy (field d "lag")) eqn:Hlag.
    + rewrite (getitem_truthy _ _ Hlag), bind_ok.
      simpl. f_equal. by rewrite !append_assoc.
    + simpl. f_equal. by rewrite append_empty, !append_assoc.
  - intros Hlag Htype Hnone. unfold relation_details, field_or, object_at.
    rewrite Htype, Hnone. simpl.
    assert (truthy (field d "lag") = false) as ->.
    { unfold field. by destruct Hlag as [-> | ->]. }
    reflexivity.
Qed.

Lemma get_work_package_relation_lag_witness :
  output (get_work_package_relation
            (fun _ => Ok (VDict [("_type", VStr "Relation"); ("id", VInt 8);
                                 ("lag", VInt 0); ("type", VStr "follows");
                                 ("_embedded",
                                  VDict [("to", VDict [("subject", VStr "B");
                                                       ("id", VInt 2)])])]))
            (VInt 8))
         (connected VNone)
  = Ok ("🔗 Relation #8" +:+ nl +:+ nl +:+ "- **Type**: follows" +:+ nl
        +:+ "- **From**: #N/A - N/A" +:+ nl +:+ "- **To**: #2 - B" +:+ nl).
Proof.
  exact (proj1 (get_work_package_relation_lag
                  (fun _ => Ok (VDict [("_type", VStr "Relation"); ("id", VInt 8);
                                       ("lag", VInt 0); ("type", VStr "follows");
                                       ("_embedded",
                                        VDict [("to", VDict [("subject", VStr "B");
                                                             ("id", VInt 2)])])]))
                  (connected VNone) _ (VInt 8)
                  [("_type", VStr "Relation"); ("id", VInt 8);
                   ("lag", VInt 0); ("type", VStr "follows");
                   ("_embedded",
                    VDict [("to", VDict [("subject", VStr "B"); ("id", VInt 2)])])]
                  eq_refl eq_refl eq_refl)).
Defined.

(** X20. [list_versions] prints the line of dates when the start date or
    the end date is truthy, and then prints both, with nothing in the place
    of the one that is missing. *)
Theorem list_versions_dates (d : list (string * value)) (name id : value)
    (text : string) :
  dict_lookup "name" d = Some name -> dict_lookup "id" d = Some id ->
  list_versions_line text (VDict d)
  = Ok (text +:+ "- **" +:+ str name +:+ "** (ID: " +:+ str id +:+ ")" +:+ nl
        +:+ (if truthy (match dict_lookup "startDate" d with
                        | Some v => v
                        | None => VNone
                        end)
                || truthy (match dict_lookup "endDate" d with
                           | Some v => v
                           | None => VNone
                           end)
             then "  "
                  +:+ str (match dict_lookup "startDate" d with
                           | Some v => v
                           | None => VStr EmptyString
                           end)
                  +:+ " → "
                  +:+ str (match dict_lookup "endDate" d with
                           | Some v => v
                           | None => VStr EmptyString
                           end)
                  +:+ nl
             else EmptyString)).
Proof.
  intros Hname Hid. unfold list_versions_line. simpl. rewrite Hname, Hid. simpl.
  destruct (dict_lookup "startDate" d) as [start_date|];
    destruct (dict_lookup "endDate" d) as [end_date|]; simpl;
    repeat match goal with
           | |- context [truthy ?v] => destruct (truthy v); simpl
           end;
    f_equal; rewrite ?append_assoc; repeat f_equal;
    match goal with
    | |- EmptyString = _ => reflexivity
    | |- ?s = ?s +:+ EmptyString =>
        induction s as [|a s' IH]; [done|];
        change (String a s' = String a (s' +:+ EmptyString)); by f_equal
    | |- _ => idtac
    end.
Qed.

Lemma list_versions_dates_witness :
  list_versions_line EmptyString
    (VDict [("name", VStr "1.0"); ("id", VInt 2); ("endDate", VStr "2025-01-31")])
  = Ok ("- **1.0** (ID: 2)" +:+ nl +:+ "   → 2025-01-31" +:+ nl).
Proof.
  exact (list_versions_dates
           [("name", VStr "1.0"); ("id", VInt 2); ("endDate", VStr "2025-01-31")]
           (VStr "1.0") (VInt 2) EmptyString eq_refl eq_refl).
Defined.

Lemma role_names_loop (rs : list (list (string * value))) (acc : list value) :
  for_each (fun names r => name ← Py.get r "name" (VStr "N/A");
                           mret (names ++ [name]))
           (map VDict rs) acc
  = Ok (acc ++ map (fun r => field_or r "name" "N/A") rs).
Proof.
  revert acc. induction rs as [|r rs IH]; intros acc; simpl.
  - by rewrite app_nil_r.
  - rewrite IH. by rewrite <- app_assoc.
Qed.

Lemma role_names_objects (rs : list (list (string * value))) :
  role_names (VList (map VDict rs))
  = Ok (map (fun r => field_or r "name" "N/A") rs).
Proof. unfold role_names. simpl. apply role_names_loop. Qed.

Lemma str_items_named (rs : list (list (string * value))) (i : nat) :
  forallb string_named rs = true ->
  str_items i (map (fun r => field_or r "name" "N/A") rs)
  = Ok (map role_name rs).
Proof.
  revert i. induction rs as [|r rs IH]; intros i Hall; [done|].
  simpl in Hall. apply andb_true_iff in Hall as [Hr Hall].
  simpl. unfold string_named in Hr. unfold field_or, role_name.
  destruct (dict_lookup "name" r) as [[| | | |n| |]|]; try done;
    by rewrite (IH _ Hall).
Qed.

(** [join] fails at the first item that is not a string, and names its
    place and its type. *)
Lemma str_items_unnamed (good rest : list (list (string * value)))
    (bad : list (string * value)) (i : nat) :
  forallb string_named good = true -> string_named bad = false ->
  str_items i (map (fun r => field_or r "name" "N/A") (good ++ bad :: rest))
  = Raise (TypeError ("sequence item "
                      +:+ decimal (Z.of_nat (i + length good))
                      +:+ ": expected str instance, "
                      +:+ type_name (field bad "name") +:+ " found")).
Proof.
  revert i. induction good as [|r good IH]; intros i Hall Hbad.
  - simpl. rewrite Nat.add_0_r. unfold string_named in Hbad.
    unfold field_or, field.
    by destruct (dict_lookup "name" bad) as [[| | | |n| |]|].
  - simpl in Hall. apply andb_true_iff in Hall as [Hr Hall].
    specialize (IH (S i) Hall Hbad).
    replace (i + length (r :: good))%nat with (S i + length good)%nat
      by (simpl; lia).
    simpl. simpl in IH. unfold string_named in Hr. unfold field_or at 1.
    destruct (dict_lookup "name" r) as [[| | | |n| |]|]; try done;
      by rewrite IH.
Qed.

Lemma tidy_membership_unfold (d : list (string * value)) :
  tidy_membership d = true ->
  dict_lookup "id" d = Some (field d "id")
  /\ object_or_missing d "_embedded" = true
  /\ object_or_missing (object_at d "_embedded") "principal" = true
  /\ object_or_missing (object_at d "_embedded") "project" = true.
Proof.
  unfold tidy_membership. intros H.
  apply andb_true_iff in H as [H Hall]. apply andb_true_iff in H as [Hkeys Hemb].
  cbn [forallb] in Hall. rewrite !andb_true_iff in Hall.
  destruct Hall as (Hprincipal & Hproject & _).
  apply has_keys_cons in Hkeys as [Hid _]. done.
Qed.

(** X21. [get_membership] prints the names of the roles in the order of
    the answer, separated by ", ", with "N/A" for a role without a name;
    the first role whose name is not a string makes the tool answer with
    the text of the [TypeError] that [join] raises, which gives the place
    of the role in the list and the type of its name.  This holds of every
    membership with an [id] in which [_embedded], the principal and the
    project are objects where they are there at all. *)
Theorem get_membership_roles (answers : Api.call -> result value) (w : World)
    (c : OpenProjectClient) (membership_id : value)
    (d : list (string * value)) :
  output get_client w = Ok c ->
  answers (Api.get_membership membership_id) = Ok (VDict d) ->
  tidy_membership d = true ->
  (forall rs,
      roles_of d = VList (map VDict rs) ->
      forallb string_named rs = true ->
      output (get_membership answers membership_id) w
      = Ok (membership_details d rs))
  /\ (forall good bad rest,
         roles_of d = VList (map VDict (good ++ bad :: rest)) ->
         forallb string_named good = true -> string_named bad = false ->
         output (get_membership answers membership_id) w
         = Ok ("❌ Error: sequence item " +:+ decimal (Z.of_nat (length good))
               +:+ ": expected str instance, "
               +:+ type_name (field bad "name") +:+ " found")).
Proof.
  intros Hacq Hans (Hid & Hemb & Hprincipal & Hproject)%tidy_membership_unfold.
  assert (forall rs,
            roles_of d = VList (map VDict rs) ->
            output (get_membership answers membership_id) w
            = Ok (reply (joined ← join ", " (map (fun r => field_or r "name" "N/A")
                                                 rs);
                         Ok (("👤 **"
                              +:+ str (field_or (object_at (object_at d "_embedded")
                                                   "principal") "name" "N/A")
                              +:+ "** in **"
                              +:+ str (field_or (object_at (object_at d "_embedded")
                                                   "project") "name" "N/A")
                              +:+ "**" +:+ nl +:+ nl)
                             +:+ "- **Membership ID**: " +:+ str (field d "id")
                             +:+ nl +:+ "- **Roles**: " +:+ joined +:+ nl))))
    as Hrun.
  { intros rs Hroles. unfold output, get_membership. rewrite ask_tool.
    unfold served. rewrite Hacq, Hans, !bind_ok.
    rewrite (get_object _ _ Hemb), bind_ok, (get_object _ _ Hprincipal), bind_ok.
    rewrite bind_ok, (get_object _ _ Hproject), !bind_ok.
    change (Py.get (VDict (object_at d "_embedded")) "roles" (VList []))
      with (Ok (roles_of d)).
    rewrite bind_ok, !get_field_or, !bind_ok.
    rewrite (getitem_field _ _ Hid), bind_ok.
    rewrite Hroles, role_names_objects, bind_ok.
    f_equal. f_equal.
    destruct (join ", " (map (fun r => field_or r "name" "N/A") rs)); [|done].
    simpl. f_equal. by rewrite !append_assoc. }
  split.
  - intros rs Hroles Hnamed. rewrite (Hrun rs Hroles).
    unfold join. rewrite (str_items_named _ _ Hnamed). simpl.
    unfold membership_details. f_equal. by rewrite !append_assoc.
  - intros good bad rest Hroles Hgood Hbad. rewrite (Hrun _ Hroles).
    unfold join. by rewrite (str_items_unnamed _ _ _ _ Hgood Hbad).
Qed.

Lemma get_membership_roles_witness :
  output (get_membership
            (fun _ => Ok (VDict [("_type", VStr "Membership"); ("id", VInt 4);
                                 ("_embedded",
                                  VDict [("project",
                                          VDict [("id", VInt 1);
                                                 ("name", VStr "Demo")]);
                                         ("principal",
                                          VDict [("id", VInt 9);
                                                 ("name", VStr "Ann")]);
                                         ("roles",
                                          VList [VDict [("id", VInt 3);
                                                        ("name", VStr "Member")];
                                                 VDict [("id", VInt 5)]])])]))
            (VInt 4))
         (connected VNone)
  = Ok ("👤 **Ann** in **Demo**" +:+ nl +:+ nl +:+ "- **Membership ID**: 4" +:+ nl
        +:+ "- **Roles**: Member, N/A" +:+ nl)
  /\ output (get_membership
               (fun _ => Ok (VDict [("id", VInt 4);
                                    ("_embedded",
                                     VDict [("roles",
                                             VList [VDict [("name", VStr "Member")];
                                                    VDict [("name", VNone)];
                                                    VDict []])])]))
               (VInt 4))
            (connected VNone)
     = Ok "❌ Error: sequence item 1: expected str instance, NoneType found".
Proof.
  split.
  - exact (proj1 (get_membership_roles
                    (fun _ => Ok (VDict [("_type", VStr "Membership");
                                         ("id", VInt 4);
                                         ("_embedded",
                                          VDict [("project",
                                                  VDict [("id", VInt 1);
                                                         ("name", VStr "Demo")]);
                                                 ("principal",
                                                  VDict [("id", VInt 9);
                                                         ("name", VStr "Ann")]);
                                                 ("roles",
                                                  VList [VDict [("id", VInt 3);
                                                                ("name",
                                                                 VStr "Member")];
                                                         VDict [("id", VInt 5)]])])]))
                    (connected VNone) _ (VInt 4) _ eq_refl eq_refl eq_refl)
             [[("id", VInt 3); ("name", VStr "Member")]; [("id", VInt 5)]]
             eq_refl eq_refl).
  - exact (proj2 (get_membership_roles
                    (fun _ => Ok (VDict [("id", VInt 4);
                                         ("_embedded",
                                          VDict [("roles",
                                                  VList [VDict [("name",
                                                                 VStr "Member")];
                                                         VDict [("name", VNone)];
                                                         VDict []])])]))
                    (connected VNone) _ (VInt 4) _ eq_refl eq_refl eq_refl)
             [[("name", VStr "Member")]] [("name", VNone)] [[]]
             eq_refl eq_refl eq_refl).
Defined.

(** X22. [get_user] and [check_permissions] need [id] in the answer:
    without it they answer with the text of the [KeyError], whatever else
    is there; everything else has a default, so an answer with only an
    [id] is printed with "N/A" and, for the administrator flag, "False". *)
Theorem user_needs_id (answers : Api.call -> result value) (w : World)
    (c : OpenProjectClient) (user_id : value) (d : list (string * value)) :
  output get_client w = Ok c ->
  (answers (Api.get_user user_id) = Ok (VDict d) ->
   dict_lookup "id" d = None ->
   output (get_user answers user_id) w = Ok "❌ Error: 'id'")
  /\ (answers Api.check_permissions = Ok (VDict d) ->
      dict_lookup "id" d = None ->
      output (check_permissions answers) w = Ok "❌ Error: 'id'")
  /\ (forall id,
         answers (Api.get_user user_id) = Ok (VDict [("id", id)]) ->
         output (get_user answers user_id) w
         = Ok ("👤 **N/A**" +:+ nl +:+ nl +:+ "- **ID**: " +:+ str id +:+ nl
               +:+ "- **Status**: N/A" +:+ nl))
  /\ (forall id,
         answers Api.check_permissions = Ok (VDict [("id", id)]) ->
         output (check_permissions answers) w
         = Ok ("👤 Current User: **N/A**" +:+ nl +:+ nl
               +:+ "- **ID**: " +:+ str id +:+ nl
               +:+ "- **Login**: N/A" +:+ nl
               +:+ "- **Email**: N/A" +:+ nl
               +:+ "- **Admin**: False" +:+ nl)).
Proof.
  intros Hacq. unfold output, get_user, check_permissions.
  rewrite !ask_tool. unfold served. rewrite Hacq.
  split; [|split; [|split]].
  - intros -> Hid. simpl. by rewrite Hid.
  - intros -> Hid. simpl. by rewrite Hid.
  - intros id ->. simpl. f_equal. by rewrite !append_assoc.
  - intros id ->. simpl. f_equal. by rewrite !append_assoc.
Qed.

Lemma user_needs_id_witness :
  output (get_user (fun _ => Ok (VDict [("name", VStr "Ann")])) (VInt 3))
         (connected VNone)
  = Ok "❌ Error: 'id'".
Proof.
  exact (proj1 (user_needs_id (fun _ => Ok (VDict [("name", VStr "Ann")]))
                  (connected VNone) _ (VInt 3) [("name", VStr "Ann")] eq_refl)
           eq_refl eq_refl).
Defined.

Lemma name_id_line_keys (d : list (string * value)) (text : string) :
  has_keys d ["name"; "id"] = true ->
  name_id_line text (VDict d) = Ok (text +:+ name_id_entry d).
Proof.
  intros Hkeys. apply has_keys_cons in Hkeys as [Hname Hkeys].
  apply has_keys_cons in Hkeys as [Hid _].
  unfold name_id_line, name_id_entry.
  rewrite (getitem_field _ _ Hname), bind_ok.
  by rewrite (getitem_field _ _ Hid), bind_ok.
Qed.

(** The listing shared by the four tools: a header that counts the
    elements and a line for each. *)
Lemma name_id_listing (result : value) (ds : list (list (string * value)))
    (nothing : string) (header : Z -> string) :
  elements_of result = Some (map VDict ds) ->
  ds <> [] ->
  forallb (fun d => has_keys d ["name"; "id"]) ds = true ->
  (embedded ← Py.get result "_embedded" (VDict []);
   items ← Py.get embedded "elements" (VList []);
   if negb (truthy items) then mret nothing
   else n ← len items;
        let text := header n in
        items ← iter items;
        for_each name_id_line items text)
  = Ok (header (Z.of_nat (length ds))
        +:+ String.concat EmptyString (map name_id_entry ds)).
Proof.
  intros Hitems Hne Hkeys.
  destruct (elements_read _ _ Hitems) as (env & emb & -> & Hemb & Hel).
  rewrite (get_some _ _ _ _ Hemb), bind_ok, (get_some _ _ _ _ Hel), bind_ok.
  rewrite (if_negb_true _ _ _ (truthy_list _ (objects_nonempty _ Hne))).
  rewrite len_list, bind_ok, iter_list, bind_ok, length_map.
  apply for_each_objects. intros text d Hd. apply name_id_line_keys.
  exact (forallb_elem _ _ _ Hkeys Hd).
Qed.

(** X23. [list_types], [list_statuses], [list_priorities] and
    [list_roles] print the number of elements and then one line with the
    name and the id of each, in the order of the answer; what the
    envelope and the elements hold besides is of no account. *)
Theorem name_id_listings (answers : Api.call -> result value) (w : World)
    (c : OpenProjectClient) (project_id result : value)
    (ds : list (list (string * value))) :
  output get_client w = Ok c ->
  elements_of result = Some (map VDict ds) ->
  ds <> [] ->
  forallb (fun d => has_keys d ["name"; "id"]) ds = true ->
  (answers (Api.get_types project_id) = Ok result ->
   output (list_types answers project_id) w
   = Ok ("🏷️  Work Package Types (" +:+ decimal (Z.of_nat (length ds)) +:+ "):"
         +:+ nl +:+ nl
         +:+ String.concat EmptyString (map name_id_entry ds)))
  /\ (answers Api.get_statuses = Ok result ->
      output (list_statuses answers) w
      = Ok ("📊 Work Package Statuses (" +:+ decimal (Z.of_nat (length ds))
            +:+ "):" +:+ nl +:+ nl
            +:+ String.concat EmptyString (map name_id_entry ds)))
  /\ (answers Api.get_priorities = Ok result ->
      output (list_priorities answers) w
      = Ok ("⭐ Work Package Priorities (" +:+ decimal (Z.of_nat (length ds))
            +:+ "):" +:+ nl +:+ nl
            +:+ String.concat EmptyString (map name_id_entry ds)))
  /\ (answers Api.get_roles = Ok result ->
      output (list_roles answers) w
      = Ok ("🎭 Roles (" +:+ decimal (Z.of_nat (length ds)) +:+ " found):"
            +:+ nl +:+ nl
            +:+ String.concat EmptyString (map name_id_entry ds))).
Proof.
  intros Hacq Hitems Hne Hkeys.
  unfold output, list_types, list_statuses, list_priorities, list_roles.
  rewrite !ask_tool. unfold served. rewrite Hacq.
  repeat split; intros ->; rewrite !bind_ok;
    rewrite (name_id_listing result ds _ _ Hitems Hne Hkeys);
    simpl; f_equal; by rewrite !append_assoc.
Qed.

Lemma name_id_listings_witness :
  output (list_roles
            (fun _ => Ok (VDict [("_type", VStr "Collection"); ("total", VInt 1);
                                 ("count", VInt 1);
                                 ("_embedded",
                                  VDict [("elements",
                                          VList [VDict [("_type", VStr "Role");
                                                        ("id", VInt 3);
                                                        ("name", VStr "Member")]])])])))
         (connected VNone)
  = Ok ("🎭 Roles (1 found):" +:+ nl +:+ nl +:+ "- **Member** (ID: 3)" +:+ nl).
Proof.
  exact (proj2 (proj2 (proj2
           (name_id_listings
              (fun _ => Ok (VDict [("_type", VStr "Collection"); ("total", VInt 1);
                                   ("count", VInt 1);
                                   ("_embedded",
                                    VDict [("elements",
                                            VList [VDict [("_type", VStr "Role");
                                                          ("id", VInt 3);
                                                          ("name", VStr "Member")]])])]))
              (connected VNone) _ VNone
              (VDict [("_type", VStr "Collection"); ("total", VInt 1);
                      ("count", VInt 1);
                      ("_embedded",
                       VDict [("elements",
                               VList [VDict [("_type", VStr "Role");
                                             ("id", VInt 3);
                                             ("name", VStr "Member")]])])])
              [[("_type", VStr "Role"); ("id", VInt 3); ("name", VStr "Member")]]
              eq_refl eq_refl ltac:(discriminate) eq_refl))) eq_refl).
Defined.

(** X24. The list tools of this part, too, say that nothing was found
    when the answer has no elements, whether [_embedded] or [elements] is
    missing or [elements] is empty. *)
Theorem listing_nothing_more (answers : Api.call -> result value) (w : World)
    (c : OpenProjectClient) (result project_id user_id : value) :
  output get_client w = Ok c ->
  (forall rq, answers rq = Ok result) ->
  no_elements result = true ->
  output (list_types answers project_id) w = Ok "No types found."
  /\ output (list_statuses answers) w = Ok "No statuses found."
  /\ output (list_priorities answers) w = Ok "No priorities found."
  /\ output (list_memberships answers project_id user_id) w
     = Ok "No memberships found."
  /\ output (list_roles answers) w = Ok "No roles found."
  /\ output (list_versions answers project_id) w = Ok "No versions found.".
Proof.
  intros Hacq Hans Hno.
  unfold output, list_types, list_statuses, list_priorities, list_memberships,
    list_roles, list_versions.
  rewrite !ask_tool. unfold served. rewrite Hacq, !Hans.
  repeat split; simpl; f_equal; nothing_listed result Hno.
Qed.

Lemma listing_nothing_more_witness :
  output (list_versions (fun _ => Ok (collection [])) (VInt 1)) (connected VNone)
  = Ok "No versions found.".
Proof.
  apply (listing_nothing_more (fun _ => Ok (collection [])) (connected VNone)
           _ (collection []) (VInt 1) VNone eq_refl (fun _ => eq_refl) eq_refl).
Defined.

(** ** Start-up *)

(** X25. [main] starts the stdio transport whenever [USE_HTTP_TRANSPORT]
    is set to something other than "true" in any letter case, and then
    reads neither the host nor the port, so a malformed port cannot make
    it fail.  With the variable unset it starts the HTTP transport, on
    0.0.0.0 and port 8008 when these are unset too, and a port that [int]
    rejects makes [main] raise.  Whatever the environment and whatever
    [int] answers, [main] leaves the world as it found it: it never
    creates the client and makes no call. *)
Theorem main_transport (int : string -> result Z) (w : World) :
  run (main int) w
  = (if String.eqb (lower (setting w "USE_HTTP_TRANSPORT" "true")) "true"
     then match int (setting w "HTTP_PORT" "8008") with
          | Ok port => Ok (run_http_async (setting w "HTTP_HOST" "0.0.0.0") port)
          | Raise e => Raise e
          end
     else Ok run_stdio_async, w)
  /\ snd (run (main int) w) = w
  /\ (forall v, env_lookup "USE_HTTP_TRANSPORT" (environ w) = Some v ->
                lower v <> "true" ->
                run (main int) w = (Ok run_stdio_async, w))
  /\ (env_lookup "USE_HTTP_TRANSPORT" (environ w) = None ->
      env_lookup "HTTP_HOST" (environ w) = None ->
      env_lookup "HTTP_PORT" (environ w) = None ->
      run (main int) w
      = (match int "8008" with
         | Ok port => Ok (run_http_async "0.0.0.0" port)
         | Raise e => Raise e
         end, w))
  /\ (forall text e,
         env_lookup "USE_HTTP_TRANSPORT" (environ w) = None ->
         env_lookup "HTTP_PORT" (environ w) = Some text ->
         int text = Raise e ->
         run (main int) w = (Raise e, w)).
Proof.
  assert (run (main int) w
          = (if String.eqb (lower (setting w "USE_HTTP_TRANSPORT" "true")) "true"
             then match int (setting w "HTTP_PORT" "8008") with
                  | Ok port =>
                      Ok (run_http_async (setting w "HTTP_HOST" "0.0.0.0") port)
                  | Raise e => Raise e
                  end
             else Ok run_stdio_async, w)) as Hrun.
  { unfold main, setting. rewrite !run_bind. simpl.
    destruct (String.eqb _ "true"); [|done]. simpl.
    by destruct (int _). }
  split; [exact Hrun|]. split; [by rewrite Hrun|].
  rewrite Hrun. unfold setting. repeat split.
  - intros v Hflag Hv. rewrite Hflag. apply String.eqb_neq in Hv.
    by rewrite Hv.
  - intros Hflag Hhost Hport. by rewrite Hflag, Hport, Hhost.
  - intros text e Hflag Hport Hint. rewrite Hflag, Hport. simpl.
    by rewrite Hint.
Qed.

Lemma main_transport_witness :
  run (main (fun _ => Raise (ValueError "invalid literal for int()")))
      (fresh [("USE_HTTP_TRANSPORT", "False"); ("HTTP_PORT", "http")] VNone)
  = (Ok run_stdio_async,
     fresh [("USE_HTTP_TRANSPORT", "False"); ("HTTP_PORT", "http")] VNone).
Proof.
  apply (proj1 (proj2 (proj2
           (main_transport
              (fun _ => Raise (ValueError "invalid literal for int()"))
              (fresh [("USE_HTTP_TRANSPORT", "False"); ("HTTP_PORT", "http")]
                     VNone)))) "False"); [reflexivity | discriminate].
Defined.

(** ** Serialised text *)

Lemma plain_byte (c : ascii) :
  plain (String c EmptyString) = true ->
  is_continuation c = false
  /\ Json.escape_char (String c EmptyString) = String c EmptyString.
Proof.
  destruct c as [[] [] [] [] [] [] [] []]; intros H;
    try discriminate H; split; reflexivity.
Qed.

Lemma plain_cons (c : ascii) (s : string) :
  plain (String c s) = true -> plain (String c EmptyString) = true /\ plain s = true.
Proof.
  simpl. rewrite !andb_true_iff. intros ((((H1 & H2) & H3) & H4) & H5).
  by rewrite H1, H2, H3, H4.
Qed.

Lemma plain_escape (s : string) :
  plain s = true ->
  String.concat EmptyString (map Json.escape_char (chars s)) = s
  /\ starts_with_continuation s = false.
Proof.
  induction s as [|c s IH]; [done|]. intros Hplain.
  apply plain_cons in Hplain as [Hc Hs].
  destruct (plain_byte c Hc) as [Hcont Hescape].
  destruct (IH Hs) as [IHconcat IHstart].
  split; [|exact Hcont].
  cbn [chars]. rewrite IHstart.
  destruct (chars s) as [|h t] eqn:Hchars.
  - apply chars_nil in Hchars as ->. cbn [map String.concat]. exact Hescape.
  - cbn [map]. rewrite Hescape.
    change (String.concat EmptyString
              (String c EmptyString :: Json.escape_char h :: map Json.escape_char t))
      with (String c (String.concat EmptyString
                        (Json.escape_char h :: map Json.escape_char t))).
    f_equal. exact IHconcat.
Qed.

(** X26. [json.dumps] leaves a string of printable ASCII without double
    quote and backslash as it is, between double quotes; so the filter of
    [list_work_package_relations] for such a relation type is
    [[{"type": {"operator": "=", "values": ["<type>"]}}]] with the type
    spelled as given. *)
Theorem plain_text_is_quoted_as_is (w : World) (s : string) :
  plain s = true -> s <> EmptyString ->
  Json.quote s = quoted s
  /\ performs (list_work_package_relations VNone (VStr s))
              (Client.list_work_package_relations
                 (VStr ("[{" +:+ quoted "type" +:+ ": {" +:+ quoted "operator"
                        +:+ ": " +:+ quoted "=" +:+ ", " +:+ quoted "values"
                        +:+ ": [" +:+ quoted s +:+ "]}}]"))) w.
Proof.
  intros Hplain Hs.
  assert (Json.quote s = quoted s) as Hquote.
  { unfold Json.quote, quoted. by rewrite (proj1 (plain_escape s Hplain)). }
  split; [exact Hquote|].
  pose proof (list_work_package_relations_request w VNone (VStr s)) as Hp.
  unfold provided in Hp. rewrite !filter_cons, !filter_nil in Hp. simpl in Hp.
  assert (String.eqb s EmptyString = false) as Heq by by apply String.eqb_neq.
  rewrite Heq in Hp. simpl in Hp.
  unfold filters_argument, equals in Hp. cbn [Json.dumps map] in Hp.
  rewrite Hquote in Hp.
  match type of Hp with performs _ (_ (VStr ?a)) _ =>
    match goal with |- performs _ (_ (VStr ?b)) _ =>
      replace b with a; [exact Hp|] end end.
  unfold quoted. cbn [String.concat]. rewrite ?append_assoc. reflexivity.
Qed.

Lemma plain_text_is_quoted_as_is_witness :
  Json.quote "blocks" = quoted "blocks".
Proof.
  apply (plain_text_is_quoted_as_is (connected VNone) "blocks");
    [reflexivity | discriminate].
Defined.

(** ** Totals *)

(** X27. For a non-empty list of work packages, [list_work_packages]
    prints "n of t", where n is the number of elements in the answer and t
    is the [total] of the envelope, or n again when the envelope has no
    [total], and then the entry of each work package in the order of the
    answer, with the defaults for what is not embedded in it.  The order
    of the keys and what else the envelope and the work packages hold are
    of no account. *)
Theorem list_work_packages_total (w : World) (c : OpenProjectClient)
    (project_id status offset page_size result : value)
    (ds : list (list (string * value))) :
  client w = Some c ->
  remote w (calls w)
         (Client.get_work_packages project_id
            (if eq_str status "open" then VStr (Json.dumps (status_filter "o"))
             else if eq_str status "closed"
                  then VStr (Json.dumps (status_filter "c"))
                  else VNone)
            offset page_size)
  = Ok result ->
  elements_of result = Some (map VDict ds) ->
  ds <> [] ->
  forallb tidy_work_package ds = true ->
  output (list_work_packages project_id status offset page_size) w
  = Ok ("📝 Work Packages (" +:+ decimal (Z.of_nat (length ds)) +:+ " of "
        +:+ str (match total_of result with
                 | Some t => t
                 | None => VInt (Z.of_nat (length ds))
                 end)
        +:+ "):" +:+ nl +:+ nl
        +:+ String.concat EmptyString (map work_package_entry ds)).
Proof.
  intros Hc Hremote Hitems Hne Htidy.
  assert (forall filters,
            remote w (calls w)
                   (Client.get_work_packages project_id filters offset page_size)
            = Ok result ->
            output (tool (c ← get_client;
                          result ← await c (Client.get_work_packages project_id
                                              filters offset page_size);
                          lift (
                            embedded ← Py.get result "_embedded" (VDict []);
                            work_packages ← Py.get embedded "elements" (VList []);
                            if negb (truthy work_packages)
                            then mret "No work packages found."
                            else
                              n ← len work_packages;
                              total ← Py.get result "total" (VInt n);
                              n ← len work_packages;
                              let text := "📝 Work Packages (" +:+ decimal n
                                          +:+ " of " +:+ str total
                                          +:+ "):" +:+ nl +:+ nl in
                              items ← iter work_packages;
                              for_each list_work_packages_line items text))) w
            = Ok ("📝 Work Packages (" +:+ decimal (Z.of_nat (length ds))
                  +:+ " of "
                  +:+ str (match total_of result with
                           | Some t => t
                           | None => VInt (Z.of_nat (length ds))
                           end)
                  +:+ "):" +:+ nl +:+ nl
                  +:+ String.concat EmptyString (map work_package_entry ds)))
    as Hshape.
  { intros filters Hfilters.
    rewrite request_output, (get_client_ready w c Hc), Hfilters, bind_ok.
    destruct (elements_read _ _ Hitems) as (env & emb & -> & Hemb & Hel).
    rewrite (get_some _ _ _ _ Hemb), bind_ok, (get_some _ _ _ _ Hel), bind_ok.
    rewrite (if_negb_true _ _ _ (truthy_list _ (objects_nonempty _ Hne))).
    rewrite len_list, !bind_ok, iter_list, length_map.
    change (Py.get (VDict env) "total" (VInt (Z.of_nat (length ds))))
      with (Ok (match total_of (VDict env) with
                | Some t => t
                | None => VInt (Z.of_nat (length ds))
                end)).
    rewrite !bind_ok.
    rewrite (for_each_objects list_work_packages_line work_package_entry).
    - simpl. f_equal. by rewrite !append_assoc.
    - intros text d Hd. apply list_work_packages_line_tidy.
      exact (forallb_elem _ _ _ Htidy Hd). }
  revert Hremote. unfold list_work_packages.
  destruct (eq_str status "open"); [apply Hshape|].
  destruct (eq_str status "closed"); apply Hshape.
Qed.

Lemma list_work_packages_total_witness :
  output (list_work_packages VNone (VStr "open") VNone VNone)
         (connected
            (VDict [("_type", VStr "WorkPackageCollection"); ("total", VInt 40);
                    ("count", VInt 1);
                    ("_embedded",
                     VDict [("elements",
                             VList [VDict [("subject", VStr "Fix login");
                                           ("id", VInt 1);
                                           ("_embedded",
                                            VDict [("status",
                                                    VDict [("name", VStr "New")]);
                                                   ("assignee",
                                                    VDict [("id", VInt 5)])])]])])]))
  = Ok ("📝 Work Packages (1 of 40):" +:+ nl +:+ nl
        +:+ "#1 - **Fix login**" +:+ nl +:+ "   Status: New" +:+ nl
        +:+ "   Type: N/A" +:+ nl +:+ "   Assignee: N/A" +:+ nl +:+ nl).
Proof.
  exact (list_work_packages_total
           (connected
              (VDict [("_type", VStr "WorkPackageCollection"); ("total", VInt 40);
                      ("count", VInt 1);
                      ("_embedded",
                       VDict [("elements",
                               VList [VDict [("subject", VStr "Fix login");
                                             ("id", VInt 1);
                                             ("_embedded",
                                              VDict [("status",
                                                      VDict [("name", VStr "New")]);
                                                     ("assignee",
                                                      VDict [("id", VInt 5)])])]])])]))
           _ VNone (VStr "open") VNone VNone _
           [[("subject", VStr "Fix login"); ("id", VInt 1);
             ("_embedded",
              VDict [("status", VDict [("name", VStr "New")]);
                     ("assignee", VDict [("id", VInt 5)])])]]
           eq_refl eq_refl eq_refl ltac:(discriminate) eq_refl).
Defined.

Lemma list_time_entry_activities_line_keys (d : list (string * value))
    (text : string) :
  has_keys d ["name"; "id"] = true ->
  list_time_entry_activities_line text (VDict d) = Ok (text +:+ activity_entry d).
Proof.
  intros Hkeys. apply has_keys_cons in Hkeys as [Hname Hkeys].
  apply has_keys_cons in Hkeys as [Hid _].
  unfold list_time_entry_activities_line, activity_entry, name_id_entry.
  rewrite (getitem_field _ _ Hname), bind_ok.
  rewrite (getitem_field _ _ Hid), bind_ok.
  rewrite get_field, bind_ok.
  destruct (truthy (field d "default")); simpl; f_equal;
    by rewrite ?append_empty, ?append_assoc.
Qed.

(** X28. [list_time_entry_activities] prints the [total] of the envelope
    and the entry of each activity, with a second line for one that is the
    default; whenever the answer has activities but no [total], it answers
    with the text of the [KeyError] instead, and shows none of them.  The
    order of the keys and what else the envelope and the activities hold
    are of no account. *)
Theorem list_time_entry_activities_total (w : World) (c : OpenProjectClient)
    (result : value) (ds : list (list (string * value))) :
  client w = Some c ->
  remote w (calls w) Client.get_time_entry_activities = Ok result ->
  elements_of result = Some (map VDict ds) ->
  ds <> [] ->
  forallb (fun d => has_keys d ["name"; "id"]) ds = true ->
  output list_time_entry_activities w
  = Ok (match total_of result with
        | Some t =>
            "⏱️ **Time Entry Activities** (Total: " +:+ str t +:+ ")"
            +:+ nl +:+ nl
            +:+ String.concat EmptyString (map activity_entry ds)
        | None => "❌ Error: 'total'"
        end).
Proof.
  intros Hc Hremote Hitems Hne Hkeys. unfold list_time_entry_activities.
  rewrite request_output, (get_client_ready w c Hc), Hremote, bind_ok.
  destruct (elements_read _ _ Hitems) as (env & emb & -> & Hemb & Hel).
  rewrite (get_some _ _ _ _ Hemb), bind_ok, (get_some _ _ _ _ Hel), bind_ok.
  rewrite (if_negb_true _ _ _ (truthy_list _ (objects_nonempty _ Hne))).
  unfold total_of.
  destruct (dict_lookup "total" env) as [t|] eqn:Htotal.
  - rewrite (getitem_some _ _ _ Htotal), bind_ok.
    rewrite (getitem_some _ _ _ Hemb), bind_ok.
    rewrite (getitem_some _ _ _ Hel), bind_ok, iter_list, bind_ok.
    rewrite (for_each_objects list_time_entry_activities_line activity_entry).
    + simpl. f_equal. by rewrite !append_assoc.
    + intros text d Hd. apply list_time_entry_activities_line_keys.
      exact (forallb_elem _ _ _ Hkeys Hd).
  - by rewrite (getitem_none _ _ Htotal).
Qed.

Lemma list_time_entry_activities_total_witness :
  output list_time_entry_activities
         (connected
            (VDict [("_type", VStr "Collection"); ("total", VInt 2);
                    ("count", VInt 2);
                    ("_embedded",
                     VDict [("elements",
                             VList [VDict [("id", VInt 1);
                                           ("name", VStr "Development");
                                           ("position", VInt 1);
                                           ("default", VBool true)];
                                    VDict [("id", VInt 2);
                                           ("name", VStr "Support");
                                           ("position", VInt 2);
                                           ("default", VBool false)]])])]))
  = Ok ("⏱️ **Time Entry Activities** (Total: 2)" +:+ nl +:+ nl
        +:+ "- **Development** (ID: 1)" +:+ nl
        +:+ "  ⭐ Default activity" +:+ nl
        +:+ "- **Support** (ID: 2)" +:+ nl).
Proof.
  exact (list_time_entry_activities_total
           (connected
              (VDict [("_type", VStr "Collection"); ("total", VInt 2);
                      ("count", VInt 2);
                      ("_embedded",
                       VDict [("elements",
                               VList [VDict [("id", VInt 1);
                                             ("name", VStr "Development");
                                             ("position", VInt 1);
                                             ("default", VBool true)];
                                      VDict [("id", VInt 2);
                                             ("name", VStr "Support");
                                             ("position", VInt 2);
                                             ("default", VBool false)]])])]))
           _ _
           [[("id", VInt 1); ("name", VStr "Development"); ("position", VInt 1);
             ("default", VBool true)];
            [("id", VInt 2); ("name", VStr "Support"); ("position", VInt 2);
             ("default", VBool false)]]
           eq_refl eq_refl eq_refl ltac:(discriminate) eq_refl).
Defined.
